(** * AivmManager: the model registry and the style-identifier codec

    A shallow embedding of [voicevox_engine/aivm_manager.py].

    Python values are modelled as follows.
    - [int] is [Z] (unbounded, as in Python); the bit operators [&], [|],
      [<<] and [~] are [Z.land], [Z.lor], [Z.shiftl] and [Z.lnot].
    - [str] is [string]; a string stands for its UTF-8 bytes, which is what
      [str.encode()] hands to the hash, and byte-wise lexicographic order on
      UTF-8 coincides with Python's code point order.
    - a raised exception is the [Raise] case of [result].
    - a [dict] is an association list in insertion order. *)

From Stdlib Require Import ZArith List String Ascii Bool Lia Permutation.
Import ListNotations.

Local Open Scope string_scope.
Local Open Scope list_scope.
Local Open Scope Z_scope.

(** ** Exceptions and results *)

(** The [detail] of an [HTTPException], by kind rather than by its text. *)
Inductive detail : Type :=
| ModelNameDoesNotExist
| InvalidAivmxFile
| ManifestVersionNotSupported (manifest_version : string)
| ModelArchitectureNotSupported
| WriteFailedNoSpace
| WriteFailedPermissionDenied
| WriteFailedReadOnly
| WriteFailed
| InvalidAivisHubUrl
| DownloadFailed
| ModelNotInstalled (aivm_uuid : string)
| AtLeastOneModelRequired.

Inductive exn : Type :=
| ValueError (msg : string)
| IndexError
| KeyError
| AssertionError
| OSError (msg : string)
| HTTPException (status_code : Z) (what : detail).

Inductive result (A : Type) : Type :=
| Ok (a : A)
| Raise (e : exn).
Arguments Ok {A} a.
Arguments Raise {A} e.

Definition bind {A B : Type} (m : result A) (k : A -> result B) : result B :=
  match m with
  | Ok a => k a
  | Raise e => Raise e
  end.

Notation "'let?' x ':=' m 'in' k" := (bind m (fun x => k))
  (at level 10, x name, m at level 100, k at level 200).

(** A list comprehension whose body may raise. *)
Fixpoint map_result {A B : Type} (f : A -> result B) (l : list A)
    : result (list B) :=
  match l with
  | [] => Ok []
  | a :: l' =>
      let? b := f a in
      let? bs := map_result f l' in
      Ok (b :: bs)
  end.

(** ** hashlib.md5 (RFC 1321) *)

Module MD5.

Definition mask32 : Z := Z.ones 32.

Definition add32 (x y : Z) : Z := Z.land (x + y) mask32.

Definition not32 (x : Z) : Z := Z.land (Z.lnot x) mask32.

Definition rotl32 (x c : Z) : Z :=
Z.land (Z.lor (Z.shiftl x c) (Z.shiftr x (32 - c))) mask32.

Definition K : list Z :=
[ 0xd76aa478; 0xe8c7b756; 0x242070db; 0xc1bdceee;
  0xf57c0faf; 0x4787c62a; 0xa8304613; 0xfd469501;
  0x698098d8; 0x8b44f7af; 0xffff5bb1; 0x895cd7be;
  0x6b901122; 0xfd987193; 0xa679438e; 0x49b40821;
  0xf61e2562; 0xc040b340; 0x265e5a51; 0xe9b6c7aa;
  0xd62f105d; 0x02441453; 0xd8a1e681; 0xe7d3fbc8;
  0x21e1cde6; 0xc33707d6; 0xf4d50d87; 0x455a14ed;
  0xa9e3e905; 0xfcefa3f8; 0x676f02d9; 0x8d2a4c8a;
  0xfffa3942; 0x8771f681; 0x6d9d6122; 0xfde5380c;
  0xa4beea44; 0x4bdecfa9; 0xf6bb4b60; 0xbebfbc70;
  0x289b7ec6; 0xeaa127fa; 0xd4ef3085; 0x04881d05;
  0xd9d4d039; 0xe6db99e5; 0x1fa27cf8; 0xc4ac5665;
  0xf4292244; 0x432aff97; 0xab9423a7; 0xfc93a039;
  0x655b59c3; 0x8f0ccc92; 0xffeff47d; 0x85845dd1;
  0x6fa87e4f; 0xfe2ce6e0; 0xa3014314; 0x4e0811a1;
  0xf7537e82; 0xbd3af235; 0x2ad7d2bb; 0xeb86d391 ].

Definition S : list Z :=
[ 7; 12; 17; 22; 7; 12; 17; 22; 7; 12; 17; 22; 7; 12; 17; 22;
  5; 9; 14; 20; 5; 9; 14; 20; 5; 9; 14; 20; 5; 9; 14; 20;
  4; 11; 16; 23; 4; 11; 16; 23; 4; 11; 16; 23; 4; 11; 16; 23;
  6; 10; 15; 21; 6; 10; 15; 21; 6; 10; 15; 21; 6; 10; 15; 21 ].

(** The bytes of a string. *)
Fixpoint bytes_of_string (s : string) : list Z :=
match s with
| EmptyString => []
| String c s' => Z.of_N (N_of_ascii c) :: bytes_of_string s'
end.

(** [n] as [k] little-endian bytes. *)
Fixpoint le_bytes (k : nat) (n : Z) : list Z :=
match k with
| O => []
| Datatypes.S k' => Z.land n 255 :: le_bytes k' (Z.shiftr n 8)
end.

(** Little-endian bytes as a number. *)
Fixpoint le_word (bs : list Z) : Z :=
match bs with
| [] => 0
| b :: bs' => Z.lor b (Z.shiftl (le_word bs') 8)
end.

(** Padding: a one bit, zeros up to 56 modulo 64, then the bit length on 64
  bits. *)
Definition pad (msg : list Z) : list Z :=
let len := Z.of_nat (List.length msg) in
let zeros := Z.to_nat ((55 - len) mod 64) in
msg ++ [128] ++ repeat 0 zeros ++ le_bytes 8 (Z.land (8 * len) (Z.ones 64)).

(** The sixteen words of a 64-byte block. *)
Fixpoint words (n : nat) (block : list Z) : list Z :=
match n with
| O => []
| Datatypes.S n' => le_word (firstn 4 block) :: words n' (skipn 4 block)
end.

Record state : Type := mkState { sa : Z; sb : Z; sc : Z; sd : Z }.

Definition init : state :=
mkState 0x67452301 0xefcdab89 0x98badcfe 0x10325476.

Definition round (M : list Z) (st : state) (i : nat) : state :=
let '(mkState A B C D) := st in
let iz := Z.of_nat i in
let '(F, g) :=
  if iz <? 16 then (Z.lor (Z.land B C) (Z.land (not32 B) D), iz)
  else if iz <? 32 then
    (Z.lor (Z.land D B) (Z.land (not32 D) C), (5 * iz + 1) mod 16)
  else if iz <? 48 then (Z.lxor B (Z.lxor C D), (3 * iz + 5) mod 16)
  else (Z.lxor C (Z.lor B (not32 D)), (7 * iz) mod 16) in
let F' := add32 (add32 (add32 F A) (nth i K 0)) (nth (Z.to_nat g) M 0) in
mkState D (add32 B (rotl32 F' (nth i S 0))) B C.

Definition process_block (st : state) (block : list Z) : state :=
let M := words 16 block in
let st' := fold_left (round M) (seq 0 64) st in
mkState (add32 (sa st) (sa st')) (add32 (sb st) (sb st'))
        (add32 (sc st) (sc st')) (add32 (sd st) (sd st')).

Fixpoint process (fuel : nat) (st : state) (bs : list Z) : state :=
match fuel, bs with
| O, _ => st
| _, [] => st
| Datatypes.S fuel', _ =>
    process fuel' (process_block st (firstn 64 bs)) (skipn 64 bs)
end.

(** [hashlib.md5(data).digest()]: sixteen bytes. *)
Definition digest (data : list Z) : list Z :=
let padded := pad data in
let st := process (List.length padded) init padded in
le_bytes 4 (sa st) ++ le_bytes 4 (sb st)
  ++ le_bytes 4 (sc st) ++ le_bytes 4 (sd st).

Definition hex_digit (n : Z) : ascii :=
ascii_of_N (Z.to_N (if n <? 10 then 48 + n else 87 + n)).

(** [hashlib.md5(data).hexdigest()]: thirty-two lower-case hex digits. *)
Definition hexdigest (data : list Z) : string :=
fold_right
  (fun b acc => String (hex_digit (Z.shiftr b 4))
                  (String (hex_digit (Z.land b 15)) acc))
  EmptyString (digest data).

End MD5.

(** [int(s, 16)] on a string of lower-case hex digits, as [hexdigest]
    returns. *)
Definition hex_value (c : ascii) : Z :=
  let n := Z.of_N (N_of_ascii c) in
  if n <? 58 then n - 48 else n - 87.

Fixpoint int16_acc (s : string) (acc : Z) : Z :=
  match s with
  | EmptyString => acc
  | String c s' => int16_acc s' (16 * acc + hex_value c)
  end.

Definition int16 (s : string) : Z := int16_acc s 0.

(** ** The style-identifier codec *)

Definition StyleId : Type := Z.

Definition MAX_UUID_BITS : Z := 27.
Definition UUID_BIT_MASK : Z := Z.shiftl 1 MAX_UUID_BITS - 1.
Definition LOCAL_STYLE_ID_BITS : Z := 5.
Definition LOCAL_STYLE_ID_MASK : Z := Z.shiftl 1 LOCAL_STYLE_ID_BITS - 1.
Definition SIGN_BIT : Z := Z.shiftl 1 31.

Definition local_style_id_to_style_id
    (local_style_id : Z) (speaker_uuid : string) : result StyleId :=
  if String.eqb speaker_uuid "" then
    Raise (ValueError "speaker_uuid must be a non-empty string")
  else if negb ((0 <=? local_style_id) && (local_style_id <=? 31)) then
    Raise (ValueError "local_style_id must be an integer between 0 and 31")
  else
    let uuid_hash :=
      Z.land (int16 (MD5.hexdigest (MD5.bytes_of_string speaker_uuid)))
             UUID_BIT_MASK in
    let local_style_id_masked := Z.land local_style_id LOCAL_STYLE_ID_MASK in
    let combined_id :=
      Z.lor (Z.shiftl uuid_hash LOCAL_STYLE_ID_BITS) local_style_id_masked in
    let combined_id :=
      if negb (Z.land combined_id SIGN_BIT =? 0)
      then Z.land combined_id (Z.lnot SIGN_BIT)
      else combined_id in
    Ok combined_id.

Definition style_id_to_local_style_id (style_id : StyleId) : Z :=
  Z.land style_id 0x1F.

(** [combine h l] is the body of [local_style_id_to_style_id] after the two
    guards, for a digest [h]. *)
Definition combine (h local_style_id : Z) : Z :=
  let uuid_hash := Z.land h UUID_BIT_MASK in
  let local_style_id_masked := Z.land local_style_id LOCAL_STYLE_ID_MASK in
  let combined_id :=
    Z.lor (Z.shiftl uuid_hash LOCAL_STYLE_ID_BITS) local_style_id_masked in
  if negb (Z.land combined_id SIGN_BIT =? 0)
  then Z.land combined_id (Z.lnot SIGN_BIT)
  else combined_id.


(** ** Strings, as Python's [str] methods treat them *)

Definition ascii_code (c : ascii) : Z := Z.of_N (N_of_ascii c).

Definition nonempty (s : string) : bool := negb (String.eqb s "").

(** [s.startswith(p)] *)
Definition startswith (p s : string) : bool := String.prefix p s.

(** [s.endswith(suf)] *)
Definition endswith (suf s : string) : bool :=
  let n := String.length s in
  let k := String.length suf in
  (k <=? n)%nat && String.eqb (String.substring (n - k) k s) suf.

(** [sub in s] *)
Fixpoint contains (sub s : string) : bool :=
  String.prefix sub s
  || match s with
     | EmptyString => false
     | String _ s' => contains sub s'
     end.

(** [s.lower()].  Only A-Z are mapped; no character outside ASCII has a
    lower-case form made of the letters the callers compare against. *)
Definition lower_ascii (c : ascii) : ascii :=
  let n := ascii_code c in
  if (65 <=? n) && (n <=? 90) then ascii_of_N (Z.to_N (n + 32)) else c.

Fixpoint lower (s : string) : string :=
  match s with
  | EmptyString => EmptyString
  | String c s' => String (lower_ascii c) (lower s')
  end.

(** [s.split(sep)] for a one-character separator. *)
Fixpoint split (sep : ascii) (s : string) : list string :=
  match s with
  | EmptyString => [EmptyString]
  | String c s' =>
      if Ascii.eqb c sep then EmptyString :: split sep s'
      else match split sep s' with
           | [] => [String c EmptyString]
           | w :: ws => String c w :: ws
           end
  end.

(** [s.split(sep, 1)[1]] when [sep in s]. *)
Fixpoint after_first (sep : ascii) (s : string) : option string :=
  match s with
  | EmptyString => None
  | String c s' => if Ascii.eqb c sep then Some s' else after_first sep s'
  end.

(** [int(s)] in base ten: surrounding white space, an optional sign, then
    digits, single underscores allowed between digits.  The white space
    [int] strips is tab to carriage return and the space; the separators
    28..31, which [str.isspace] counts, make [int] raise.  White space and
    decimal digits outside ASCII, which Python also accepts, are not
    recognised, and the interpreter's limit on the number of digits is
    left out: every string the interpreter rejects for another reason is
    rejected here. *)
Definition is_space (c : ascii) : bool :=
  let n := ascii_code c in
  ((9 <=? n) && (n <=? 13)) || (n =? 32).

Fixpoint lstrip (s : string) : string :=
  match s with
  | EmptyString => EmptyString
  | String c s' => if is_space c then lstrip s' else s
  end.

Fixpoint rstrip (s : string) : string :=
  match s with
  | EmptyString => EmptyString
  | String c s' =>
      match rstrip s' with
      | EmptyString => if is_space c then EmptyString else String c EmptyString
      | r => String c r
      end
  end.

Definition strip (s : string) : string := rstrip (lstrip s).

Definition is_digit (c : ascii) : bool :=
  let n := ascii_code c in (48 <=? n) && (n <=? 57).

Fixpoint digits_acc (s : string) (acc : Z) (after_digit : bool) : option Z :=
  match s with
  | EmptyString => if after_digit then Some acc else None
  | String c s' =>
      if is_digit c then digits_acc s' (10 * acc + (ascii_code c - 48)) true
      else if Ascii.eqb c "_" && after_digit then digits_acc s' acc false
      else None
  end.

Definition int (s : string) : result Z :=
  let unsigned body :=
    match digits_acc body 0 false with
    | Some n => Ok n
    | None => Raise (ValueError "invalid literal for int() with base 10")
    end in
  match strip s with
  | String "+" body => unsigned body
  | String "-" body => let? n := unsigned body in Ok (- n)
  | body => unsigned body
  end.

(** ** The manifest (aivmlib.schemas.aivm_manifest)

    The classes of the library, with the fields the manager reads and the
    types it reads them at.  A [UUID] is held as the string [str(uuid)]
    gives. *)

Inductive ModelArchitecture : Type :=
| StyleBertVITS2
| StyleBertVITS2JPExtra
| OtherArchitecture (tag : string).

Record AivmManifestVoiceSample : Type := {
  sample_audio : string;
  sample_transcript : string }.

Record AivmManifestSpeakerStyle : Type := {
  style_name : string;
  style_icon : option string;
  style_local_id : Z;
  style_voice_samples : list AivmManifestVoiceSample }.

Record AivmManifestSpeaker : Type := {
  spk_name : string;
  spk_icon : string;
  spk_supported_languages : list string;
  spk_uuid : string;
  spk_styles : list AivmManifestSpeakerStyle }.

Record AivmManifest : Type := {
  mf_manifest_version : string;
  mf_name : string;
  mf_license : option string;
  mf_model_architecture : ModelArchitecture;
  mf_uuid : string;
  mf_version : string;
  mf_speakers : list AivmManifestSpeaker }.

(** ** Speaker metadata (voicevox_engine.metas.Metas) *)

(** Modelled from the spec: [SpeakerStyle] is declared in
    [voicevox_engine/metas/Metas.py], which is not among the sources; the
    fields are the keyword arguments the manager constructs it with. *)
Record SpeakerStyle : Type := {
  ss_id : StyleId;
  ss_name : string;
  ss_type : string }.

(** Modelled from the spec: [StyleInfo], of the same missing module; the
    fields are the keyword arguments the manager constructs it with. *)
Record StyleInfo : Type := {
  si_id : StyleId;
  si_icon : string;
  si_portrait : option string;
  si_voice_samples : list string;
  si_voice_sample_transcripts : list string }.

(** Modelled from the spec: [Speaker], of the same missing module;
    [supported_features] is held as the one value the manager sets in it. *)
Record Speaker : Type := {
  sp_speaker_uuid : string;
  sp_name : string;
  sp_version : string;
  sp_permitted_synthesis_morphing : string;
  sp_styles : list SpeakerStyle }.

(** Modelled from the spec: [SpeakerInfo], of the same missing module. *)
Record SpeakerInfo : Type := {
  spi_policy : string;
  spi_portrait : string;
  spi_style_infos : list StyleInfo }.

(** Modelled from the spec: [LibrarySpeaker] is declared in
    [voicevox_engine/model.py], which is not among the sources: the pair of
    a speaker and its additional display metadata. *)
Record LibrarySpeaker : Type := {
  speaker : Speaker;
  speaker_info : SpeakerInfo }.

(** ** JSON values, as [response.json()] returns them *)

#[local] Unset Elimination Schemes.
Inductive json : Type :=
| JNull
| JBool (b : bool)
| JNumber (n : Z)
| JString (s : string)
| JArray (items : list json)
| JObject (fields : list (string * json)).
#[local] Set Elimination Schemes.

(** ** AivmInfo (voicevox_engine.model) *)

(** Modelled from the spec: [AivmInfo] is declared in
    [voicevox_engine/model.py], which is not among the sources; the fields
    are those of the spec's registry entry, under the names the manager
    constructs it with.  [latest_version] starts as the manifest's version
    string; it is typed as a JSON value because [fetch_latest_version]
    assigns to it whatever the catalog response carries under ["version"],
    before anything has checked that this is a version string. *)
Record AivmInfo : Type := {
  is_loaded : bool;
  is_update_available : bool;
  latest_version : json;
  file_path : string;
  file_size : Z;
  manifest : AivmManifest;
  speakers : list LibrarySpeaker }.

Definition set_is_loaded (b : bool) (i : AivmInfo) : AivmInfo :=
  {| is_loaded := b;
     is_update_available := is_update_available i;
     latest_version := latest_version i;
     file_path := file_path i;
     file_size := file_size i;
     manifest := manifest i;
     speakers := speakers i |}.

Definition set_is_update_available (b : bool) (i : AivmInfo) : AivmInfo :=
  {| is_loaded := is_loaded i;
     is_update_available := b;
     latest_version := latest_version i;
     file_path := file_path i;
     file_size := file_size i;
     manifest := manifest i;
     speakers := speakers i |}.

Definition set_latest_version (v : json) (i : AivmInfo) : AivmInfo :=
  {| is_loaded := is_loaded i;
     is_update_available := is_update_available i;
     latest_version := v;
     file_path := file_path i;
     file_size := file_size i;
     manifest := manifest i;
     speakers := speakers i |}.

(** A [dict[str, AivmInfo]]: keys in insertion order. *)
Definition aivm_dict : Type := list (string * AivmInfo).

Definition keys (d : aivm_dict) : list string := map fst d.

Definition values (d : aivm_dict) : list AivmInfo := map snd d.

(** [d[k]], [None] standing for [KeyError]. *)
Fixpoint lookup (k : string) (d : aivm_dict) : option AivmInfo :=
  match d with
  | [] => None
  | (k', v) :: d' => if String.eqb k k' then Some v else lookup k d'
  end.

(** [k in d] *)
Definition mem (k : string) (d : aivm_dict) : bool :=
  match lookup k d with Some _ => true | None => false end.

(** [d[k] = v] *)
Fixpoint setitem (k : string) (v : AivmInfo) (d : aivm_dict) : aivm_dict :=
  match d with
  | [] => [(k, v)]
  | (k', v') :: d' =>
      if String.eqb k k' then (k, v) :: d' else (k', v') :: setitem k v d'
  end.

(** ** Logging *)

Inductive level : Type := INFO | WARNING | ERROR.

(** What a log call reports; the text of the message is left out. *)
Inductive message : Type :=
| ModelsDirectory
| NoModelsInstalled
| InstallingDefaultModel (url : string)
| InstalledModels
| InstalledModel (name uuid : string)
| FileNotFound (path : string)
| NotAFile (path : string)
| FailedToReadMetadata (path : string)
| AlreadyInstalled (path uuid : string)
| InvalidManifestVersionFormat (path manifest_version : string)
| DifferentMajorVersion (path manifest_version : string)
| NewerThanSupported (path manifest_version : string)
| ArchitectureNotSupported (path : string)
| SpeakerWithoutJapanese (path speaker_uuid : string)
| FailedToStartUpdateTask
| FetchHttpError (uuid : string) (status_code : Z)
| FetchResponseText (uuid : string)
| FetchTimedOut (uuid : string)
| FetchFailed (uuid : string)
| UpdateAvailableModels
| UpdateAvailable (uuid : string)
| AivmxFileInvalid
| AlreadyInstalledUpdating (uuid : string)
| ManifestVersionUnsupported (manifest_version : string)
| ArchitectureUnsupported
| Installing (path : string)
| Installed (path : string)
| FailedToWrite (path : string)
| DetectedAivisHubUrl (url : string)
| Downloading (url : string)
| Downloaded (url : string)
| FailedToDownload (url : string)
| Uninstalling (path : string)
| Uninstalled (path : string)
| MustHaveOneModel.

Definition log_record : Type := (level * message)%type.

(** Code that logs and may raise; what was logged before an exception
    stays logged. *)
Definition W (A : Type) : Type := (result A * list log_record)%type.

Definition W_ret {A : Type} (a : A) : W A := (Ok a, []).

Definition W_bind {A B : Type} (m : W A) (k : A -> W B) : W B :=
  match m with
  | (Ok a, l1) => let '(r, l2) := k a in (r, l1 ++ l2)
  | (Raise e, l1) => (Raise e, l1)
  end.

Definition W_log (lv : level) (msg : message) : W unit := (Ok tt, [(lv, msg)]).

Definition W_lift {A : Type} (r : result A) : W A := (r, []).

Notation "'let!' x ':=' m 'in' k" := (W_bind m (fun x => k))
  (at level 10, x name, m at level 100, k at level 200).

(** ** The install directory

    A path inside the install directory is held as its file name; the
    directory lists its entries in the order [glob] meets them.
    [Unreadable] is a regular file that [open(path, "rb")] refuses with
    [PermissionError]. *)

Inductive node : Type :=
| RegularFile (data : list Z)
| Unreadable
| Directory
| BrokenLink.

Definition directory : Type := list (string * node).

Fixpoint node_at (path : string) (dir : directory) : option node :=
  match dir with
  | [] => None
  | (p, n) :: dir' => if String.eqb path p then Some n else node_at path dir'
  end.

(** [glob.glob(str(installed_aivm_dir / ("*" + suffix)))]: hidden names are
    not matched by a pattern that starts with [*]. *)
Definition glob (suffix : string) (dir : directory) : list (string * node) :=
  filter (fun e => negb (startswith "." (fst e)) && endswith suffix (fst e))
         dir.

(** The node at [path] becomes [n]; a new name is listed last. *)
Fixpoint put_node (path : string) (n : node) (dir : directory) : directory :=
  match dir with
  | [] => [(path, n)]
  | (p, n') :: dir' =>
      if String.eqb path p then (p, n) :: dir'
      else (p, n') :: put_node path n dir'
  end.

Definition remove_node (path : string) (dir : directory) : directory :=
  filter (fun e => negb (String.eqb path (fst e))) dir.

(** ** The collaborators outside the repository *)

(** [await client.get(url, timeout=5.0)] followed by [response.json()];
    [body = None] when [response.json()] raises. *)
Inductive fetch_outcome : Type :=
| FetchTimeout
| FetchFailure
| FetchResponse (status_code : Z) (body : option json).

(** [httpx.get(url, follow_redirects=True)] followed by
    [response.raise_for_status()], for an address [httpx] can parse:
    [DownloadHTTPError] stands for an [httpx.HTTPError] raised by the
    request itself.  An exception outside [httpx.HTTPError], such as
    [httpx.InvalidURL] for a malformed address, is not caught by the
    method and has no outcome here. *)
Inductive download_outcome : Type :=
| DownloadHTTPError
| DownloadResponse (status_code : Z) (content : list Z).

(** [open(path, "wb")] then [f.write(data)]: the write completes, [open]
    raises [OSError], or [write] raises [OSError] once [written] bytes are
    in the file. *)
Inductive write_outcome : Type :=
| WriteCompletes
| OpenRaises (msg : string)
| WriteRaises (written : nat) (msg : string).

Record Env : Type := {
  (** aivmlib: [None] stands for [AivmValidationError], the one exception
      the manager catches around the readers; a reader that raises
      anything else has no outcome here *)
  read_aivmx_metadata : list Z -> option AivmManifest;
  read_aivm_metadata : list Z -> option AivmManifest;
  (** the catalog, by URL *)
  hub_get : string -> fetch_outcome;
  http_get : string -> download_outcome;
  (** the disk, by path and data written *)
  disk_write : string -> list Z -> write_outcome;
  (** semver: [None] stands for [ValueError] *)
  Version : Type;
  Version_parse : string -> option Version;
  Version_gt : Version -> Version -> bool }.

(** ** AivmManager *)

Definition SUPPORTED_MANIFEST_VERSIONS : list string := ["1.0"].

Definition SUPPORTED_MODEL_ARCHITECTURES : list ModelArchitecture :=
  [StyleBertVITS2; StyleBertVITS2JPExtra].

Definition AIVISHUB_API_BASE_URL : string :=
  "https://api.aivis-project.com/v1".

Definition DEFAULT_MODEL_UUIDS : list string :=
  ["a59cb814-0083-4369-8542-f51a29e72af7"].

Definition architecture_eqb (a b : ModelArchitecture) : bool :=
  match a, b with
  | StyleBertVITS2, StyleBertVITS2 => true
  | StyleBertVITS2JPExtra, StyleBertVITS2JPExtra => true
  | OtherArchitecture s, OtherArchitecture t => String.eqb s t
  | _, _ => false
  end.

Definition extract_base64_from_data_url (data_url : string) : result string :=
  if negb (nonempty data_url) then Raise (ValueError "Data URL is empty.")
  else if negb (startswith "data:" data_url) then
    Raise (ValueError "Invalid data URL format.")
  else
    match after_first "," data_url with
    | Some base64_part => Ok base64_part
    | None => Raise (ValueError "Invalid data URL format.")
    end.

(** [sorted(items, key=lambda x: x[1].manifest.name)]: a stable sort. *)
Fixpoint insert_by_name (x : string * AivmInfo) (l : aivm_dict) : aivm_dict :=
  match l with
  | [] => [x]
  | y :: l' =>
      if String.ltb (mf_name (manifest (snd x))) (mf_name (manifest (snd y)))
      then x :: y :: l'
      else y :: insert_by_name x l'
  end.

Definition sorted_by_name (items : aivm_dict) : aivm_dict :=
  fold_left (fun acc x => insert_by_name x acc) items [].

Record manager : Type := {
  installed_aivm_dir : directory;
  _installed_aivm_infos : option aivm_dict;
  logger : list log_record;
  (** update checks handed to a background thread and not yet run *)
  background_update_checks : nat }.

Definition with_dir (dir : directory) (m : manager) : manager :=
  {| installed_aivm_dir := dir;
     _installed_aivm_infos := _installed_aivm_infos m;
     logger := logger m;
     background_update_checks := background_update_checks m |}.

Definition with_cache (c : option aivm_dict) (m : manager) : manager :=
  {| installed_aivm_dir := installed_aivm_dir m;
     _installed_aivm_infos := c;
     logger := logger m;
     background_update_checks := background_update_checks m |}.

Definition with_logs (l : list log_record) (m : manager) : manager :=
  {| installed_aivm_dir := installed_aivm_dir m;
     _installed_aivm_infos := _installed_aivm_infos m;
     logger := logger m ++ l;
     background_update_checks := background_update_checks m |}.

Definition with_background (n : nat) (m : manager) : manager :=
  {| installed_aivm_dir := installed_aivm_dir m;
     _installed_aivm_infos := _installed_aivm_infos m;
     logger := logger m;
     background_update_checks := n |}.

(** A method: it may raise, and what it did to the manager before raising
    stays done. *)
Definition M (A : Type) : Type := manager -> result A * manager.

Definition M_ret {A : Type} (a : A) : M A := fun m => (Ok a, m).

Definition M_bind {A B : Type} (c : M A) (k : A -> M B) : M B :=
  fun m =>
    match c m with
    | (Ok a, m') => k a m'
    | (Raise e, m') => (Raise e, m')
    end.

Definition M_raise {A : Type} (e : exn) : M A := fun m => (Raise e, m).

Definition M_log (lv : level) (msg : message) : M unit :=
  fun m => (Ok tt, with_logs [(lv, msg)] m).

Notation "'let*' x ':=' c 'in' k" := (M_bind c (fun x => k))
  (at level 10, x name, c at level 100, k at level 200).

Section Manager.

Variable E : Env.

(** *** get_installed_aivm_infos: one speaker of one manifest *)

Definition supports_japanese (speaker_manifest : AivmManifestSpeaker)
    : bool :=
  let supported_langs :=
    map lower (spk_supported_languages speaker_manifest) in
  existsb (fun lang => existsb (String.eqb lang) supported_langs)
          ["ja"; "ja-jp"].

Definition make_style (speaker_uuid speaker_icon : string)
    (style_manifest : AivmManifestSpeakerStyle)
    : result (SpeakerStyle * StyleInfo) :=
  let? style_id :=
    local_style_id_to_style_id (style_local_id style_manifest)
                               speaker_uuid in
  let speaker_style :=
    {| ss_id := style_id;
       ss_name := style_name style_manifest;
       ss_type := "talk" |} in
  let? icon :=
    match style_icon style_manifest with
    | Some i =>
        if nonempty i then extract_base64_from_data_url i
        else Ok speaker_icon
    | None => Ok speaker_icon
    end in
  let? voice_samples :=
    map_result (fun sample =>
                  extract_base64_from_data_url (sample_audio sample))
               (style_voice_samples style_manifest) in
  Ok (speaker_style,
      {| si_id := style_id;
         si_icon := icon;
         si_portrait := None;
         si_voice_samples := voice_samples;
         si_voice_sample_transcripts :=
           map sample_transcript (style_voice_samples style_manifest) |}).

Definition make_speaker (aivm_manifest : AivmManifest)
    (speaker_manifest : AivmManifestSpeaker) : result LibrarySpeaker :=
  let speaker_uuid := spk_uuid speaker_manifest in
  let? speaker_icon :=
    extract_base64_from_data_url (spk_icon speaker_manifest) in
  let? made :=
    map_result (make_style speaker_uuid speaker_icon)
               (spk_styles speaker_manifest) in
  let speaker_styles := map fst made in
  let style_infos := map snd made in
  Ok {| speaker :=
          {| sp_speaker_uuid := speaker_uuid;
             sp_name := spk_name speaker_manifest;
             sp_version := mf_version aivm_manifest;
             sp_permitted_synthesis_morphing := "NOTHING";
             sp_styles := speaker_styles |};
        speaker_info :=
          {| spi_policy :=
               match mf_license aivm_manifest with
               | Some l => if nonempty l then l else ""
               | None => ""
               end;
             spi_portrait := speaker_icon;
             spi_style_infos := style_infos |} |}.

(** The loop over [aivm_manifest.speakers]. *)
Fixpoint make_speakers (aivm_file_path : string)
    (aivm_manifest : AivmManifest)
    (speaker_manifests : list AivmManifestSpeaker)
    : W (list LibrarySpeaker) :=
  match speaker_manifests with
  | [] => W_ret []
  | speaker_manifest :: rest =>
      if negb (supports_japanese speaker_manifest) then
        let! _ := W_log WARNING
                    (SpeakerWithoutJapanese aivm_file_path
                                            (spk_uuid speaker_manifest)) in
        make_speakers aivm_file_path aivm_manifest rest
      else
        let! aivm_info_speaker :=
          W_lift (make_speaker aivm_manifest speaker_manifest) in
        let! others := make_speakers aivm_file_path aivm_manifest rest in
        W_ret (aivm_info_speaker :: others)
  end.

(** *** get_installed_aivm_infos: one file of the directory *)

Definition read_metadata (aivm_file_path : string) (data : list Z)
    : option AivmManifest :=
  if endswith ".aivmx" aivm_file_path
  then read_aivmx_metadata E data
  else read_aivm_metadata E data.

(** The body of the loop over [aivm_file_paths]; each early return of
    [aivm_infos] is a [continue]. *)
Definition scan_file (aivm_infos : aivm_dict) (entry : string * node)
    : W aivm_dict :=
  let aivm_file_path := fst entry in
  match snd entry with
  | Unreadable => (Raise (OSError "[Errno 13] Permission denied"), [])
  | BrokenLink =>
      let! _ := W_log WARNING (FileNotFound aivm_file_path) in
      W_ret aivm_infos
  | Directory =>
      let! _ := W_log WARNING (NotAFile aivm_file_path) in
      W_ret aivm_infos
  | RegularFile data =>
      match read_metadata aivm_file_path data with
      | None =>
          let! _ := W_log WARNING (FailedToReadMetadata aivm_file_path) in
          W_ret aivm_infos
      | Some aivm_manifest =>
          let aivm_uuid := mf_uuid aivm_manifest in
          if mem aivm_uuid aivm_infos then
            let! _ := W_log INFO
                        (AlreadyInstalled aivm_file_path aivm_uuid) in
            W_ret aivm_infos
          else
            let manifest_version := mf_manifest_version aivm_manifest in
            let manifest_version_parts := split "." manifest_version in
            if negb (Nat.eqb (List.length manifest_version_parts) 2) then
              let! _ := W_log WARNING
                          (InvalidManifestVersionFormat aivm_file_path
                                                        manifest_version) in
              W_ret aivm_infos
            else
              let! numbers :=
                W_lift (map_result int manifest_version_parts) in
              let manifest_major := nth 0 numbers 0 in
              let! supported_major :=
                W_lift
                  (int (nth 0 (split "."
                                 (nth 0 SUPPORTED_MANIFEST_VERSIONS ""))
                            "")) in
              if negb (manifest_major =? supported_major) then
                let! _ := W_log WARNING
                            (DifferentMajorVersion aivm_file_path
                                                   manifest_version) in
                W_ret aivm_infos
              else
                let! _ :=
                  if negb (existsb (String.eqb manifest_version)
                                   SUPPORTED_MANIFEST_VERSIONS)
                  then W_log WARNING
                         (NewerThanSupported aivm_file_path
                                             manifest_version)
                  else W_ret tt in
                if negb (existsb
                           (architecture_eqb
                              (mf_model_architecture aivm_manifest))
                           SUPPORTED_MODEL_ARCHITECTURES)
                then
                  let! _ := W_log WARNING
                              (ArchitectureNotSupported aivm_file_path) in
                  W_ret aivm_infos
                else
                  let! aivm_info_speakers :=
                    make_speakers aivm_file_path aivm_manifest
                                  (mf_speakers aivm_manifest) in
                  let aivm_info :=
                    {| is_loaded := false;
                       is_update_available := false;
                       latest_version := JString (mf_version aivm_manifest);
                       file_path := aivm_file_path;
                       file_size := Z.of_nat (List.length data);
                       manifest := aivm_manifest;
                       speakers := aivm_info_speakers |} in
                  W_ret (setitem aivm_uuid aivm_info aivm_infos)
      end
  end.

Fixpoint scan_files (aivm_infos : aivm_dict)
    (aivm_file_paths : list (string * node)) : W aivm_dict :=
  match aivm_file_paths with
  | [] => W_ret aivm_infos
  | entry :: rest =>
      let! aivm_infos' := scan_file aivm_infos entry in
      scan_files aivm_infos' rest
  end.

(** The load state moves over from the cache that is being replaced. *)
Definition carry_is_loaded (previous : aivm_dict) (item : string * AivmInfo)
    : string * AivmInfo :=
  let '(aivm_uuid, aivm_info) := item in
  match lookup aivm_uuid previous with
  | Some old => (aivm_uuid, set_is_loaded (is_loaded old) aivm_info)
  | None => (aivm_uuid, aivm_info)
  end.

(** *** check_aivm_updates_from_hub *)

(** [obj[key]] on a JSON value; [None] stands for [KeyError] or
    [TypeError]. *)
Fixpoint field (key : string) (fields : list (string * json))
    : option json :=
  match fields with
  | [] => None
  | (k, v) :: fields' => if String.eqb key k then Some v else field key fields'
  end.

Definition subscript (obj : json) (key : string) : option json :=
  match obj with
  | JObject fields => field key fields
  | _ => None
  end.

Fixpoint characters (s : string) : list json :=
  match s with
  | EmptyString => []
  | String c s' => JString (String c EmptyString) :: characters s'
  end.

(** [for file in obj]; [None] stands for [TypeError]. *)
Definition iterate (obj : json) : option (list json) :=
  match obj with
  | JArray items => Some items
  | JObject fields => Some (map (fun kv => JString (fst kv)) fields)
  | JString s => Some (characters s)
  | _ => None
  end.

Inductive search : Type :=
| SearchRaises
| Exhausted
| Found (file : json).

(** [next((file for file in files if file["model_type"] == "AIVMX"), None)] *)
Fixpoint first_aivmx (files : list json) : search :=
  match files with
  | [] => Exhausted
  | file :: rest =>
      match subscript file "model_type" with
      | None => SearchRaises
      | Some (JString "AIVMX") => Found file
      | Some _ => first_aivmx rest
      end
  end.

Definition model_info_url (aivm_uuid : string) : string :=
  (AIVISHUB_API_BASE_URL ++ "/aivm-models/" ++ aivm_uuid)%string.

(** One task of the pass.  The entry is mutated in place, so what was
    assigned before an exception stays assigned: the result is the entry
    as the task leaves it. *)
Definition fetch_latest_version (aivm_info : AivmInfo)
    : AivmInfo * list log_record :=
  let aivm_uuid := mf_uuid (manifest aivm_info) in
  let failed (i : AivmInfo) := (i, [(WARNING, FetchFailed aivm_uuid)]) in
  match hub_get E (model_info_url aivm_uuid) with
  | FetchTimeout => (aivm_info, [(WARNING, FetchTimedOut aivm_uuid)])
  | FetchFailure => failed aivm_info
  | FetchResponse status_code body =>
      if status_code =? 404 then (aivm_info, [])
      else if negb (status_code =? 200) then
        (aivm_info,
         [(WARNING, FetchHttpError aivm_uuid status_code);
          (WARNING, FetchResponseText aivm_uuid)])
      else
        match body with
        | None => failed aivm_info
        | Some model_info =>
            match subscript model_info "model_files" with
            | None => failed aivm_info
            | Some model_files =>
                match iterate model_files with
                | None => failed aivm_info
                | Some files =>
                    match first_aivmx files with
                    | SearchRaises => failed aivm_info
                    | Exhausted => (aivm_info, [])
                    | Found latest_aivmx_version =>
                        match subscript latest_aivmx_version "version" with
                        | None => failed aivm_info
                        | Some v =>
                            let aivm_info := set_latest_version v aivm_info in
                            match Version_parse E
                                    (mf_version (manifest aivm_info)) with
                            | None => failed aivm_info
                            | Some current_version =>
                                match latest_version aivm_info with
                                | JString text =>
                                    match Version_parse E text with
                                    | None => failed aivm_info
                                    | Some latest =>
                                        (set_is_update_available
                                           (Version_gt E latest
                                                       current_version)
                                           aivm_info, [])
                                    end
                                | _ => failed aivm_info
                                end
                            end
                        end
                    end
                end
            end
        end
  end.

(** The tasks of [asyncio.gather], taken in the order of the cache. *)
Fixpoint update_tasks (infos : aivm_dict) : aivm_dict * list log_record :=
  match infos with
  | [] => ([], [])
  | (aivm_uuid, aivm_info) :: rest =>
      let '(aivm_info', l1) := fetch_latest_version aivm_info in
      let '(rest', l2) := update_tasks rest in
      ((aivm_uuid, aivm_info') :: rest', l1 ++ l2)
  end.

Definition update_available_log (infos : aivm_dict) : list log_record :=
  let update_available_models := filter is_update_available (values infos) in
  match update_available_models with
  | [] => []
  | _ =>
      (INFO, UpdateAvailableModels)
      :: map (fun i => (INFO, UpdateAvailable (mf_uuid (manifest i))))
             update_available_models
  end.

Definition check_aivm_updates_from_hub : M unit :=
  fun m =>
    match _installed_aivm_infos m with
    | None => (Raise AssertionError, m)
    | Some infos =>
        let '(infos', logs) := update_tasks infos in
        (Ok tt,
         with_logs (logs ++ update_available_log infos')
                   (with_cache (Some infos') m))
    end.

(** A background thread started by [get_installed_aivm_infos] runs. *)
Definition run_background_update_check : M unit :=
  fun m =>
    match background_update_checks m with
    | O => (Ok tt, m)
    | S n => check_aivm_updates_from_hub (with_background n m)
    end.

(** *** get_installed_aivm_infos *)

Definition cached (m : manager) : aivm_dict :=
  match _installed_aivm_infos m with
  | Some infos => infos
  | None => []
  end.

Definition get_installed_aivm_infos (force wait_for_update_check : bool)
    : M aivm_dict :=
  fun m =>
    match _installed_aivm_infos m, force with
    | Some infos, false => (Ok infos, m)
    | previous, _ =>
        let aivm_file_paths :=
          glob ".aivmx" (installed_aivm_dir m)
          ++ glob ".aivm" (installed_aivm_dir m) in
        let '(scanned, logs) := scan_files [] aivm_file_paths in
        let m := with_logs logs m in
        match scanned with
        | Raise e => (Raise e, m)
        | Ok aivm_infos =>
            let sorted_aivm_infos := sorted_by_name aivm_infos in
            let sorted_aivm_infos :=
              match previous with
              | Some old => map (carry_is_loaded old) sorted_aivm_infos
              | None => sorted_aivm_infos
              end in
            let m := with_cache (Some sorted_aivm_infos) m in
            let m :=
              if wait_for_update_check then
                match check_aivm_updates_from_hub m with
                | (Ok _, m') => m'
                | (Raise _, m') =>
                    with_logs [(WARNING, FailedToStartUpdateTask)] m'
                end
              else
                with_background (S (background_update_checks m)) m in
            (Ok (cached m), m)
        end
    end.

Definition update_model_load_state (aivm_uuid : string) (loaded : bool)
    : M unit :=
  fun m =>
    match _installed_aivm_infos m with
    | Some infos =>
        match lookup aivm_uuid infos with
        | Some aivm_info =>
            (Ok tt,
             with_cache
               (Some (setitem aivm_uuid (set_is_loaded loaded aivm_info)
                              infos)) m)
        | None => (Ok tt, m)
        end
    | None => (Ok tt, m)
    end.

(** *** get_style_id_from_model_name *)

Definition has_speaker_named (model_name : string) (aivm_info : AivmInfo)
    : bool :=
  existsb (fun aivm_info_speaker =>
             String.eqb (sp_name (speaker aivm_info_speaker)) model_name)
          (speakers aivm_info).

Definition first_style_id (aivm_info : AivmInfo) : result StyleId :=
  match nth_error (speakers aivm_info) 0 with
  | None => Raise IndexError
  | Some first_speaker =>
      match nth_error (sp_styles (speaker first_speaker)) 0 with
      | None => Raise IndexError
      | Some first_style => Ok (ss_id first_style)
      end
  end.

Fixpoint style_id_from_model_name (model_name : string)
    (aivm_infos : list AivmInfo) : result StyleId :=
  match aivm_infos with
  | [] => Raise (HTTPException 500 ModelNameDoesNotExist)
  | aivm_info :: rest =>
      if has_speaker_named model_name aivm_info
      then first_style_id aivm_info
      else style_id_from_model_name model_name rest
  end.

Definition get_style_id_from_model_name (model_name : string) : M StyleId :=
  let* aivm_infos := get_installed_aivm_infos false false in
  fun m => (style_id_from_model_name model_name (values aivm_infos), m).

(** *** install_aivm *)

(** [open(path, "wb")] and [f.write(data)]; [Some msg] stands for an
    [OSError] whose text is [msg].  For a directory at the target the text
    is given without the path that the interpreter appends to it. *)
Definition write_file (path : string) (data : list Z) (dir : directory)
    : option string * directory :=
  match node_at path dir with
  | Some Directory => (Some "[Errno 21] Is a directory", dir)
  | _ =>
      match disk_write E path data with
      | WriteCompletes => (None, put_node path (RegularFile data) dir)
      | OpenRaises msg => (Some msg, dir)
      | WriteRaises written msg =>
          (Some msg, put_node path (RegularFile (firstn written data)) dir)
      end
  end.

Definition write_failure_detail (ex : string) : detail :=
  let error_message := lower ex in
  if contains "no space" error_message then WriteFailedNoSpace
  else if contains "permission denied" error_message
  then WriteFailedPermissionDenied
  else if contains "read-only" error_message then WriteFailedReadOnly
  else WriteFailed.

Definition install_aivm (file : list Z) : M unit :=
  let* read :=
    match read_aivmx_metadata E file with
    | Some aivm_manifest => M_ret (aivm_manifest, "aivmx")
    | None =>
        match read_aivm_metadata E file with
        | Some aivm_manifest => M_ret (aivm_manifest, "aivm")
        | None =>
            let* _ := M_log ERROR AivmxFileInvalid in
            M_raise (HTTPException 422 InvalidAivmxFile)
        end
    end in
  let aivm_manifest := fst read in
  let extension := snd read in
  let aivm_uuid := mf_uuid aivm_manifest in
  let aivm_file_path := (aivm_uuid ++ "." ++ extension)%string in
  let* installed := get_installed_aivm_infos false false in
  let* aivm_file_path :=
    if mem aivm_uuid installed then
      let* _ := M_log INFO (AlreadyInstalledUpdating aivm_uuid) in
      let* installed := get_installed_aivm_infos false false in
      match lookup aivm_uuid installed with
      | Some previous_aivm_info => M_ret (file_path previous_aivm_info)
      | None => M_raise KeyError
      end
    else M_ret aivm_file_path in
  if negb (existsb (String.eqb (mf_manifest_version aivm_manifest))
                   SUPPORTED_MANIFEST_VERSIONS)
  then
    let* _ := M_log ERROR (ManifestVersionUnsupported
                             (mf_manifest_version aivm_manifest)) in
    M_raise (HTTPException 422
               (ManifestVersionNotSupported
                  (mf_manifest_version aivm_manifest)))
  else if negb (existsb (architecture_eqb
                           (mf_model_architecture aivm_manifest))
                        SUPPORTED_MODEL_ARCHITECTURES)
  then
    let* _ := M_log ERROR ArchitectureUnsupported in
    M_raise (HTTPException 422 ModelArchitectureNotSupported)
  else
    let* _ := M_log INFO (Installing aivm_file_path) in
    let* _ :=
      fun m =>
        match write_file aivm_file_path file (installed_aivm_dir m) with
        | (None, dir) =>
            (Ok tt,
             with_logs [(INFO, Installed aivm_file_path)] (with_dir dir m))
        | (Some ex, dir) =>
            (Raise (HTTPException 500 (write_failure_detail ex)),
             with_logs [(ERROR, FailedToWrite aivm_file_path)]
                       (with_dir dir m))
        end in
    let* _ := get_installed_aivm_infos true true in
    M_ret tt.

(** *** install_aivm_from_url *)

Definition is_hex (c : ascii) : bool :=
  let n := ascii_code c in
  ((48 <=? n) && (n <=? 57)) || ((97 <=? n) && (n <=? 102)).

(** [n] characters of [[0-9a-f]], and what follows them. *)
Fixpoint hex_run (n : nat) (s : string) : option (string * string) :=
  match n, s with
  | O, _ => Some (EmptyString, s)
  | S n', String c s' =>
      if is_hex c then
        match hex_run n' s' with
        | Some (run, rest) => Some (String c run, rest)
        | None => None
        end
      else None
  | S _, EmptyString => None
  end.

Definition dash (s : string) : option string :=
  match s with
  | String "-" s' => Some s'
  | _ => None
  end.

(** A match of the group 8-4-4-4-12 at the head of [s]. *)
Definition uuid_at (s : string) : option string :=
  match hex_run 8 s with
  | Some (g1, s1) =>
    match dash s1 with
    | Some s1 =>
      match hex_run 4 s1 with
      | Some (g2, s2) =>
        match dash s2 with
        | Some s2 =>
          match hex_run 4 s2 with
          | Some (g3, s3) =>
            match dash s3 with
            | Some s3 =>
              match hex_run 4 s3 with
              | Some (g4, s4) =>
                match dash s4 with
                | Some s4 =>
                  match hex_run 12 s4 with
                  | Some (g5, _) =>
                      Some (g1 ++ "-" ++ g2 ++ "-" ++ g3 ++ "-" ++ g4
                               ++ "-" ++ g5)%string
                  | None => None
                  end
                | None => None
                end
              | None => None
              end
            | None => None
            end
          | None => None
          end
        | None => None
        end
      | None => None
      end
    | None => None
    end
  | None => None
  end.

Fixpoint drop (n : nat) (s : string) : string :=
  match n, s with
  | O, _ => s
  | S n', String _ s' => drop n' s'
  | S _, EmptyString => EmptyString
  end.

(** [re.search(r"/aivm-models/(8-4-4-4-12 hex)", s).group(1)]: the
    leftmost match. *)
Fixpoint uuid_search (s : string) : option string :=
  let here :=
    if startswith "/aivm-models/" s then uuid_at (drop 13 s) else None in
  match here with
  | Some aivm_uuid => Some aivm_uuid
  | None =>
      match s with
      | EmptyString => None
      | String _ s' => uuid_search s'
      end
  end.

Definition download_url (aivm_uuid : string) : string :=
  (AIVISHUB_API_BASE_URL ++ "/aivm-models/" ++ aivm_uuid
     ++ "/download?model_type=AIVMX")%string.

Definition install_aivm_from_url (url : string) : M unit :=
  let* url :=
    if startswith "https://hub.aivis-project.com/aivm-models/" url then
      match uuid_search (lower url) with
      | None => M_raise (HTTPException 422 InvalidAivisHubUrl)
      | Some aivm_uuid =>
          let url := download_url aivm_uuid in
          let* _ := M_log INFO (DetectedAivisHubUrl url) in
          M_ret url
      end
    else M_ret url in
  let* _ := M_log INFO (Downloading url) in
  let download_failed : M unit :=
    let* _ := M_log ERROR (FailedToDownload url) in
    M_raise (HTTPException 500 DownloadFailed) in
  match http_get E url with
  | DownloadHTTPError => download_failed
  | DownloadResponse status_code content =>
      if (200 <=? status_code) && (status_code <=? 299) then
        let* _ := M_log INFO (Downloaded url) in
        install_aivm content
      else download_failed
  end.

(** *** uninstall_aivm *)

(** [path.unlink(missing_ok=True)] *)
Definition unlink (path : string) (dir : directory)
    : option string * directory :=
  match node_at path dir with
  | Some Directory => (Some "[Errno 21] Is a directory", dir)
  | _ => (None, remove_node path dir)
  end.

Definition uninstall_aivm (aivm_uuid : string) : M unit :=
  let* installed_aivm_infos := get_installed_aivm_infos false false in
  match lookup aivm_uuid installed_aivm_infos with
  | None => M_raise (HTTPException 404 (ModelNotInstalled aivm_uuid))
  | Some aivm_info =>
      if (List.length installed_aivm_infos <=? 1)%nat then
        let* _ := M_log ERROR MustHaveOneModel in
        M_raise (HTTPException 400 AtLeastOneModelRequired)
      else
        let* _ := M_log INFO (Uninstalling (file_path aivm_info)) in
        let* _ :=
          fun m =>
            match unlink (file_path aivm_info) (installed_aivm_dir m) with
            | (None, dir) => (Ok tt, with_dir dir m)
            | (Some ex, dir) => (Raise (OSError ex), with_dir dir m)
            end in
        let* _ := M_log INFO (Uninstalled (file_path aivm_info)) in
        let* _ := get_installed_aivm_infos true true in
        M_ret tt
  end.

(** *** __init__ *)

Fixpoint for_each {A : Type} (l : list A) (body : A -> M unit) : M unit :=
  match l with
  | [] => M_ret tt
  | a :: l' => let* _ := body a in for_each l' body
  end.

(** The constructor, run on the attributes as it first sets them. *)
Definition __init__ (dir : directory) : result unit * manager :=
  (let* _ := M_log INFO ModelsDirectory in
   let* current_installed_aivm_infos :=
     get_installed_aivm_infos false false in
   if Nat.eqb (List.length current_installed_aivm_infos) 0 then
     let* _ := M_log WARNING NoModelsInstalled in
     for_each DEFAULT_MODEL_UUIDS
       (fun aivm_uuid =>
          let url := download_url aivm_uuid in
          let* _ := M_log INFO (InstallingDefaultModel url) in
          install_aivm_from_url url)
   else
     let* _ := M_log INFO InstalledModels in
     for_each (values current_installed_aivm_infos)
       (fun aivm_info =>
          M_log INFO (InstalledModel (mf_name (manifest aivm_info))
                                     (mf_uuid (manifest aivm_info)))))
    {| installed_aivm_dir := dir;
       _installed_aivm_infos := None;
       logger := [];
       background_update_checks := O |}.

End Manager.

(** ** A small world to run the manager in

    Stand-ins for aivmlib, semver, the catalog and the disk: packages whose
    first byte selects one of a few manifests, versions of the form
    MAJOR.MINOR.PATCH, and a catalog and a disk that are given per run. *)

Module Fixture.

Definition png : string := "data:image/png;base64,iVBORw0KGgo=".
Definition wav : string := "data:audio/wav;base64,UklGRg==".

Definition style (local_id : Z) (name : string) : AivmManifestSpeakerStyle :=
  {| style_name := name;
     style_icon := None;
     style_local_id := local_id;
     style_voice_samples :=
       [{| sample_audio := wav; sample_transcript := "sample" |}] |}.

Definition speaker_of (name icon uuid : string)
    (styles : list AivmManifestSpeakerStyle) : AivmManifestSpeaker :=
  {| spk_name := name;
     spk_icon := icon;
     spk_supported_languages := ["ja"];
     spk_uuid := uuid;
     spk_styles := styles |}.

Definition manifest_of (name uuid version : string)
    (speakers : list AivmManifestSpeaker) : AivmManifest :=
  {| mf_manifest_version := "1.0";
     mf_name := name;
     mf_license := None;
     mf_model_architecture := StyleBertVITS2JPExtra;
     mf_uuid := uuid;
     mf_version := version;
     mf_speakers := speakers |}.

Definition uuid_a : string := "a59cb814-0083-4369-8542-f51a29e72af7".
Definition uuid_b : string := "22e8ed77-94fe-4ef2-871f-a86f94e9a579".
Definition uuid_c : string := "0f3a6c1e-5b2d-4c7a-9e34-6d1b8a2c4f50".

Definition speaker_a1 : AivmManifestSpeaker :=
  speaker_of "Anneli" png "e756b8e4-b606-4e15-99b1-3f9c6a1b2175"
             [style 0 "Normal"; style 1 "Happy"].

Definition speaker_a2 : AivmManifestSpeaker :=
  speaker_of "Mai" png "4cf3e1d8-5583-41a9-a554-b2d2cda2c569"
             [style 0 "Normal"].

(** Two speakers; the second is the one looked up by name below. *)
Definition manifest_a : AivmManifest :=
  manifest_of "Anneli" uuid_a "1.0.0" [speaker_a1; speaker_a2].

Definition manifest_b : AivmManifest :=
  manifest_of "Koharu" uuid_b "1.1.0"
    [speaker_of "Koharu" png "b1a81618-b27b-40d2-b0ea-27a9ad408c4b"
                [style 0 "Normal"]].

(** A manifest whose speaker icon is not a data URL. *)
Definition manifest_c : AivmManifest :=
  manifest_of "Remote" uuid_c "1.0.0"
    [speaker_of "Remote" "https://example.com/icon.png"
                "7d0f4f0a-1c39-4b02-8a55-0a1e5d4b9e11" [style 0 "Normal"]].

Definition read (data : list Z) : option AivmManifest :=
  match data with
  | 1 :: _ => Some manifest_a
  | 2 :: _ => Some manifest_b
  | 3 :: _ => Some manifest_c
  | _ => None
  end.

(** MAJOR.MINOR.PATCH, each a run of digits. *)
Definition number (s : string) : option Z := digits_acc s 0 false.

Definition parse (s : string) : option (Z * Z * Z) :=
  match map number (split "." s) with
  | [Some major; Some minor; Some patch] => Some (major, minor, patch)
  | _ => None
  end.

Definition gt (x y : Z * Z * Z) : bool :=
  let '(a, b, c) := x in
  let '(a', b', c') := y in
  (a' <? a) || ((a =? a') && ((b' <? b) || ((b =? b') && (c' <? c)))).

Definition env (hub : string -> fetch_outcome)
    (get : string -> download_outcome)
    (disk : string -> list Z -> write_outcome) : Env :=
  {| read_aivmx_metadata := read;
     read_aivm_metadata := fun _ => None;
     hub_get := hub;
     http_get := get;
     disk_write := disk;
     Version := (Z * Z * Z)%type;
     Version_parse := parse;
     Version_gt := gt |}.

(** Nothing can be reached and every write completes. *)
Definition offline : Env :=
  env (fun _ => FetchFailure) (fun _ => DownloadHTTPError)
      (fun _ _ => WriteCompletes).

Definition manager_of (dir : directory) (cache : option aivm_dict)
    : manager :=
  {| installed_aivm_dir := dir;
     _installed_aivm_infos := cache;
     logger := [];
     background_update_checks := O |}.

(** The cache a first scan of [dir] builds. *)
Definition scanned (dir : directory) : manager :=
  snd (get_installed_aivm_infos offline false false (manager_of dir None)).

(** A directory with two packages, a second file of the first identity,
    a file that is no package, a sub-directory and a dangling link. *)
Definition dir_mixed : directory :=
  [ ("koharu.aivmx", RegularFile [2; 0]);
    ("anneli.aivmx", RegularFile [1; 0; 0]);
    ("copy-of-anneli.aivmx", RegularFile [1; 5]);
    ("notes.aivmx", RegularFile [9]);
    ("backup.aivmx", Directory);
    ("gone.aivmx", BrokenLink) ].

Definition dir_anneli : directory := [("anneli.aivmx", RegularFile [1; 0; 0])].

(** The first model was loaded, then its file left the directory and
    another package arrived. *)
Definition after_load : manager :=
  with_dir [("koharu.aivmx", RegularFile [2; 0])]
    (snd (update_model_load_state uuid_a true (scanned dir_anneli))).

(** Both packages cached, the second one loaded. *)
Definition both_loaded_b : manager :=
  snd (update_model_load_state uuid_b true (scanned dir_mixed)).

(** A valid package next to one whose speaker icon is a plain URL. *)
Definition dir_remote_icon : directory :=
  [ ("anneli.aivmx", RegularFile [1; 0; 0]);
    ("remote.aivmx", RegularFile [3]) ].

Definition listing (version : json) : fetch_outcome :=
  FetchResponse 200
    (Some (JObject
             [("model_files",
               JArray [JObject [("model_type", JString "AIVM");
                                ("version", JString "0.9.0")];
                       JObject [("model_type", JString "AIVMX");
                                ("version", version)]])])).

(** A catalog that lists the first model with a version that is no
    semantic version, and the second with 1.2.0. *)
Definition catalog (url : string) : fetch_outcome :=
  if String.eqb url (model_info_url uuid_a) then listing (JString "latest")
  else if String.eqb url (model_info_url uuid_b)
  then listing (JString "1.2.0")
  else FetchResponse 404 None.

Definition online : Env :=
  env catalog (fun _ => DownloadHTTPError) (fun _ _ => WriteCompletes).

(** A disk that is full once two bytes of a file are written. *)
Definition disk_full : Env :=
  env (fun _ => FetchFailure) (fun _ => DownloadHTTPError)
      (fun _ _ => WriteRaises 2 "[Errno 28] No space left on device").

(** A valid package next to a file that cannot be opened. *)
Definition dir_unreadable : directory :=
  [ ("anneli.aivmx", RegularFile [1; 0; 0]);
    ("locked.aivmx", Unreadable) ].

(** A newer package of the first model. *)
Definition anneli_update : list Z := [1; 7; 7; 7].

End Fixture.

(** ** Vocabulary of the statements *)

Section Vocabulary.

Variable E : Env.

Definition scanned_entry (aivm_file_path : string) (data : list Z)
    (aivm_manifest : AivmManifest) (made : list LibrarySpeaker) : AivmInfo :=
  {| is_loaded := false;
     is_update_available := false;
     latest_version := JString (mf_version aivm_manifest);
     file_path := aivm_file_path;
     file_size := Z.of_nat (List.length data);
     manifest := aivm_manifest;
     speakers := made |}.

(** What the scan knows of an entry it has added from [files]. *)
Definition from_files (files : list (string * node)) (item : string * AivmInfo)
    : Prop :=
  exists data made,
    In (file_path (snd item), RegularFile data) files
    /\ read_metadata E (file_path (snd item)) data
       = Some (manifest (snd item))
    /\ fst item = mf_uuid (manifest (snd item))
    /\ snd item
       = scanned_entry (file_path (snd item)) data (manifest (snd item)) made.

Definition aivm_file_paths (m : manager) : list (string * node) :=
  glob ".aivmx" (installed_aivm_dir m) ++ glob ".aivm" (installed_aivm_dir m).

(** The cache a rescan publishes, from what the scan of the files
    returned. *)
Definition rescanned (m : manager) (wait_for_update_check : bool)
    (aivm_infos : aivm_dict) : aivm_dict :=
  let sorted_aivm_infos := sorted_by_name aivm_infos in
  let carried :=
    match _installed_aivm_infos m with
    | Some old => map (carry_is_loaded old) sorted_aivm_infos
    | None => sorted_aivm_infos
    end in
  if wait_for_update_check then fst (update_tasks E carried) else carried.

(** The path [install_aivm] writes a package to: the path of the cached
    entry of the same identity, or else the identity with the extension
    of the format that was read. *)
Definition install_path (infos : aivm_dict) (aivm_manifest : AivmManifest)
    (extension : string) : string :=
  match lookup (mf_uuid aivm_manifest) infos with
  | Some previous_aivm_info => file_path previous_aivm_info
  | None => (mf_uuid aivm_manifest ++ "." ++ extension)%string
  end.

(** What the conversion of a manifest needs in order not to raise: data
    URLs where [extract_base64_from_data_url] is applied, speaker
    identities and local indices that [local_style_id_to_style_id] accepts,
    and numbers in a two-part manifest version. *)
Definition is_data_url (s : string) : bool :=
  startswith "data:" s
  && match after_first "," s with Some _ => true | None => false end.

Definition well_formed_style (style_manifest : AivmManifestSpeakerStyle)
    : Prop :=
  0 <= style_local_id style_manifest <= 31
  /\ match style_icon style_manifest with
     | Some i => if nonempty i then is_data_url i = true else True
     | None => True
     end
  /\ Forall (fun sample => is_data_url (sample_audio sample) = true)
            (style_voice_samples style_manifest).

Definition well_formed_speaker (speaker_manifest : AivmManifestSpeaker)
    : Prop :=
  spk_uuid speaker_manifest <> ""
  /\ is_data_url (spk_icon speaker_manifest) = true
  /\ Forall well_formed_style (spk_styles speaker_manifest).

Definition well_formed (aivm_manifest : AivmManifest) : Prop :=
  (List.length (split "." (mf_manifest_version aivm_manifest)) = 2%nat ->
   exists numbers,
     map_result int (split "." (mf_manifest_version aivm_manifest))
     = Ok numbers)
  /\ Forall (fun s => supports_japanese s = true -> well_formed_speaker s)
            (mf_speakers aivm_manifest).

End Vocabulary.

(** ** The other methods of AivmManager *)

(** Modelled from the spec: [Character] is declared in
    [voicevox_engine/metas/MetasStore.py], which is not among the sources;
    the fields are the keyword arguments [get_characters] constructs it
    with. *)
Record Character : Type := {
  ch_name : string;
  ch_uuid : string;
  ch_talk_styles : list SpeakerStyle;
  ch_sing_styles : list SpeakerStyle;
  ch_version : string;
  ch_supported_features : string }.

(** The [detail] of the [HTTPException]s that only the methods below raise. *)
Inductive lookup_detail : Type :=
| SpeakerNotInstalled (speaker_uuid : string)
| StyleDoesNotExist (style_id : StyleId)
| NoUpdateAvailable (aivm_uuid : string).

(** What leaves a method below: an exception of the methods above, or an
    [HTTPException] with one of the details just given. *)
Inductive raised : Type :=
| Raised (e : exn)
| RaisedHTTP (status_code : Z) (what : lookup_detail).

Inductive outcome (A : Type) : Type :=
| Return (a : A)
| Fail (r : raised).
Arguments Return {A} a.
Arguments Fail {A} r.

Definition Q (A : Type) : Type := manager -> outcome A * manager.

(** A method above, called from a method below. *)
Definition Q_call {A B : Type} (c : M A) (k : A -> Q B) : Q B :=
  fun m =>
    match c m with
    | (Ok a, m') => k a m'
    | (Raise e, m') => (Fail (Raised e), m')
    end.

(** [sorted(items, key=key)] for a key that is a string: a stable sort. *)
Fixpoint insert_by {A : Type} (key : A -> string) (x : A) (l : list A)
    : list A :=
  match l with
  | [] => [x]
  | y :: l' =>
      if String.ltb (key x) (key y) then x :: y :: l'
      else y :: insert_by key x l'
  end.

Definition sorted_by {A : Type} (key : A -> string) (items : list A)
    : list A :=
  fold_left (fun acc x => insert_by key x acc) items [].

(** The records [update_aivm] logs itself. *)
Inductive update_record : Type :=
| UpdatingModel (aivm_uuid : string) (latest : json)
| UpdatedModel (aivm_uuid : string) (latest : json).

Section OtherMethods.

Variable E : Env.

(** *** get_speakers and get_characters *)

Definition all_speakers (aivm_infos : aivm_dict) : list Speaker :=
  flat_map (fun aivm_info => map speaker (speakers aivm_info))
           (values aivm_infos).

Definition get_speakers : M (list Speaker) :=
  let* aivm_infos := get_installed_aivm_infos E false false in
  M_ret (sorted_by sp_name (all_speakers aivm_infos)).

Definition character_of (s : Speaker) : Character :=
  {| ch_name := sp_name s;
     ch_uuid := sp_speaker_uuid s;
     ch_talk_styles := sp_styles s;
     ch_sing_styles := [];
     ch_version := sp_version s;
     ch_supported_features := sp_permitted_synthesis_morphing s |}.

Definition get_characters : M (list Character) :=
  let* speakers := get_speakers in
  M_ret (map character_of speakers).

(** *** get_speaker_info *)

Definition speaker_info_of (speaker_uuid : string) (aivm_infos : aivm_dict)
    : option SpeakerInfo :=
  option_map speaker_info
    (find (fun aivm_info_speaker =>
             String.eqb (sp_speaker_uuid (speaker aivm_info_speaker))
                        speaker_uuid)
          (flat_map speakers (values aivm_infos))).

Definition get_speaker_info (speaker_uuid : string) : Q SpeakerInfo :=
  Q_call (get_installed_aivm_infos E false false)
    (fun aivm_infos m =>
       match speaker_info_of speaker_uuid aivm_infos with
       | Some info => (Return info, m)
       | None =>
           (Fail (RaisedHTTP 404 (SpeakerNotInstalled speaker_uuid)), m)
       end).

(** *** get_aivm_info *)

Definition get_aivm_info (aivm_uuid : string) : M AivmInfo :=
  let* aivm_infos := get_installed_aivm_infos E false false in
  match find (fun aivm_info =>
                String.eqb (mf_uuid (manifest aivm_info)) aivm_uuid)
             (values aivm_infos) with
  | Some aivm_info => M_ret aivm_info
  | None => M_raise (HTTPException 404 (ModelNotInstalled aivm_uuid))
  end.

(** *** get_aivm_manifest_from_style_id *)

(** The two inner loops: over the speakers of the manifest and, for a
    speaker of the identity looked for, over its styles. *)
Fixpoint manifest_style (speaker_uuid : string) (local_style_id : Z)
    (speaker_manifests : list AivmManifestSpeaker)
    : option (AivmManifestSpeaker * AivmManifestSpeakerStyle) :=
  match speaker_manifests with
  | [] => None
  | aivm_manifest_speaker :: rest =>
      if String.eqb (spk_uuid aivm_manifest_speaker) speaker_uuid then
        match find (fun aivm_manifest_style =>
                      style_local_id aivm_manifest_style =? local_style_id)
                   (spk_styles aivm_manifest_speaker) with
        | Some aivm_manifest_style =>
            Some (aivm_manifest_speaker, aivm_manifest_style)
        | None => manifest_style speaker_uuid local_style_id rest
        end
      else manifest_style speaker_uuid local_style_id rest
  end.

(** The loop over the styles of one cached speaker. *)
Fixpoint in_styles (style_id : StyleId) (aivm_info : AivmInfo)
    (aivm_info_speaker : LibrarySpeaker) (styles : list SpeakerStyle)
    : option (AivmManifest * AivmManifestSpeaker * AivmManifestSpeakerStyle) :=
  match styles with
  | [] => None
  | aivm_info_speaker_style :: rest =>
      if ss_id aivm_info_speaker_style =? style_id then
        let aivm_manifest := manifest aivm_info in
        match manifest_style
                (sp_speaker_uuid (speaker aivm_info_speaker))
                (style_id_to_local_style_id style_id)
                (mf_speakers aivm_manifest) with
        | Some (aivm_manifest_speaker, aivm_manifest_style) =>
            Some (aivm_manifest, aivm_manifest_speaker, aivm_manifest_style)
        | None => in_styles style_id aivm_info aivm_info_speaker rest
        end
      else in_styles style_id aivm_info aivm_info_speaker rest
  end.

(** The loop over the speakers of one cached model. *)
Fixpoint in_speakers (style_id : StyleId) (aivm_info : AivmInfo)
    (aivm_info_speakers : list LibrarySpeaker)
    : option (AivmManifest * AivmManifestSpeaker * AivmManifestSpeakerStyle) :=
  match aivm_info_speakers with
  | [] => None
  | aivm_info_speaker :: rest =>
      match in_styles style_id aivm_info aivm_info_speaker
                      (sp_styles (speaker aivm_info_speaker)) with
      | Some found => Some found
      | None => in_speakers style_id aivm_info rest
      end
  end.

(** The loop over the cached models. *)
Fixpoint in_models (style_id : StyleId) (aivm_infos : list AivmInfo)
    : option (AivmManifest * AivmManifestSpeaker * AivmManifestSpeakerStyle) :=
  match aivm_infos with
  | [] => None
  | aivm_info :: rest =>
      match in_speakers style_id aivm_info (speakers aivm_info) with
      | Some found => Some found
      | None => in_models style_id rest
      end
  end.

Definition get_aivm_manifest_from_style_id (style_id : StyleId)
    : Q (AivmManifest * AivmManifestSpeaker * AivmManifestSpeakerStyle) :=
  Q_call (get_installed_aivm_infos E false false)
    (fun aivm_infos m =>
       match in_models style_id (values aivm_infos) with
       | Some found => (Return found, m)
       | None => (Fail (RaisedHTTP 404 (StyleDoesNotExist style_id)), m)
       end).

(** *** update_aivm *)

(** Besides the outcome and the manager, the records the method logs
    itself, in order: the first before [install_aivm_from_url] is called,
    the second after it has returned. *)
Definition update_aivm (aivm_uuid : string)
    : manager -> outcome unit * manager * list update_record :=
  fun m =>
    match get_installed_aivm_infos E false false m with
    | (Raise e, m1) => (Fail (Raised e), m1, [])
    | (Ok installed_aivm_infos, m1) =>
        match lookup aivm_uuid installed_aivm_infos with
        | None =>
            (Fail (Raised (HTTPException 404 (ModelNotInstalled aivm_uuid))),
             m1, [])
        | Some aivm_info =>
            if negb (is_update_available aivm_info) then
              (Fail (RaisedHTTP 422 (NoUpdateAvailable aivm_uuid)), m1, [])
            else
              let updating :=
                UpdatingModel aivm_uuid (latest_version aivm_info) in
              match install_aivm_from_url E (download_url aivm_uuid) m1 with
              | (Raise e, m2) => (Fail (Raised e), m2, [updating])
              | (Ok _, m2) =>
                  (Return tt, m2,
                   [updating;
                    UpdatedModel aivm_uuid (latest_version aivm_info)])
              end
        end
    end.

End OtherMethods.

From Stdlib Require Import Sorted.

(** ** Vocabulary of the further statements *)

Section FurtherVocabulary.

Variable E : Env.

(** A manifest version the scan lets through: two parts, both numbers to
    [int], the first of them 1. *)
Definition accepted_version (manifest_version : string) : Prop :=
  exists numbers,
    List.length (split "." manifest_version) = 2%nat
    /\ map_result int (split "." manifest_version) = Ok numbers
    /\ nth 0 numbers 0 = 1.

Definition supported_architecture (aivm_manifest : AivmManifest) : bool :=
  existsb (architecture_eqb (mf_model_architecture aivm_manifest))
          SUPPORTED_MODEL_ARCHITECTURES.

(** What holds of an entry of the cache that a scan of [files] has
    published. *)
Definition published_from (files : list (string * node))
    (item : string * AivmInfo) : Prop :=
  exists data logs,
    In (file_path (snd item), RegularFile data) files
    /\ read_metadata E (file_path (snd item)) data = Some (manifest (snd item))
    /\ fst item = mf_uuid (manifest (snd item))
    /\ file_size (snd item) = Z.of_nat (List.length data)
    /\ accepted_version (mf_manifest_version (manifest (snd item)))
    /\ supported_architecture (manifest (snd item)) = true
    /\ make_speakers (file_path (snd item)) (manifest (snd item))
                     (mf_speakers (manifest (snd item)))
       = (Ok (speakers (snd item)), logs).

(** An entry as the scan adds it: a published entry that is unloaded, has
    no update and has the manifest's version as its latest. *)
Definition fresh_from (files : list (string * node))
    (item : string * AivmInfo) : Prop :=
  published_from files item
  /\ is_loaded (snd item) = false
  /\ is_update_available (snd item) = false
  /\ latest_version (snd item) = JString (mf_version (manifest (snd item))).

(** A file the scan must index: listed by one of the two globs, a regular
    file that the reader accepts, of an accepted version and a supported
    architecture. *)
Definition package_of (aivm_uuid : string) (entry : string * node) : Prop :=
  exists data aivm_manifest,
    snd entry = RegularFile data
    /\ read_metadata E (fst entry) data = Some aivm_manifest
    /\ mf_uuid aivm_manifest = aivm_uuid
    /\ accepted_version (mf_manifest_version aivm_manifest)
    /\ supported_architecture aivm_manifest = true.

(** Non-decreasing order of the keys. *)
Definition ordered_by {A : Type} (key : A -> string) (l : list A) : Prop :=
  Sorted (fun x y => String.leb (key x) (key y) = true) l.

End FurtherVocabulary.

(** ** Manifest versions written in plain digits *)

Fixpoint all_digits (s : string) : bool :=
  match s with
  | EmptyString => true
  | String c s' => is_digit c && all_digits s'
  end.

(** A run of ASCII decimal digits, not empty and no longer than the 4300
    digits the interpreter converts by default: a string on which [int]
    returns. *)
Definition plain_number (s : string) : bool :=
  nonempty s && all_digits s && (Z.of_nat (String.length s) <=? 4300).

(** [well_formed] with the numbers of the manifest version written
    plainly. *)
Definition plainly_versioned (aivm_manifest : AivmManifest) : Prop :=
  (List.length (split "." (mf_manifest_version aivm_manifest)) = 2%nat ->
   Forall (fun part => plain_number part = true)
          (split "." (mf_manifest_version aivm_manifest)))
  /\ Forall (fun s => supports_japanese s = true -> well_formed_speaker s)
            (mf_speakers aivm_manifest).

(** ** A package whose first speaker has no style *)

Module Sparse.

Definition manifest_d : AivmManifest :=
  Fixture.manifest_of "Duo" "5c1d2e3f-4a5b-4c6d-8e7f-9a0b1c2d3e4f" "1.0.0"
    [Fixture.speaker_of "Silent" Fixture.png
                        "0a1b2c3d-4e5f-4a6b-8c7d-9e0f1a2b3c4d" [];
     Fixture.speaker_of "Mai" Fixture.png
                        "4cf3e1d8-5583-41a9-a554-b2d2cda2c569"
                        [Fixture.style 0 "Normal"]].

(** Every file is read as that package; nothing else can be reached. *)
Definition env : Env :=
  {| read_aivmx_metadata := fun _ => Some manifest_d;
     read_aivm_metadata := fun _ => None;
     hub_get := fun _ => FetchFailure;
     http_get := fun _ => DownloadHTTPError;
     disk_write := fun _ _ => WriteCompletes;
     Version := (Z * Z * Z)%type;
     Version_parse := Fixture.parse;
     Version_gt := Fixture.gt |}.

Definition dir : directory := [("duo.aivmx", RegularFile [4])].

(** The manager after its first scan of [dir]. *)
Definition scanned : manager :=
  snd (get_installed_aivm_infos env false false
         (Fixture.manager_of dir None)).

End Sparse.

(** * Properties *)

(** ** The codec *)

Example md5_empty :
  MD5.hexdigest (MD5.bytes_of_string "") = "d41d8cd98f00b204e9800998ecf8427e".
Proof. vm_compute. reflexivity. Qed.

Example md5_abc :
  MD5.hexdigest (MD5.bytes_of_string "abc")
  = "900150983cd24fb0d6963f7d28e17f72".
Proof. vm_compute. reflexivity. Qed.

Example md5_two_blocks :
  MD5.hexdigest (MD5.bytes_of_string
    "The quick brown fox jumps over the lazy dog. The quick brown fox jumps over the lazy dog")
  = "059587551f430b5b4fe2804c1291c949".
Proof. vm_compute. reflexivity. Qed.

Example md5_default_model :
  MD5.hexdigest (MD5.bytes_of_string "a59cb814-0083-4369-8542-f51a29e72af7")
  = "1c700e4b61183fca9f7439b136c3e16c".
Proof. vm_compute. reflexivity. Qed.

(** An identifier whose bit 31 is set before it is cleared: the low 27 bits
    of the digest are 0x6c3e16c, and shifted by five they reach bit 31. *)
Example style_id_example :
  local_style_id_to_style_id 3 "a59cb814-0083-4369-8542-f51a29e72af7"
  = Ok 1484533123.
Proof. vm_compute. reflexivity. Qed.

(** ** The codec: what is independent of the hash *)

Section CodecCore.

Lemma local_style_id_to_style_id_ok (l : Z) (uuid : string) :
  uuid <> "" -> 0 <= l <= 31 ->
  local_style_id_to_style_id l uuid
  = Ok (combine (int16 (MD5.hexdigest (MD5.bytes_of_string uuid))) l).
Proof.
  intros Hne Hl. unfold local_style_id_to_style_id.
  destruct (String.eqb_spec uuid "") as [E | _]; [contradiction |].
  replace ((0 <=? l) && (l <=? 31))%bool with true
    by (symmetry; apply andb_true_iff; split; apply Z.leb_le; lia).
  unfold combine. cbv beta iota zeta delta [negb]. reflexivity.
Qed.

Lemma mask_27 : UUID_BIT_MASK = Z.ones 27.
Proof. reflexivity. Qed.

Lemma mask_5 : LOCAL_STYLE_ID_MASK = Z.ones 5.
Proof. reflexivity. Qed.

Lemma small_land_31 (l : Z) : 0 <= l <= 31 -> Z.land l (Z.ones 5) = l.
Proof.
  intros Hl. rewrite Z.land_ones by lia. apply Z.mod_small. simpl. lia.
Qed.

(** Before the sign bit is looked at, the value is [hash * 32 + l]. *)
Lemma combined_value (h l : Z) :
  0 <= l <= 31 ->
  Z.lor (Z.shiftl (Z.land h UUID_BIT_MASK) LOCAL_STYLE_ID_BITS)
        (Z.land l LOCAL_STYLE_ID_MASK)
  = (h mod 2 ^ 27) * 32 + l.
Proof.
  intros Hl. rewrite mask_27, mask_5, small_land_31 by assumption.
  rewrite Z.land_ones by lia. unfold LOCAL_STYLE_ID_BITS.
  rewrite Z.shiftl_mul_pow2 by lia. change (2 ^ 5) with 32.
  set (u := h mod 2 ^ 27).
  assert (Hd : Z.land (u * 32) l = 0).
  { apply Z.bits_inj'. intros n Hn. rewrite Z.land_spec, Z.bits_0.
    destruct (Z.ltb_spec n 5) as [Hlt | Hge].
    - change 32 with (2 ^ 5). rewrite Z.mul_pow2_bits_low by lia.
      reflexivity.
    - replace (Z.testbit l n) with false; [apply andb_false_r |].
      symmetry. rewrite <- (small_land_31 l Hl), Z.land_spec.
      rewrite Z.ones_spec_high by lia. apply andb_false_r. }
  rewrite <- Z.lxor_lor by exact Hd.
  symmetry. apply Z.add_nocarry_lxor. exact Hd.
Qed.

Lemma combine_cases (h l : Z) :
  0 <= l <= 31 ->
  let c := (h mod 2 ^ 27) * 32 + l in
  0 <= c < 2 ^ 32 /\
  ((Z.testbit c 31 = true /\ combine h l = Z.land c (Z.lnot SIGN_BIT))
   \/ (Z.testbit c 31 = false /\ combine h l = c)).
Proof.
  intros Hl c.
  assert (Hu : 0 <= h mod 2 ^ 27 < 2 ^ 27)
    by (apply Z.mod_pos_bound; reflexivity).
  assert (Hc : 0 <= c < 2 ^ 32).
  { unfold c. change (2 ^ 32) with (2 ^ 27 * 32). lia. }
  split; [exact Hc |].
  unfold combine. cbv zeta. rewrite combined_value by assumption.
  fold c.
  assert (Hbit : Z.land c SIGN_BIT = if Z.testbit c 31 then 2 ^ 31 else 0).
  { apply Z.bits_inj'. intros n Hn. rewrite Z.land_spec.
    unfold SIGN_BIT. rewrite Z.shiftl_1_l.
    destruct (Z.eq_dec n 31) as [-> | Hne].
    - rewrite Z.pow2_bits_true by lia. rewrite andb_true_r.
      destruct (Z.testbit c 31); [| apply eq_sym, Z.bits_0].
      symmetry. apply Z.pow2_bits_true. lia.
    - rewrite Z.pow2_bits_false by lia. rewrite andb_false_r.
      destruct (Z.testbit c 31); [| apply eq_sym, Z.bits_0].
      symmetry. apply Z.pow2_bits_false. lia. }
  rewrite Hbit. destruct (Z.testbit c 31); [left | right]; auto.
Qed.

Lemma combine_low_bits (h l : Z) :
  0 <= l <= 31 -> Z.land (combine h l) 0x1F = l.
Proof.
  intros Hl.
  destruct (combine_cases h l Hl) as [_ [[_ ->] | [_ ->]]].
  - rewrite <- Z.land_assoc.
    change (Z.land (Z.lnot SIGN_BIT) 31) with (Z.ones 5).
    rewrite Z.land_ones by lia. change (2 ^ 5) with 32.
    rewrite Z.add_comm, Z.mod_add by lia. apply Z.mod_small. lia.
  - change 31 with (Z.ones 5).
    rewrite Z.land_ones by lia. change (2 ^ 5) with 32.
    rewrite Z.add_comm, Z.mod_add by lia. apply Z.mod_small. lia.
Qed.

Lemma high_bits_clear (x : Z) :
  0 <= x -> (forall n, 31 <= n -> Z.testbit x n = false) -> x < 2 ^ 31.
Proof.
  intros Hx Hbits.
  assert (E : x mod 2 ^ 31 = x).
  { apply Z.bits_inj'. intros n Hn.
    destruct (Z.ltb_spec n 31) as [Hlt | Hge].
    - apply Z.mod_pow2_bits_low. lia.
    - rewrite Z.mod_pow2_bits_high by lia. symmetry. apply Hbits. lia. }
  rewrite <- E. apply Z.mod_pos_bound. reflexivity.
Qed.

Lemma combine_range (h l : Z) :
  0 <= l <= 31 -> 0 <= combine h l < 2 ^ 31.
Proof.
  intros Hl.
  destruct (combine_cases h l Hl) as [Hc [[Hb ->] | [Hb ->]]];
    set (c := h mod 2 ^ 27 * 32 + l) in *.
  - assert (Hnn : 0 <= Z.land c (Z.lnot SIGN_BIT))
      by (apply Z.land_nonneg; left; lia).
    split; [exact Hnn |]. apply high_bits_clear; [exact Hnn |].
    intros n Hn. rewrite Z.land_spec.
    destruct (Z.eq_dec n 31) as [-> | Hne].
    + rewrite Z.lnot_spec by lia. unfold SIGN_BIT.
      rewrite Z.shiftl_1_l, Z.pow2_bits_true by lia. apply andb_false_r.
    + replace (Z.testbit c n) with false; [reflexivity |].
      symmetry. rewrite <- (Z.mod_small c (2 ^ 32)) by lia.
      apply Z.mod_pow2_bits_high. lia.
  - split; [lia |]. apply high_bits_clear; [lia |].
    intros n Hn. destruct (Z.eq_dec n 31) as [-> | Hne]; [exact Hb |].
    rewrite <- (Z.mod_small c (2 ^ 32)) by lia.
    apply Z.mod_pow2_bits_high. lia.
Qed.

End CodecCore.

(** ** The codec: the two claims *)

(** C1: for a non-empty identity and a local index from 0 to 31, decoding
    the identifier that encoding returns gives the local index back. *)
Theorem C1_decode_encode (speaker_uuid : string) (local_style_id : Z) :
  speaker_uuid <> "" ->
  0 <= local_style_id <= 31 ->
  exists style_id,
    local_style_id_to_style_id local_style_id speaker_uuid = Ok style_id
    /\ style_id_to_local_style_id style_id = local_style_id.
Proof.
  intros Hne Hl. eexists. split.
  - apply local_style_id_to_style_id_ok; assumption.
  - apply combine_low_bits. exact Hl.
Qed.

Lemma C1_decode_encode_witness :
  Fixture.uuid_a <> "" /\ 0 <= 17 <= 31
  /\ exists style_id,
       local_style_id_to_style_id 17 Fixture.uuid_a = Ok style_id
       /\ style_id_to_local_style_id style_id = 17.
Proof.
  split; [discriminate | split; [lia |]].
  apply (C1_decode_encode Fixture.uuid_a 17); [discriminate | lia].
Defined.

(** C2: for a non-empty identity and a local index from 0 to 31, the
    identifier returned has bit 31 clear: as a signed 32-bit integer it is
    at least 0 and below 2^31. *)
Theorem C2_sign_bit_clear (speaker_uuid : string) (local_style_id : Z) :
  speaker_uuid <> "" ->
  0 <= local_style_id <= 31 ->
  exists style_id,
    local_style_id_to_style_id local_style_id speaker_uuid = Ok style_id
    /\ 0 <= style_id < 2 ^ 31
    /\ Z.testbit style_id 31 = false.
Proof.
  intros Hne Hl. eexists. split; [| split].
  - apply local_style_id_to_style_id_ok; assumption.
  - apply combine_range. exact Hl.
  - set (c := combine _ _). pose proof (combine_range
      (int16 (MD5.hexdigest (MD5.bytes_of_string speaker_uuid)))
      local_style_id Hl) as Hr. fold c in Hr.
    rewrite <- (Z.mod_small c (2 ^ 31)) by exact Hr.
    apply Z.mod_pow2_bits_high. lia.
Qed.

Lemma C2_sign_bit_clear_witness :
  Fixture.uuid_a <> "" /\ 0 <= 3 <= 31
  /\ exists style_id,
       local_style_id_to_style_id 3 Fixture.uuid_a = Ok style_id
       /\ 0 <= style_id < 2 ^ 31
       /\ Z.testbit style_id 31 = false.
Proof.
  split; [discriminate | split; [lia |]].
  apply (C2_sign_bit_clear Fixture.uuid_a 3); [discriminate | lia].
Defined.

(** ** Dictionaries *)

Section Dict.

Lemma mem_lookup (k : string) (d : aivm_dict) :
  mem k d = false <-> lookup k d = None.
Proof.
  unfold mem. destruct (lookup k d); split; intros H; congruence.
Qed.

Lemma lookup_None (k : string) (d : aivm_dict) :
  lookup k d = None <-> ~ In k (keys d).
Proof.
  induction d as [| [k' v] d IH]; simpl.
  - split; [intros _ [] | reflexivity].
  - destruct (String.eqb_spec k k') as [-> | Hne].
    + split; [discriminate | intros H; exfalso; apply H; left; reflexivity].
    + rewrite IH. split.
      * intros H [Heq | Hin]; [congruence | exact (H Hin)].
      * intros H Hin. apply H. right. exact Hin.
Qed.

Lemma lookup_In (k : string) (v : AivmInfo) (d : aivm_dict) :
  lookup k d = Some v -> In (k, v) d.
Proof.
  induction d as [| [k' v'] d IH]; simpl; [discriminate |].
  destruct (String.eqb_spec k k') as [-> | Hne].
  - intros [= ->]. left. reflexivity.
  - intros H. right. apply IH. exact H.
Qed.

Lemma In_lookup (k : string) (v : AivmInfo) (d : aivm_dict) :
  NoDup (keys d) -> In (k, v) d -> lookup k d = Some v.
Proof.
  induction d as [| [k' v'] d IH]; simpl; [intros _ [] |].
  intros Hnd [Heq | Hin].
  - inversion Heq; subst. rewrite String.eqb_refl. reflexivity.
  - inversion Hnd as [| ? ? Hnotin Hnd']; subst.
    destruct (String.eqb_spec k k') as [-> | Hne].
    + exfalso. apply Hnotin. change k' with (fst (k', v)).
      apply in_map. exact Hin.
    + apply IH; assumption.
Qed.

Lemma setitem_absent (k : string) (v : AivmInfo) (d : aivm_dict) :
  mem k d = false -> setitem k v d = d ++ [(k, v)].
Proof.
  rewrite mem_lookup.
  induction d as [| [k' v'] d IH]; simpl; [reflexivity |].
  destruct (String.eqb k k'); [discriminate |].
  intros H. rewrite IH by exact H. reflexivity.
Qed.

Lemma lookup_app_l (k : string) (v : AivmInfo) (d1 d2 : aivm_dict) :
  lookup k d1 = Some v -> lookup k (d1 ++ d2) = Some v.
Proof.
  induction d1 as [| [k' v'] d1 IH]; cbn; [discriminate |].
  destruct (String.eqb k k'); [trivial | exact IH].
Qed.

Lemma keys_app (d1 d2 : aivm_dict) : keys (d1 ++ d2) = keys d1 ++ keys d2.
Proof. unfold keys. apply map_app. Qed.

Lemma NoDup_keys_snoc (k : string) (v : AivmInfo) (d : aivm_dict) :
  NoDup (keys d) -> mem k d = false -> NoDup (keys (d ++ [(k, v)])).
Proof.
  intros Hnd Hmem. rewrite keys_app. simpl.
  apply NoDup_app; [exact Hnd | constructor; [intros [] | constructor] |].
  intros x Hx [<- | []].
  apply mem_lookup, lookup_None in Hmem. exact (Hmem Hx).
Qed.

End Dict.

(** ** The scan and the rescan *)

Section Rescan.
Variable E : Env.

Lemma supported_major_is_1 :
  int (nth 0 (split "." (nth 0 SUPPORTED_MANIFEST_VERSIONS "")) "") = Ok 1.
Proof. reflexivity. Qed.

Lemma scan_file_spec (aivm_infos aivm_infos' : aivm_dict)
    (entry : string * node) (logs : list log_record) :
  scan_file E aivm_infos entry = (Ok aivm_infos', logs) ->
  aivm_infos' = aivm_infos
  \/ exists data aivm_manifest made,
       snd entry = RegularFile data
       /\ read_metadata E (fst entry) data = Some aivm_manifest
       /\ mem (mf_uuid aivm_manifest) aivm_infos = false
       /\ aivm_infos'
          = aivm_infos
              ++ [(mf_uuid aivm_manifest,
                   scanned_entry (fst entry) data aivm_manifest made)].
Proof.
  unfold scan_file. rewrite supported_major_is_1.
  destruct (snd entry) as [data | | |] eqn:Hnode;
    [| discriminate | cbn; intros [= <- _]; left; reflexivity ..].
  destruct (read_metadata E (fst entry) data) as [aivm_manifest |] eqn:Hread;
    [| cbn; intros [= <- _]; left; reflexivity].
  destruct (mem (mf_uuid aivm_manifest) aivm_infos) eqn:Hmem;
    [cbn; intros [= <- _]; left; reflexivity |].
  destruct (negb (Nat.eqb _ 2));
    [cbn; intros [= <- _]; left; reflexivity |].
  destruct (map_result int _) as [numbers | e]; [| cbn; discriminate].
  cbn [W_lift W_bind].
  destruct (negb (nth 0 numbers 0 =? 1));
    [cbn; intros [= <- _]; left; reflexivity |].
  destruct (negb (existsb (String.eqb _) SUPPORTED_MANIFEST_VERSIONS));
    cbn [W_log W_ret W_bind];
    (destruct (negb (existsb (architecture_eqb _) _));
     [cbn; intros [= <- _]; left; reflexivity |]);
    (destruct (make_speakers _ _ _) as [[made | e] l]; cbn [W_bind W_ret];
     [| discriminate]);
    intros [= <- _]; right; exists data, aivm_manifest, made;
    rewrite setitem_absent by exact Hmem; auto.
Qed.

Lemma from_files_cons (entry : string * node) (files : list (string * node))
    (item : string * AivmInfo) :
  from_files E files item -> from_files E (entry :: files) item.
Proof.
  intros (data & made & Hin & H). exists data, made.
  split; [right; exact Hin | exact H].
Qed.

Lemma scan_files_spec (files : list (string * node)) :
  forall (aivm_infos aivm_infos' : aivm_dict) (logs : list log_record),
    scan_files E aivm_infos files = (Ok aivm_infos', logs) ->
    exists added,
      aivm_infos' = aivm_infos ++ added
      /\ Forall (from_files E files) added
      /\ (NoDup (keys aivm_infos) -> NoDup (keys aivm_infos')).
Proof.
  induction files as [| entry files IH]; intros aivm_infos aivm_infos' logs.
  - cbn. intros [= <- _]. exists []. rewrite app_nil_r. auto.
  - cbn [scan_files]. unfold W_bind at 1.
    destruct (scan_file E aivm_infos entry) as [[mid | e] l1] eqn:Hstep;
      [| discriminate].
    destruct (scan_files E mid files) as [r l2] eqn:Hrest.
    intros [= -> _].
    destruct (IH _ _ _ Hrest) as (added & -> & Hadded & Hnd).
    assert (Hlift : Forall (from_files E (entry :: files)) added).
    { eapply Forall_impl; [| exact Hadded].
      intros item. apply from_files_cons. }
    destruct (scan_file_spec _ _ _ _ Hstep)
      as [-> | (data & mf & made & Hnode & Hread & Hmem & ->)].
    + exists added. auto.
    + exists ((mf_uuid mf, scanned_entry (fst entry) data mf made) :: added).
      rewrite <- app_assoc in *. split; [reflexivity |]. split.
      * constructor; [| exact Hlift].
        exists data, made. cbn. rewrite <- Hnode.
        split; [left; destruct entry; reflexivity | auto].
      * intros H. apply Hnd. apply NoDup_keys_snoc; assumption.
Qed.

Lemma insert_by_name_perm (x : string * AivmInfo) (l : aivm_dict) :
  Permutation (insert_by_name x l) (x :: l).
Proof.
  induction l as [| y l IH]; cbn; [reflexivity |].
  destruct (String.ltb _ _); [reflexivity |].
  rewrite IH. apply perm_swap.
Qed.

Lemma sorted_by_name_perm (items : aivm_dict) :
  Permutation (sorted_by_name items) items.
Proof.
  unfold sorted_by_name.
  enough (H : forall acc,
            Permutation
              (fold_left (fun acc x => insert_by_name x acc) items acc)
              (items ++ acc)).
  { rewrite H. rewrite app_nil_r. reflexivity. }
  induction items as [| x items IH]; intros acc; cbn; [reflexivity |].
  rewrite IH. rewrite insert_by_name_perm.
  symmetry. apply Permutation_middle.
Qed.

Lemma carry_is_loaded_key (old : aivm_dict) (item : string * AivmInfo) :
  fst (carry_is_loaded old item) = fst item.
Proof.
  destruct item as [k v]. cbn. destruct (lookup k old); reflexivity.
Qed.

Lemma keys_carry (old items : aivm_dict) :
  keys (map (carry_is_loaded old) items) = keys items.
Proof.
  unfold keys. rewrite map_map. apply map_ext. apply carry_is_loaded_key.
Qed.

Lemma update_tasks_map (infos : aivm_dict) :
  fst (update_tasks E infos)
  = map (fun item => (fst item, fst (fetch_latest_version E (snd item))))
        infos.
Proof.
  induction infos as [| [k v] infos IH]; cbn; [reflexivity |].
  destruct (fetch_latest_version E v) as [v' l1].
  destruct (update_tasks E infos) as [rest l2]. cbn in *.
  rewrite IH. reflexivity.
Qed.

Lemma keys_update_tasks (infos : aivm_dict) :
  keys (fst (update_tasks E infos)) = keys infos.
Proof.
  rewrite update_tasks_map. unfold keys. rewrite map_map. reflexivity.
Qed.


Lemma get_installed_cached (m : manager) (infos : aivm_dict) (wait : bool) :
  _installed_aivm_infos m = Some infos ->
  get_installed_aivm_infos E false wait m = (Ok infos, m).
Proof. intros H. unfold get_installed_aivm_infos. rewrite H. reflexivity. Qed.

Lemma rescan_eq (force wait : bool) (m : manager) :
  force = true \/ _installed_aivm_infos m = None ->
  get_installed_aivm_infos E force wait m
  = match scan_files E [] (aivm_file_paths m) with
    | (Raise e, logs) => (Raise e, with_logs logs m)
    | (Ok aivm_infos, logs) =>
        let sorted_aivm_infos := sorted_by_name aivm_infos in
        let carried :=
          match _installed_aivm_infos m with
          | Some old => map (carry_is_loaded old) sorted_aivm_infos
          | None => sorted_aivm_infos
          end in
        let m1 := with_cache (Some carried) (with_logs logs m) in
        let m2 :=
          if wait then
            match check_aivm_updates_from_hub E m1 with
            | (Ok _, m') => m'
            | (Raise _, m') =>
                with_logs [(WARNING, FailedToStartUpdateTask)] m'
            end
          else with_background (S (background_update_checks m1)) m1 in
        (Ok (cached m2), m2)
    end.
Proof.
  intros Hre. unfold get_installed_aivm_infos, aivm_file_paths.
  destruct (_installed_aivm_infos m) as [old |] eqn:Hc;
    destruct force; try (destruct Hre; discriminate);
    destruct (scan_files E [] _) as [[scan | e] logs]; reflexivity.
Qed.

Lemma rescan_spec (force wait : bool) (m m' : manager) (infos : aivm_dict) :
  force = true \/ _installed_aivm_infos m = None ->
  get_installed_aivm_infos E force wait m = (Ok infos, m') ->
  exists aivm_infos logs,
    scan_files E [] (aivm_file_paths m) = (Ok aivm_infos, logs)
    /\ infos = rescanned E m wait aivm_infos
    /\ _installed_aivm_infos m' = Some infos
    /\ installed_aivm_dir m' = installed_aivm_dir m.
Proof.
  intros Hre. rewrite (rescan_eq force wait m Hre).
  destruct (scan_files E [] (aivm_file_paths m)) as [[scan | e] logs];
    [| discriminate].
  cbv zeta. unfold rescanned.
  set (carried := match _installed_aivm_infos m with
                  | Some old => map (carry_is_loaded old) (sorted_by_name scan)
                  | None => sorted_by_name scan
                  end).
  destruct wait.
  - unfold check_aivm_updates_from_hub. cbn [_installed_aivm_infos with_cache].
    destruct (update_tasks E carried) as [infos' l] eqn:Hup.
    cbn. intros [= <- <-]. exists scan, logs. cbn.
    fold carried. rewrite Hup. auto.
  - cbn. intros [= <- <-]. exists scan, logs. cbn. auto.
Qed.

Lemma rescan_raises (force wait : bool) (m m' : manager) (e : exn) :
  force = true \/ _installed_aivm_infos m = None ->
  get_installed_aivm_infos E force wait m = (Raise e, m') ->
  exists logs,
    scan_files E [] (aivm_file_paths m) = (Raise e, logs)
    /\ m' = with_logs logs m.
Proof.
  intros Hre. rewrite (rescan_eq force wait m Hre).
  destruct (scan_files E [] (aivm_file_paths m)) as [[scan | e'] logs].
  - cbv zeta. discriminate.
  - intros [= <- <-]. exists logs. auto.
Qed.
End Rescan.

(** ** What a rescan publishes *)

Section Published.

Variable E : Env.

(** A reconciliation task touches [latest_version] and
    [is_update_available] only. *)
Lemma fetch_latest_version_frame (i : AivmInfo) :
  let i' := fst (fetch_latest_version E i) in
  is_loaded i' = is_loaded i
  /\ file_path i' = file_path i
  /\ file_size i' = file_size i
  /\ manifest i' = manifest i
  /\ speakers i' = speakers i.
Proof.
  unfold fetch_latest_version.
  repeat match goal with
         | |- context [match ?x with _ => _ end] => destruct x
         end; cbn; auto.
Qed.

Lemma aivm_file_paths_In (m : manager) (entry : string * node) :
  In entry (aivm_file_paths m) -> In entry (installed_aivm_dir m).
Proof.
  unfold aivm_file_paths, glob. rewrite in_app_iff, !filter_In. tauto.
Qed.

(** Every entry of the published cache comes from an entry of the scan
    with the same key; its load state is the previous one when the key was
    cached before. *)
Lemma rescanned_In (m : manager) (wait : bool) (scan : aivm_dict)
    (k : string) (v : AivmInfo) :
  In (k, v) (rescanned E m wait scan) ->
  exists v0,
    In (k, v0) scan
    /\ manifest v = manifest v0
    /\ file_path v = file_path v0
    /\ is_loaded v
       = match _installed_aivm_infos m with
         | Some old =>
             match lookup k old with
             | Some o => is_loaded o
             | None => is_loaded v0
             end
         | None => is_loaded v0
         end.
Proof.
  unfold rescanned.
  set (carried := match _installed_aivm_infos m with
                  | Some old => map (carry_is_loaded old) (sorted_by_name scan)
                  | None => sorted_by_name scan
                  end).
  assert (Hcarried : forall k1 v1, In (k1, v1) carried ->
            exists v0, In (k1, v0) scan
              /\ manifest v1 = manifest v0
              /\ file_path v1 = file_path v0
              /\ is_loaded v1
                 = match _installed_aivm_infos m with
                   | Some old =>
                       match lookup k1 old with
                       | Some o => is_loaded o
                       | None => is_loaded v0
                       end
                   | None => is_loaded v0
                   end).
  { intros k1 v1. unfold carried.
    destruct (_installed_aivm_infos m) as [old |].
    - rewrite in_map_iff. intros ([k0 v0] & Heq & Hin).
      apply (Permutation_in _ (sorted_by_name_perm scan)) in Hin.
      cbn in Heq. exists v0.
      destruct (lookup k0 old) as [o |] eqn:Hl;
        injection Heq as <- <-; rewrite Hl; cbn; auto.
    - intros Hin.
      apply (Permutation_in _ (sorted_by_name_perm scan)) in Hin.
      exists v1. auto. }
  destruct wait; [| apply Hcarried].
  rewrite update_tasks_map, in_map_iff. intros ([k1 v1] & Heq & Hin).
  cbn in Heq. inversion Heq; subst.
  destruct (Hcarried _ _ Hin) as (v0 & Hscan & Hm & Hp & Hl).
  destruct (fetch_latest_version_frame v1) as (Fl & Fp & _ & Fm & _).
  exists v0. cbn in *. rewrite Fl, Fp, Fm. auto.
Qed.

Lemma keys_rescanned (m : manager) (wait : bool) (scan : aivm_dict) :
  Permutation (keys (rescanned E m wait scan)) (keys scan).
Proof.
  unfold rescanned.
  assert (Hs : Permutation (keys (sorted_by_name scan)) (keys scan))
    by (apply Permutation_map, sorted_by_name_perm).
  destruct wait; [rewrite keys_update_tasks |];
    destruct (_installed_aivm_infos m); rewrite ?keys_carry; exact Hs.
Qed.

Lemma rescan_NoDup (force wait : bool) (m m' : manager) (infos : aivm_dict) :
  force = true \/ _installed_aivm_infos m = None ->
  get_installed_aivm_infos E force wait m = (Ok infos, m') ->
  NoDup (keys infos).
Proof.
  intros Hre Hget.
  destruct (rescan_spec E _ _ _ _ _ Hre Hget) as (scan & logs & Hscan & -> & _).
  destruct (scan_files_spec E _ _ _ _ Hscan) as (added & _ & _ & Hnd).
  eapply Permutation_NoDup.
  - symmetry. apply keys_rescanned.
  - apply Hnd. constructor.
Qed.

End Published.

(** C4: after a scan of the install directory the identities in the cache
    are pairwise distinct; a file whose identity is already in the index
    being built is skipped with a log record and the index is left as
    it was; the scan only ever appends to the index, so an entry that is in
    it is still there, unchanged, whatever files follow. *)
Theorem C4_identities_unique (E : Env) (force wait : bool) (m m' : manager)
    (infos : aivm_dict) :
  force = true \/ _installed_aivm_infos m = None ->
  get_installed_aivm_infos E force wait m = (Ok infos, m') ->
  NoDup (keys infos)
  /\ _installed_aivm_infos m' = Some infos
  /\ (forall aivm_infos path data aivm_manifest,
        read_metadata E path data = Some aivm_manifest ->
        mem (mf_uuid aivm_manifest) aivm_infos = true ->
        scan_file E aivm_infos (path, RegularFile data)
        = (Ok aivm_infos,
           [(INFO, AlreadyInstalled path (mf_uuid aivm_manifest))]))
    /\ (forall aivm_infos files aivm_infos' logs,
        scan_files E aivm_infos files = (Ok aivm_infos', logs) ->
        (exists added, aivm_infos' = aivm_infos ++ added)
        /\ forall aivm_uuid aivm_info,
             lookup aivm_uuid aivm_infos = Some aivm_info ->
             lookup aivm_uuid aivm_infos' = Some aivm_info).
Proof.
  intros Hre Hget. split; [| split; [| split]].
  - eapply rescan_NoDup; eassumption.
  - destruct (rescan_spec E _ _ _ _ _ Hre Hget) as (_ & _ & _ & _ & H & _).
    exact H.
  - intros aivm_infos path data aivm_manifest Hread Hmem.
    unfold scan_file. cbn [fst snd]. rewrite Hread, Hmem. reflexivity.
    - intros aivm_infos files aivm_infos' logs Hscan.
    destruct (scan_files_spec E _ _ _ _ Hscan) as (added & -> & _).
    split; [exists added; reflexivity |].
    intros aivm_uuid aivm_info. apply lookup_app_l.
Qed.

Lemma C4_identities_unique_witness :
  let m := Fixture.manager_of Fixture.dir_mixed None in
  let run := get_installed_aivm_infos Fixture.offline true true m in
  (true = true \/ _installed_aivm_infos m = None)
  /\ run = (Ok (cached (snd run)), snd run)
  /\ NoDup (keys (cached (snd run)))
  /\ keys (cached (snd run)) = [Fixture.uuid_a; Fixture.uuid_b].
Proof.
  split; [left; reflexivity |].
  split; [vm_compute; reflexivity |].
  split; [| vm_compute; reflexivity].
  apply (C4_identities_unique Fixture.offline true true
           (Fixture.manager_of Fixture.dir_mixed None)
           (snd (get_installed_aivm_infos Fixture.offline true true
                   (Fixture.manager_of Fixture.dir_mixed None))));
    [left; reflexivity | vm_compute; reflexivity].
Defined.

(** C5: across a forced rescan an identity cached before keeps its load
    state, a newly found identity is unloaded, and an identity no package
    file of the directory carries any more is absent from the new cache. *)
Theorem C5_load_state_across_rescan (E : Env) (wait : bool) (m m' : manager)
    (previous infos : aivm_dict) :
  _installed_aivm_infos m = Some previous ->
  get_installed_aivm_infos E true wait m = (Ok infos, m') ->
  (forall aivm_uuid aivm_info old,
     lookup aivm_uuid infos = Some aivm_info ->
     lookup aivm_uuid previous = Some old ->
     is_loaded aivm_info = is_loaded old)
  /\ (forall aivm_uuid aivm_info,
        lookup aivm_uuid infos = Some aivm_info ->
        lookup aivm_uuid previous = None ->
        is_loaded aivm_info = false)
  /\ (forall aivm_uuid,
        (forall path data aivm_manifest,
           In (path, RegularFile data) (installed_aivm_dir m) ->
           read_metadata E path data = Some aivm_manifest ->
           mf_uuid aivm_manifest <> aivm_uuid) ->
        lookup aivm_uuid infos = None)
  /\ _installed_aivm_infos m' = Some infos.
Proof.
  intros Hprev Hget.
  destruct (rescan_spec E true wait m m' infos (or_introl eq_refl) Hget)
    as (scan & logs & Hscan & -> & Hcache & _).
  destruct (scan_files_spec E _ _ _ _ Hscan) as (added & Hadd & Hfrom & _).
  cbn in Hadd. subst scan.
  assert (Hitem : forall k v, lookup k (rescanned E m wait added) = Some v ->
            exists v0, from_files E (aivm_file_paths m) (k, v0)
              /\ is_loaded v = match lookup k previous with
                               | Some o => is_loaded o
                               | None => is_loaded v0
                               end).
  { intros k v Hl. apply lookup_In, rescanned_In in Hl.
    destruct Hl as (v0 & Hin & _ & _ & Hload). rewrite Hprev in Hload.
    exists v0. split; [| exact Hload].
    rewrite Forall_forall in Hfrom. apply Hfrom. exact Hin. }
  split; [| split; [| split]].
  - intros k v old Hl Hold. destruct (Hitem k v Hl) as (v0 & _ & ->).
    rewrite Hold. reflexivity.
  - intros k v Hl Hnone. destruct (Hitem k v Hl) as (v0 & Hfrom0 & ->).
    rewrite Hnone. destruct Hfrom0 as (data & made & _ & _ & _ & Hv0).
    cbn in Hv0. rewrite Hv0. reflexivity.
  - intros k Hgone.
    destruct (lookup k (rescanned E m wait added)) as [v |] eqn:Hl;
      [| reflexivity].
    destruct (Hitem k v Hl) as (v0 & (data & made & Hin & Hread & Hk & _) & _).
    cbn in Hin, Hread, Hk. exfalso.
    apply (Hgone (file_path v0) data (manifest v0));
      [apply aivm_file_paths_In; exact Hin | exact Hread | congruence].
  - exact Hcache.
Qed.

Lemma C5_load_state_across_rescan_witness :
  let m := Fixture.both_loaded_b in
  let run := get_installed_aivm_infos Fixture.offline true false m in
  _installed_aivm_infos m = Some (cached m)
  /\ run = (Ok (cached (snd run)), snd run)
  /\ (forall aivm_uuid aivm_info old,
        lookup aivm_uuid (cached (snd run)) = Some aivm_info ->
        lookup aivm_uuid (cached m) = Some old ->
        is_loaded aivm_info = is_loaded old).
Proof.
  split; [vm_compute; reflexivity |].
  split; [vm_compute; reflexivity |].
  apply (C5_load_state_across_rescan Fixture.offline false
           Fixture.both_loaded_b
           (snd (get_installed_aivm_infos Fixture.offline true false
                   Fixture.both_loaded_b))
           (cached Fixture.both_loaded_b));
    vm_compute; reflexivity.
Defined.

(** The three cases of C5 on a run: the loaded model stays loaded, and
    after its file has left and another has arrived, the one is gone and
    the other is unloaded. *)
Example load_state_kept :
  let m' := snd (get_installed_aivm_infos Fixture.offline true false
                   Fixture.both_loaded_b) in
  option_map is_loaded (lookup Fixture.uuid_b (cached Fixture.both_loaded_b))
  = Some true
  /\ option_map is_loaded (lookup Fixture.uuid_b (cached m')) = Some true
  /\ option_map is_loaded (lookup Fixture.uuid_a (cached m')) = Some false.
Proof. vm_compute. auto. Qed.

Example load_state_of_new_and_gone :
  let m' := snd (get_installed_aivm_infos Fixture.offline true false
                   Fixture.after_load) in
  option_map is_loaded (lookup Fixture.uuid_a (cached Fixture.after_load))
  = Some true
  /\ lookup Fixture.uuid_a (cached m') = None
  /\ option_map is_loaded (lookup Fixture.uuid_b (cached m')) = Some false.
Proof. vm_compute. auto. Qed.

(** ** Methods that read the cache *)

Section Methods.

Variable E : Env.

Lemma M_bind_ok {A B : Type} (c : M A) (k : A -> M B) (m m' : manager)
    (a : A) :
  c m = (Ok a, m') -> M_bind c k m = k a m'.
Proof. intros H. unfold M_bind. rewrite H. reflexivity. Qed.

Lemma M_bind_raise {A B : Type} (c : M A) (k : A -> M B) (m m' : manager)
    (e : exn) :
  c m = (Raise e, m') -> M_bind c k m = (Raise e, m').
Proof. intros H. unfold M_bind. rewrite H. reflexivity. Qed.

Lemma style_id_from_model_name_found (model_name : string)
    (aivm_infos : list AivmInfo) (aivm_info : AivmInfo) :
  find (has_speaker_named model_name) aivm_infos = Some aivm_info ->
  style_id_from_model_name model_name aivm_infos = first_style_id aivm_info.
Proof.
  induction aivm_infos as [| i rest IH]; cbn; [discriminate |].
  destruct (has_speaker_named model_name i); [intros [= ->]; reflexivity |].
  exact IH.
Qed.

Lemma style_id_from_model_name_missing (model_name : string)
    (aivm_infos : list AivmInfo) :
  find (has_speaker_named model_name) aivm_infos = None ->
  style_id_from_model_name model_name aivm_infos
  = Raise (HTTPException 500 ModelNameDoesNotExist).
Proof.
  induction aivm_infos as [| i rest IH]; cbn; [reflexivity |].
  destruct (has_speaker_named model_name i); [discriminate | exact IH].
Qed.

Lemma has_speaker_named_spec (model_name : string) (aivm_info : AivmInfo) :
  has_speaker_named model_name aivm_info = true
  <-> exists s, In s (speakers aivm_info)
                /\ sp_name (speaker s) = model_name.
Proof.
  unfold has_speaker_named. rewrite existsb_exists.
  split; intros (s & Hin & H); exists s; split; auto;
    apply String.eqb_eq; exact H.
Qed.

End Methods.

(** C6: [uninstall_aivm] fails with status 404 when the identity is not in
    the cache, and with status 400 when the identity is the only entry of
    the cache; in the second case the directory and the cache are as they
    were, and only the error has been logged. *)
Theorem C6_uninstall_refusals (E : Env) (m : manager) (infos : aivm_dict)
    (aivm_uuid : string) :
  _installed_aivm_infos m = Some infos ->
  (lookup aivm_uuid infos = None ->
   uninstall_aivm E aivm_uuid m
   = (Raise (HTTPException 404 (ModelNotInstalled aivm_uuid)), m))
  /\ (mem aivm_uuid infos = true ->
      List.length infos = 1%nat ->
      exists m',
        uninstall_aivm E aivm_uuid m
        = (Raise (HTTPException 400 AtLeastOneModelRequired), m')
        /\ installed_aivm_dir m' = installed_aivm_dir m
        /\ _installed_aivm_infos m' = _installed_aivm_infos m
        /\ logger m' = logger m ++ [(ERROR, MustHaveOneModel)]).
Proof.
  intros Hcache. unfold uninstall_aivm.
  rewrite (M_bind_ok _ _ _ _ _ (get_installed_cached E m infos false Hcache)).
  split.
  - intros ->. reflexivity.
  - unfold mem. destruct (lookup aivm_uuid infos) as [aivm_info |];
      [| discriminate].
    intros _ ->. cbn. eexists. split; [reflexivity |]. cbn. auto.
Qed.

Lemma C6_uninstall_refusals_witness :
  let m := Fixture.scanned Fixture.dir_anneli in
  _installed_aivm_infos m = Some (cached m)
  /\ uninstall_aivm Fixture.offline Fixture.uuid_b m
     = (Raise (HTTPException 404 (ModelNotInstalled Fixture.uuid_b)), m)
  /\ exists m',
       uninstall_aivm Fixture.offline Fixture.uuid_a m
       = (Raise (HTTPException 400 AtLeastOneModelRequired), m')
       /\ installed_aivm_dir m' = installed_aivm_dir m
       /\ _installed_aivm_infos m' = _installed_aivm_infos m
       /\ logger m' = logger m ++ [(ERROR, MustHaveOneModel)].
Proof.
  assert (H : _installed_aivm_infos (Fixture.scanned Fixture.dir_anneli)
              = Some (cached (Fixture.scanned Fixture.dir_anneli)))
    by (vm_compute; reflexivity).
  split; [exact H |].
  destruct (C6_uninstall_refusals Fixture.offline
              (Fixture.scanned Fixture.dir_anneli)
              (cached (Fixture.scanned Fixture.dir_anneli))
              Fixture.uuid_b H) as [Hmissing _].
  destruct (C6_uninstall_refusals Fixture.offline
              (Fixture.scanned Fixture.dir_anneli)
              (cached (Fixture.scanned Fixture.dir_anneli))
              Fixture.uuid_a H) as [_ Hlast].
  split; [apply Hmissing; vm_compute; reflexivity |].
  apply Hlast; vm_compute; reflexivity.
Defined.

(** The claim of C10 fails on a cache whose matching model has a first
    speaker without styles: a speaker named Mai is cached, by the scan
    itself, and [get_style_id_from_model_name] raises [IndexError]. *)
Lemma C10_first_speaker_without_style_raises :
  let m := Sparse.scanned in
  (exists aivm_info s,
     _installed_aivm_infos m = Some [(mf_uuid Sparse.manifest_d, aivm_info)]
     /\ In s (speakers aivm_info)
     /\ sp_name (speaker s) = "Mai"
     /\ sp_styles (speaker s) <> [])
  /\ get_style_id_from_model_name Sparse.env "Mai" m = (Raise IndexError, m)
  /\ fst (get_style_id_from_model_name Sparse.env "Mai" m)
     <> Raise (HTTPException 500 ModelNameDoesNotExist).
Proof.
  split; [| split].
  - eexists. eexists. split; [vm_compute; reflexivity |].
    split; [right; left; reflexivity |].
    split; [reflexivity | discriminate].
  - vm_compute. reflexivity.
  - vm_compute. discriminate.
Qed.

(** C10 (amended): when some cached speaker is named [model_name],
    [get_style_id_from_model_name] looks at the first speaker of the first
    model that has a speaker of that name: it returns the identifier of
    that speaker's first style, which need not be a style of the speaker
    of that name, and raises [IndexError] when that speaker has no style;
    when no speaker has the name it fails with status 500. *)
Theorem C10_style_id_from_model_name (E : Env) (m : manager)
    (infos : aivm_dict) (model_name : string) :
  _installed_aivm_infos m = Some infos ->
  ((exists aivm_info s,
      In aivm_info (values infos) /\ In s (speakers aivm_info)
      /\ sp_name (speaker s) = model_name) ->
   exists aivm_info first_speaker,
     find (has_speaker_named model_name) (values infos) = Some aivm_info
     /\ nth_error (speakers aivm_info) 0 = Some first_speaker
     /\ get_style_id_from_model_name E model_name m
        = (match nth_error (sp_styles (speaker first_speaker)) 0 with
           | Some first_style => Ok (ss_id first_style)
           | None => Raise IndexError
           end, m))
  /\ ((forall aivm_info s,
         In aivm_info (values infos) -> In s (speakers aivm_info) ->
         sp_name (speaker s) <> model_name) ->
      get_style_id_from_model_name E model_name m
      = (Raise (HTTPException 500 ModelNameDoesNotExist), m))
  /\ (exists m0 name style_id,
        get_style_id_from_model_name Fixture.offline name m0
        = (Ok style_id, m0)
        /\ forall aivm_info s,
             In aivm_info (values (cached m0)) -> In s (speakers aivm_info) ->
             sp_name (speaker s) = name ->
             ~ In style_id (map ss_id (sp_styles (speaker s)))).
Proof.
  intros Hcache. unfold get_style_id_from_model_name.
  rewrite (M_bind_ok _ _ _ _ _ (get_installed_cached E m infos false Hcache)).
  split; [| split].
  - intros (i & s & Hi & Hs & Hname).
    destruct (find (has_speaker_named model_name) (values infos))
      as [aivm_info |] eqn:Hfind.
    + apply find_some in Hfind as Hfound. destruct Hfound as [_ Hhas].
      apply has_speaker_named_spec in Hhas. destruct Hhas as (s' & Hs' & _).
      destruct (speakers aivm_info) as [| first_speaker others] eqn:Hsp;
        [destruct Hs' |].
      exists aivm_info, first_speaker. split; [reflexivity |].
      split; [rewrite Hsp; reflexivity |].
      rewrite (style_id_from_model_name_found _ _ _ Hfind).
      unfold first_style_id. rewrite Hsp.
      change (nth_error (first_speaker :: others) 0) with (Some first_speaker).
      cbv iota beta.
      destruct (nth_error (sp_styles (speaker first_speaker)) 0);
        reflexivity.
    + exfalso. pose proof (find_none _ _ Hfind i Hi) as Hno.
      assert (Hyes : has_speaker_named model_name i = true)
        by (apply has_speaker_named_spec; exists s; auto).
      congruence.
  - intros Hnone. rewrite style_id_from_model_name_missing; [reflexivity |].
    destruct (find (has_speaker_named model_name) (values infos))
      as [aivm_info |] eqn:Hfind; [| reflexivity].
    exfalso. apply find_some in Hfind. destruct Hfind as [Hin Hhas].
    apply has_speaker_named_spec in Hhas. destruct Hhas as (s & Hs & Hname).
    exact (Hnone aivm_info s Hin Hs Hname).
  - exists (Fixture.scanned Fixture.dir_mixed), "Mai", 1473843840.
    split; [vm_compute; reflexivity |].
    intros aivm_info s Hi Hs Hname Hid.
    vm_compute in Hi.
    destruct Hi as [<- | [<- | []]]; vm_compute in Hs;
      repeat match goal with
             | H : _ \/ _ |- _ => destruct H as [<- | H]
             | H : False |- _ => destruct H
             end;
      vm_compute in Hname; try discriminate;
      vm_compute in Hid; intuition discriminate.
Qed.

Lemma C10_style_id_from_model_name_witness :
  let m := Fixture.scanned Fixture.dir_mixed in
  _installed_aivm_infos m = Some (cached m)
  /\ get_style_id_from_model_name Fixture.offline "Mai" m
     = (Ok 1473843840, m)
  /\ get_style_id_from_model_name Fixture.offline "Nobody" m
     = (Raise (HTTPException 500 ModelNameDoesNotExist), m).
Proof.
  assert (H : _installed_aivm_infos (Fixture.scanned Fixture.dir_mixed)
              = Some (cached (Fixture.scanned Fixture.dir_mixed)))
    by (vm_compute; reflexivity).
  split; [exact H |].
  destruct (C10_style_id_from_model_name Fixture.offline
              (Fixture.scanned Fixture.dir_mixed)
              (cached (Fixture.scanned Fixture.dir_mixed)) "Mai" H)
    as [Hfound _].
  destruct (C10_style_id_from_model_name Fixture.offline
              (Fixture.scanned Fixture.dir_mixed)
              (cached (Fixture.scanned Fixture.dir_mixed)) "Nobody" H)
    as [_ [Hmissing _]].
  split.
  - destruct Hfound as (aivm_info & first_speaker & Hfind & Hfirst & Hret).
    { eexists. eexists. split; [left; reflexivity |].
      split; [right; left; reflexivity | reflexivity]. }
    vm_compute in Hfind. injection Hfind as <-.
    vm_compute in Hfirst. injection Hfirst as <-.
    exact Hret.
  - apply Hmissing. intros aivm_info s Hi Hs Hname.
    vm_compute in Hi.
    destruct Hi as [<- | [<- | []]]; vm_compute in Hs;
      repeat match goal with
             | H : _ \/ _ |- _ => destruct H as [<- | H]
             | H : False |- _ => destruct H
             end;
      vm_compute in Hname; discriminate.
Defined.

(** ** When the scan completes *)

Section Completes.

Variable E : Env.

Lemma map_result_ok {A B : Type} (f : A -> result B) (l : list A) :
  Forall (fun a => exists b, f a = Ok b) l ->
  exists bs, map_result f l = Ok bs.
Proof.
  induction 1 as [| a l [b Hb] _ [bs Hbs]]; cbn.
  - exists []. reflexivity.
  - rewrite Hb. cbn. rewrite Hbs. cbn. exists (b :: bs). reflexivity.
Qed.

Lemma extract_base64_ok (s : string) :
  is_data_url s = true -> exists b, extract_base64_from_data_url s = Ok b.
Proof.
  unfold is_data_url, extract_base64_from_data_url.
  intros H. apply andb_true_iff in H. destruct H as [Hprefix Hcomma].
  assert (Hne : nonempty s = true)
    by (destruct s; [discriminate | reflexivity]).
  rewrite Hne, Hprefix. cbn.
  destruct (after_first "," s) as [b |]; [exists b; reflexivity | discriminate].
Qed.

Lemma make_style_ok (speaker_uuid speaker_icon : string)
    (style_manifest : AivmManifestSpeakerStyle) :
  speaker_uuid <> "" ->
  well_formed_style style_manifest ->
  exists made, make_style speaker_uuid speaker_icon style_manifest = Ok made.
Proof.
  intros Hne (Hid & Hicon & Hsamples). unfold make_style.
  rewrite (local_style_id_to_style_id_ok _ _ Hne Hid). cbn [bind].
  assert (Hi : exists icon,
            match style_icon style_manifest with
            | Some i => if nonempty i then extract_base64_from_data_url i
                        else Ok speaker_icon
            | None => Ok speaker_icon
            end = Ok icon).
  { destruct (style_icon style_manifest) as [i |]; [| eauto].
    destruct (nonempty i); [| eauto].
    apply extract_base64_ok. exact Hicon. }
  destruct Hi as [icon ->]. cbn [bind].
  destruct (map_result_ok
              (fun sample => extract_base64_from_data_url (sample_audio sample))
              (style_voice_samples style_manifest)) as [samples ->].
  - eapply Forall_impl; [| exact Hsamples].
    intros sample. apply extract_base64_ok.
  - cbn. eauto.
Qed.

Lemma make_speaker_ok (aivm_manifest : AivmManifest)
    (speaker_manifest : AivmManifestSpeaker) :
  well_formed_speaker speaker_manifest ->
  exists made, make_speaker aivm_manifest speaker_manifest = Ok made.
Proof.
  intros (Hne & Hicon & Hstyles). unfold make_speaker.
  destruct (extract_base64_ok _ Hicon) as [icon ->]. cbn [bind].
  destruct (map_result_ok (make_style (spk_uuid speaker_manifest) icon)
              (spk_styles speaker_manifest)) as [made ->].
  - eapply Forall_impl; [| exact Hstyles].
    intros style_manifest. apply make_style_ok. exact Hne.
  - cbn. eauto.
Qed.

Lemma make_speakers_ok (aivm_file_path : string) (aivm_manifest : AivmManifest)
    (speaker_manifests : list AivmManifestSpeaker) :
  Forall (fun s => supports_japanese s = true -> well_formed_speaker s)
         speaker_manifests ->
  exists made logs,
    make_speakers aivm_file_path aivm_manifest speaker_manifests
    = (Ok made, logs).
Proof.
  induction 1 as [| s rest Hs _ (made & logs & IH)]; cbn [make_speakers].
  - unfold W_ret. eauto.
  - destruct (supports_japanese s); cbn [negb].
    + destruct (make_speaker_ok aivm_manifest s (Hs eq_refl)) as [one Hone].
      rewrite Hone, IH. cbn. eauto.
    + rewrite IH. cbn. eauto.
Qed.

(** A file whose manifest, if it has one, is well formed is either added or
    skipped: the step returns. *)
Lemma scan_file_completes (aivm_infos : aivm_dict) (entry : string * node) :
  snd entry <> Unreadable ->
  (forall data aivm_manifest,
     snd entry = RegularFile data ->
     read_metadata E (fst entry) data = Some aivm_manifest ->
     well_formed aivm_manifest) ->
  exists aivm_infos' logs,
    scan_file E aivm_infos entry = (Ok aivm_infos', logs).
Proof.
  intros Hreadable Hwf. unfold scan_file. rewrite supported_major_is_1.
  destruct (snd entry) as [data | | |]; [| congruence | cbn; eauto ..].
  destruct (read_metadata E (fst entry) data) as [aivm_manifest |] eqn:Hread;
    [| cbn; eauto].
  destruct (Hwf data aivm_manifest eq_refl Hread) as [Hversion Hspeakers].
  destruct (mem (mf_uuid aivm_manifest) aivm_infos); [cbn; eauto |].
  destruct (Nat.eqb_spec
              (List.length (split "." (mf_manifest_version aivm_manifest))) 2)
    as [Hlen | Hlen]; cbn [negb]; [| cbn; eauto].
  destruct (Hversion Hlen) as [numbers ->]. cbn [W_lift W_bind].
  destruct (negb (nth 0 numbers 0 =? 1)); [cbn; eauto |].
  destruct (make_speakers_ok (fst entry) aivm_manifest _ Hspeakers)
    as (made & logs & Hmade).
  destruct (negb (existsb (String.eqb _) SUPPORTED_MANIFEST_VERSIONS));
    cbn [W_log W_ret W_bind];
    (destruct (negb (existsb (architecture_eqb _) _)); [cbn; eauto |]);
    rewrite Hmade; cbn; eauto.
Qed.

Lemma scan_files_completes (files : list (string * node)) :
  (forall path, ~ In (path, Unreadable) files) ->
  (forall path data aivm_manifest,
     In (path, RegularFile data) files ->
     read_metadata E path data = Some aivm_manifest ->
     well_formed aivm_manifest) ->
  forall aivm_infos,
  exists aivm_infos' logs,
    scan_files E aivm_infos files = (Ok aivm_infos', logs).
Proof.
  induction files as [| entry files IH]; intros Hreadable Hwf aivm_infos; cbn.
  - unfold W_ret. eauto.
  - destruct (scan_file_completes aivm_infos entry) as (mid & l1 & Hstep).
    { intros Hnode. apply (Hreadable (fst entry)). left.
      destruct entry as [p n]. cbn in *. congruence. }
    { intros data aivm_manifest Hnode Hread.
      apply (Hwf (fst entry) data); [left | exact Hread].
      destruct entry as [p n]. cbn in *. congruence. }
    rewrite Hstep. cbn.
    destruct (IH (fun p Hin => Hreadable p (or_intror Hin))
                 (fun p d mf Hin => Hwf p d mf (or_intror Hin)) mid)
      as (final & l2 & Hrest).
    rewrite Hrest. eauto.
Qed.

(** The rescan returns whenever every file of the directory can be read
    and every package among them that [aivmlib] accepts has a well-formed
    manifest; C3 is the claim without these conditions. *)
Lemma get_installed_aivm_infos_completes (force wait : bool) (m : manager) :
  (forall path, ~ In (path, Unreadable) (installed_aivm_dir m)) ->
  (forall path data aivm_manifest,
     In (path, RegularFile data) (installed_aivm_dir m) ->
     read_metadata E path data = Some aivm_manifest ->
     well_formed aivm_manifest) ->
  exists infos m', get_installed_aivm_infos E force wait m = (Ok infos, m').
Proof.
  intros Hreadable Hwf.
  assert (Hscan : exists scan logs,
            scan_files E [] (aivm_file_paths m) = (Ok scan, logs)).
  { apply scan_files_completes.
    - intros path Hin. exact (Hreadable path (aivm_file_paths_In m _ Hin)).
    - intros path data aivm_manifest Hin.
      exact (Hwf path data aivm_manifest (aivm_file_paths_In m _ Hin)). }
  destruct Hscan as (scan & logs & Hscan).
  destruct (_installed_aivm_infos m) as [old |] eqn:Hc.
  - destruct force;
      [| rewrite (get_installed_cached E m old wait Hc); eauto].
    rewrite (rescan_eq E true wait m (or_introl eq_refl)), Hscan.
    cbv zeta. eauto.
  - rewrite (rescan_eq E force wait m (or_intror Hc)), Hscan.
    cbv zeta. eauto.
Qed.

End Completes.

(** ** The rescan on a package that passes validation but not the
    conversion *)

(** C3 (not met by the source): a package that the reader accepts and whose
    speaker icon is not a data URL makes the rescan raise [ValueError]
    instead of skipping the file; no cache is published, and the
    constructor fails the same way although a valid package sits next to
    it.  A file that cannot be opened does the same with [OSError]. *)
Theorem C3_rescan_raises_on_icon_without_data_url :
  let m := Fixture.manager_of Fixture.dir_remote_icon None in
  let run := get_installed_aivm_infos Fixture.offline true false m in
  let locked :=
    get_installed_aivm_infos Fixture.offline true false
      (Fixture.manager_of Fixture.dir_unreadable None) in
  fst run = Raise (ValueError "Invalid data URL format.")
  /\ _installed_aivm_infos (snd run) = None
  /\ logger (snd run) = []
  /\ fst (__init__ Fixture.offline Fixture.dir_remote_icon)
     = Raise (ValueError "Invalid data URL format.")
  /\ fst locked = Raise (OSError "[Errno 13] Permission denied")
  /\ _installed_aivm_infos (snd locked) = None.
Proof. vm_compute. repeat split. Qed.

(** ** Reconciliation with the catalog *)

Section Reconciliation.

Variable E : Env.

(** The entry is left as it was when the request times out or fails, when
    the status is not 200, and when the body is not JSON. *)
Lemma fetch_latest_version_unchanged (i : AivmInfo) :
  match hub_get E (model_info_url (mf_uuid (manifest i))) with
  | FetchTimeout | FetchFailure | FetchResponse _ None => True
  | FetchResponse status_code (Some _) => status_code <> 200
  end ->
  fst (fetch_latest_version E i) = i.
Proof.
  unfold fetch_latest_version.
  destruct (hub_get E _) as [| | status_code [body |]]; try reflexivity.
  - intros Hne. destruct (Z.eqb_spec status_code 404); [reflexivity |].
    destruct (Z.eqb_spec status_code 200); [contradiction | reflexivity].
  - intros _. destruct (status_code =? 404); [reflexivity |].
    destruct (negb (status_code =? 200)); reflexivity.
Qed.

(** Whatever the outcome, [is_update_available] changes only together
    with a parsed latest version. *)
Lemma fetch_latest_version_flag (i : AivmInfo) :
  let i' := fst (fetch_latest_version E i) in
  is_update_available i' = is_update_available i
  \/ exists text latest current,
       latest_version i' = JString text
       /\ Version_parse E text = Some latest
       /\ Version_parse E (mf_version (manifest i)) = Some current
       /\ is_update_available i' = Version_gt E latest current.
Proof.
  unfold fetch_latest_version.
  repeat match goal with
         | |- context [match ?x with _ => _ end] => destruct x eqn:?
         end; cbn; auto.
  right. cbn in *. subst. eexists _, _, _. repeat split; eassumption.
Qed.

(** Each entry of the cache after the pass is the task's result on the
    entry of the same key before it: no entry's outcome enters
    another's. *)
Lemma update_tasks_lookup (infos : aivm_dict) (k : string) :
  lookup k (fst (update_tasks E infos))
  = option_map (fun i => fst (fetch_latest_version E i)) (lookup k infos).
Proof.
  rewrite update_tasks_map.
  induction infos as [| [k' v] infos IH]; cbn; [reflexivity |].
  destruct (String.eqb k k'); [reflexivity | exact IH].
Qed.

End Reconciliation.

(** C9 (not met by the source): when the catalog lists a version that is no
    semantic version, the task has stored it in [latest_version] before
    parsing fails; [is_update_available] keeps its value, and the other
    entry is updated from its own response. *)
Theorem C9_unparseable_version_overwrites_latest_version :
  let m := Fixture.scanned Fixture.dir_mixed in
  let m' := snd (check_aivm_updates_from_hub Fixture.online m) in
  option_map latest_version (lookup Fixture.uuid_a (cached m))
  = Some (JString "1.0.0")
  /\ option_map latest_version (lookup Fixture.uuid_a (cached m'))
     = Some (JString "latest")
  /\ option_map is_update_available (lookup Fixture.uuid_a (cached m'))
     = Some false
  /\ option_map latest_version (lookup Fixture.uuid_b (cached m'))
     = Some (JString "1.2.0")
  /\ option_map is_update_available (lookup Fixture.uuid_b (cached m'))
     = Some true
  /\ In (WARNING, FetchFailed Fixture.uuid_a) (logger m').
Proof. vm_compute. intuition. Qed.

(** ** Writing a package and the first run *)

Section Install.

Variable E : Env.

Lemma get_installed_dir (force wait : bool) (m : manager) :
  installed_aivm_dir (snd (get_installed_aivm_infos E force wait m))
  = installed_aivm_dir m.
Proof.
  destruct (_installed_aivm_infos m) as [old |] eqn:Hc.
  - destruct force.
    + rewrite (rescan_eq E true wait m (or_introl eq_refl)).
      destruct (scan_files E [] (aivm_file_paths m)) as [[scan | e] logs];
        [| reflexivity].
      cbv zeta. destruct wait; [| reflexivity].
      unfold check_aivm_updates_from_hub.
      cbn [_installed_aivm_infos with_cache].
      destruct (update_tasks E _) as [infos' l]. reflexivity.
    + rewrite (get_installed_cached E m old wait Hc). reflexivity.
  - rewrite (rescan_eq E force wait m (or_intror Hc)).
    destruct (scan_files E [] (aivm_file_paths m)) as [[scan | e] logs];
      [| reflexivity].
    cbv zeta. destruct wait; [| reflexivity].
    unfold check_aivm_updates_from_hub.
    cbn [_installed_aivm_infos with_cache].
    destruct (update_tasks E _) as [infos' l]. reflexivity.
Qed.

Lemma node_at_put_node (path : string) (n : node) (dir : directory) :
  node_at path (put_node path n dir) = Some n.
Proof.
  induction dir as [| [p n'] dir IH]; cbn.
  - rewrite String.eqb_refl. reflexivity.
  - destruct (String.eqb path p) eqn:Heq; cbn; rewrite Heq;
      [reflexivity | exact IH].
Qed.

Lemma node_at_put_node_other (path other : string) (n : node)
    (dir : directory) :
  other <> path ->
  node_at other (put_node path n dir) = node_at other dir.
Proof.
  intros Hne. induction dir as [| [p n'] dir IH]; cbn.
  - destruct (String.eqb_spec other path); [contradiction | reflexivity].
  - destruct (String.eqb_spec path p) as [-> | Hp]; cbn.
    + destruct (String.eqb_spec other p); [contradiction | reflexivity].
    + destruct (String.eqb other p); [reflexivity | exact IH].
Qed.

(** A body of type [M unit] followed by [return None]. *)
Lemma M_bind_unit (c : M unit) (m : manager) :
  M_bind c (fun _ => M_ret tt) m = c m.
Proof.
  unfold M_bind, M_ret. destruct (c m) as [[[] | e] m']; reflexivity.
Qed.

(** The path [install_aivm] writes to. *)
Lemma install_aivm_unfold (file : list Z) (m : manager) (infos : aivm_dict)
    (aivm_manifest : AivmManifest) (extension : string) :
  _installed_aivm_infos m = Some infos ->
  (read_aivmx_metadata E file = Some aivm_manifest /\ extension = "aivmx")
  \/ (read_aivmx_metadata E file = None
      /\ read_aivm_metadata E file = Some aivm_manifest
      /\ extension = "aivm") ->
  existsb (String.eqb (mf_manifest_version aivm_manifest))
          SUPPORTED_MANIFEST_VERSIONS = true ->
  existsb (architecture_eqb (mf_model_architecture aivm_manifest))
          SUPPORTED_MODEL_ARCHITECTURES = true ->
  exists m1,
    installed_aivm_dir m1 = installed_aivm_dir m
    /\ install_aivm E file m
       = let aivm_file_path := install_path infos aivm_manifest extension in
         match write_file E aivm_file_path file (installed_aivm_dir m1) with
         | (None, dir) =>
             match get_installed_aivm_infos E true true
                     (with_logs [(INFO, Installed aivm_file_path)]
                                (with_dir dir m1)) with
             | (Ok _, m2) => (Ok tt, m2)
             | (Raise e, m2) => (Raise e, m2)
             end
         | (Some ex, dir) =>
             (Raise (HTTPException 500 (write_failure_detail ex)),
              with_logs [(ERROR, FailedToWrite aivm_file_path)]
                        (with_dir dir m1))
         end.
Proof.
  intros Hcache Hread Hversion Harch.
  unfold install_aivm, install_path.
  assert (Hm : forall l, _installed_aivm_infos (with_logs l m) = Some infos)
    by (intros l; exact Hcache).
  destruct Hread as [[Hx ->] | (Hx & Hv & ->)]; rewrite Hx; [| rewrite Hv];
    unfold M_bind at 1; cbn [M_ret fst snd];
    rewrite (M_bind_ok _ _ _ _ _ (get_installed_cached E m infos false Hcache));
    unfold mem; destruct (lookup (mf_uuid aivm_manifest) infos)
      as [previous |] eqn:Hl.
  all: rewrite ?Hversion, ?Harch; cbn [negb].
  all: unfold M_bind, M_log, M_ret.
  all: try rewrite (get_installed_cached E _ infos false (Hm _)), Hl.
  all: match goal with
       | |- context [write_file E _ _ (installed_aivm_dir ?x)] => exists x
       end.
  all: split; [reflexivity |]; cbv zeta.
  all: match goal with
       | |- context [write_file E ?p ?f ?d] =>
           destruct (write_file E p f d) as [[ex |] dir]
       end; [reflexivity |].
  all: match goal with
       | |- context [get_installed_aivm_infos E true true ?x] =>
           destruct (get_installed_aivm_infos E true true x) as [[r | e] m2]
       end; reflexivity.
Qed.

End Install.

(** The claim of C7 fails on a disk that fills up: the cached package of
    the first model is overwritten in place, and after the failed install
    the target holds the first two bytes of the new package, which is
    neither the old file nor the new one. *)
Lemma C7_partial_file_left_at_target :
  let m := Fixture.scanned Fixture.dir_anneli in
  let run := install_aivm Fixture.disk_full Fixture.anneli_update m in
  node_at "anneli.aivmx" (installed_aivm_dir m) = Some (RegularFile [1; 0; 0])
  /\ fst run = Raise (HTTPException 500 WriteFailedNoSpace)
  /\ node_at "anneli.aivmx" (installed_aivm_dir (snd run))
     = Some (RegularFile [1; 7])
  /\ [1; 7] <> Fixture.anneli_update.
Proof. vm_compute. repeat split; discriminate. Qed.

(** C7 (as amended): [install_aivm] opens the target path itself and writes
    the package bytes into it; no other path of the directory is touched.
    When the write completes the target holds exactly the package bytes;
    when [open] fails the call fails with status 500 and the directory is
    as it was; when the write fails part-way the call fails with status 500
    and the target holds the bytes written so far. *)
Theorem C7_install_writes_in_place (E : Env) (file : list Z) (m : manager)
    (infos : aivm_dict) (aivm_manifest : AivmManifest) (extension : string) :
  _installed_aivm_infos m = Some infos ->
  (read_aivmx_metadata E file = Some aivm_manifest /\ extension = "aivmx")
  \/ (read_aivmx_metadata E file = None
      /\ read_aivm_metadata E file = Some aivm_manifest
      /\ extension = "aivm") ->
  existsb (String.eqb (mf_manifest_version aivm_manifest))
          SUPPORTED_MANIFEST_VERSIONS = true ->
  existsb (architecture_eqb (mf_model_architecture aivm_manifest))
          SUPPORTED_MODEL_ARCHITECTURES = true ->
  let aivm_file_path := install_path infos aivm_manifest extension in
  node_at aivm_file_path (installed_aivm_dir m) <> Some Directory ->
  let after := installed_aivm_dir (snd (install_aivm E file m)) in
  match disk_write E aivm_file_path file with
  | WriteCompletes => node_at aivm_file_path after = Some (RegularFile file)
  | OpenRaises msg =>
      fst (install_aivm E file m)
      = Raise (HTTPException 500 (write_failure_detail msg))
      /\ after = installed_aivm_dir m
  | WriteRaises written msg =>
      fst (install_aivm E file m)
      = Raise (HTTPException 500 (write_failure_detail msg))
      /\ node_at aivm_file_path after
         = Some (RegularFile (firstn written file))
  end
  /\ forall other,
       other <> aivm_file_path ->
       node_at other after = node_at other (installed_aivm_dir m).
Proof.
  intros Hcache Hread Hversion Harch aivm_file_path Hnode after.
  destruct (install_aivm_unfold E file m infos aivm_manifest extension
              Hcache Hread Hversion Harch) as (m1 & Hdir & Heq).
  cbv zeta in Heq. fold aivm_file_path in Heq. subst after.
  rewrite Heq. clear Heq. unfold write_file. rewrite Hdir.
  assert (Hrun : forall dir l,
            installed_aivm_dir
              (snd (let '(r, m2) :=
                      get_installed_aivm_infos E true true
                        (with_logs l (with_dir dir m1)) in
                    match r with
                    | Ok _ => (Ok tt, m2)
                    | Raise e => (Raise e, m2)
                    end)) = dir).
  { intros dir l.
    pose proof (get_installed_dir E true true (with_logs l (with_dir dir m1)))
      as H.
    destruct (get_installed_aivm_infos E true true _) as [[r | e] m2];
      exact H. }
  destruct (node_at aivm_file_path (installed_aivm_dir m))
    as [[data | | |] |] eqn:Hat; try congruence;
    destruct (disk_write E aivm_file_path file) as [| msg | written msg];
    cbn [fst snd installed_aivm_dir with_logs with_dir];
    rewrite ?Hrun;
    repeat split;
    try apply node_at_put_node;
    try (intros other Hother; apply node_at_put_node_other; exact Hother);
    try reflexivity.
Qed.

Lemma C7_install_writes_in_place_witness :
  let m := Fixture.scanned Fixture.dir_anneli in
  let run := install_aivm Fixture.disk_full Fixture.anneli_update m in
  _installed_aivm_infos m = Some (cached m)
  /\ fst run = Raise (HTTPException 500
                        (write_failure_detail
                           "[Errno 28] No space left on device"))
  /\ node_at "anneli.aivmx" (installed_aivm_dir (snd run))
     = Some (RegularFile (firstn 2 Fixture.anneli_update)).
Proof.
  assert (H : _installed_aivm_infos (Fixture.scanned Fixture.dir_anneli)
              = Some (cached (Fixture.scanned Fixture.dir_anneli)))
    by (vm_compute; reflexivity).
  split; [exact H |].
  refine (proj1 (C7_install_writes_in_place Fixture.disk_full
                   Fixture.anneli_update (Fixture.scanned Fixture.dir_anneli)
                   (cached (Fixture.scanned Fixture.dir_anneli))
                   Fixture.manifest_a "aivmx" H _ _ _ _)).
  - left. split; reflexivity.
  - reflexivity.
  - reflexivity.
  - vm_compute. discriminate.
Defined.

(** ** The first run *)

Lemma download_url_is_direct (aivm_uuid : string) :
  startswith "https://hub.aivis-project.com/aivm-models/"
             (download_url aivm_uuid) = false.
Proof. reflexivity. Qed.

(** The claim of C8 fails when the catalog cannot be reached: the
    constructor, started on an empty directory, raises. *)
Lemma C8_constructor_raises_when_offline :
  fst (__init__ Fixture.offline []) = Raise (HTTPException 500 DownloadFailed)
  /\ fst (__init__ Fixture.offline []) <> Ok tt.
Proof. vm_compute. split; [reflexivity | discriminate]. Qed.

(** C8 (as amended): when the first scan finds no model, the constructor
    calls [install_aivm_from_url] for the default model and nothing
    catches what it raises: the constructor ends as that call ends.  A
    download that fails or returns a status outside 2xx leaves the
    constructor as an HTTP 500 error, a download that is no package as an
    HTTP 422 error. *)
Theorem C8_bootstrap_failure_propagates (E : Env) (dir : directory)
    (logs : list log_record) :
  scan_files E [] (glob ".aivmx" dir ++ glob ".aivm" dir) = (Ok [], logs) ->
  let url := download_url "a59cb814-0083-4369-8542-f51a29e72af7" in
  (exists m1,
     __init__ E dir = install_aivm_from_url E url m1
     /\ _installed_aivm_infos m1 = Some []
     /\ installed_aivm_dir m1 = dir)
  /\ (match http_get E url with
      | DownloadHTTPError => True
      | DownloadResponse status_code _ => ~ 200 <= status_code <= 299
      end ->
      fst (__init__ E dir) = Raise (HTTPException 500 DownloadFailed))
  /\ (forall status_code content,
        http_get E url = DownloadResponse status_code content ->
        200 <= status_code <= 299 ->
        read_aivmx_metadata E content = None ->
        read_aivm_metadata E content = None ->
        fst (__init__ E dir) = Raise (HTTPException 422 InvalidAivmxFile)).
Proof.
  intros Hscan url.
  set (m0 := with_logs [(INFO, ModelsDirectory)]
               {| installed_aivm_dir := dir;
                  _installed_aivm_infos := None;
                  logger := [];
                  background_update_checks := O |}).
  pose proof (rescan_eq E false false m0 (or_intror eq_refl)) as Hget.
  unfold aivm_file_paths in Hget.
  change (installed_aivm_dir m0) with dir in Hget.
  rewrite Hscan in Hget. cbv zeta in Hget.
  change (_installed_aivm_infos m0) with (@None aivm_dict) in Hget.
  cbv iota beta in Hget.
  change (sorted_by_name []) with (@nil (string * AivmInfo)) in Hget.
  set (m2 := with_background _ _) in Hget.
  change (cached m2) with (@nil (string * AivmInfo)) in Hget.
  set (m1 := with_logs [(INFO, InstallingDefaultModel url)]
               (with_logs [(WARNING, NoModelsInstalled)] m2)).
  assert (Hinit : __init__ E dir = install_aivm_from_url E url m1).
  { unfold __init__. unfold M_bind at 1. cbn [M_log]. fold m0.
    unfold M_bind at 1. rewrite Hget.
    cbn [List.length Nat.eqb]. unfold M_bind at 1. cbn [M_log].
    unfold DEFAULT_MODEL_UUIDS. cbn [for_each].
    rewrite M_bind_unit. unfold M_bind at 1. cbn [M_log]. reflexivity. }
  assert (Hdirect : startswith "https://hub.aivis-project.com/aivm-models/"
                               url = false)
    by apply download_url_is_direct.
  split; [| split].
  - exists m1. split; [exact Hinit | split; reflexivity].
  - intros Hfail. rewrite Hinit. unfold install_aivm_from_url.
    rewrite Hdirect. unfold M_bind, M_ret, M_log, M_raise.
    destruct (http_get E url) as [| status_code content];
      [reflexivity |].
    destruct (Z.leb_spec 200 status_code); [| reflexivity].
    destruct (Z.leb_spec status_code 299); [| reflexivity].
    exfalso. apply Hfail. lia.
  - intros status_code content Hresp Hlo Hx Hv. rewrite Hinit.
    unfold install_aivm_from_url.
    rewrite Hdirect. unfold M_bind at 1. cbn [M_ret].
    unfold M_bind at 1. cbn [M_log]. rewrite Hresp.
    replace ((200 <=? status_code) && (status_code <=? 299))%bool with true
      by (symmetry; apply andb_true_iff; split; apply Z.leb_le; lia).
    unfold M_bind at 1. cbn [M_log]. unfold install_aivm.
    rewrite Hx, Hv. reflexivity.
Qed.

Lemma C8_bootstrap_failure_propagates_witness :
  scan_files Fixture.offline [] (glob ".aivmx" [] ++ glob ".aivm" [])
  = (Ok [], [])
  /\ fst (__init__ Fixture.offline [])
     = Raise (HTTPException 500 DownloadFailed).
Proof.
  split; [reflexivity |].
  apply (C8_bootstrap_failure_propagates Fixture.offline [] []);
    [reflexivity | exact I].
Defined.

(** * More properties of the code *)

(** ** The codec: which bits of the digest reach the identifier *)

Lemma combine_closed_form (h l : Z) :
  0 <= l <= 31 -> combine h l = (h mod 2 ^ 26) * 32 + l.
Proof.
  intros Hl.
  pose proof (combine_range h l Hl) as Hrange.
  destruct (combine_cases h l Hl) as [Hc Hcases].
  set (c := h mod 2 ^ 27 * 32 + l) in *.
  assert (Hmod : combine h l = c mod 2 ^ 31).
  { apply Z.bits_inj'. intros n Hn.
    destruct (Z.ltb_spec n 31) as [Hlt | Hge].
    - rewrite Z.mod_pow2_bits_low by lia.
      destruct Hcases as [[_ ->] | [_ ->]]; [| reflexivity].
      rewrite Z.land_spec, Z.lnot_spec by lia. unfold SIGN_BIT.
      rewrite Z.shiftl_1_l, Z.pow2_bits_false by lia. apply andb_true_r.
    - rewrite Z.mod_pow2_bits_high by lia.
      rewrite <- (Z.mod_small (combine h l) (2 ^ 31)) by exact Hrange.
      apply Z.mod_pow2_bits_high. lia. }
  rewrite Hmod. unfold c.
  assert (Hsplit : h mod 2 ^ 27
                   = h mod 2 ^ 26 + 2 ^ 26 * ((h / 2 ^ 26) mod 2)).
  { change (2 ^ 27) with (2 ^ 26 * 2). apply Z.rem_mul_r; lia. }
  pose proof (Z.mod_pos_bound h (2 ^ 26) eq_refl) as Hlow.
  rewrite Hsplit.
  replace ((h mod 2 ^ 26 + 2 ^ 26 * ((h / 2 ^ 26) mod 2)) * 32 + l)
    with (h mod 2 ^ 26 * 32 + l + (h / 2 ^ 26) mod 2 * 2 ^ 31)
    by (change (2 ^ 31) with (2 ^ 26 * 32); ring).
  rewrite Z.mod_add by lia. apply Z.mod_small.
  change (2 ^ 31) with (2 ^ 26 * 32). lia.
Qed.

Lemma style_id_closed_form (speaker_uuid : string) (local_style_id : Z) :
  speaker_uuid <> "" ->
  0 <= local_style_id <= 31 ->
  local_style_id_to_style_id local_style_id speaker_uuid
  = Ok ((int16 (MD5.hexdigest (MD5.bytes_of_string speaker_uuid)) mod 2 ^ 26)
        * 32 + local_style_id).
Proof.
  intros Hne Hl.
  rewrite (local_style_id_to_style_id_ok _ _ Hne Hl).
  f_equal. apply combine_closed_form. exact Hl.
Qed.

(** X1: the identifier is the low 26 bits of the MD5 digest of the speaker
    identity, times 32, plus the local index: clearing bit 31 drops the
    27th bit that the mask had kept. *)
Theorem X1_style_id_closed_form (speaker_uuid : string) (local_style_id : Z) :
  speaker_uuid <> "" ->
  0 <= local_style_id <= 31 ->
  local_style_id_to_style_id local_style_id speaker_uuid
  = Ok ((int16 (MD5.hexdigest (MD5.bytes_of_string speaker_uuid)) mod 2 ^ 26)
        * 32 + local_style_id).
Proof.
  exact (style_id_closed_form speaker_uuid local_style_id).
Qed.

Lemma X1_style_id_closed_form_witness :
  Fixture.uuid_a <> "" /\ 0 <= 3 <= 31
  /\ local_style_id_to_style_id 3 Fixture.uuid_a
     = Ok ((int16 (MD5.hexdigest (MD5.bytes_of_string Fixture.uuid_a))
            mod 2 ^ 26) * 32 + 3).
Proof.
  split; [discriminate | split; [lia |]].
  apply (X1_style_id_closed_form Fixture.uuid_a 3); [discriminate | lia].
Defined.

(** X2: the styles of one speaker get pairwise different identifiers, which
    agree above their low five bits; an argument outside 0..31 or an empty
    identity is refused with [ValueError]. *)
Theorem X2_style_ids_of_one_speaker (speaker_uuid : string) (l1 l2 : Z) :
  speaker_uuid <> "" ->
  0 <= l1 <= 31 ->
  0 <= l2 <= 31 ->
  exists id1 id2,
    local_style_id_to_style_id l1 speaker_uuid = Ok id1
    /\ local_style_id_to_style_id l2 speaker_uuid = Ok id2
    /\ (id1 = id2 -> l1 = l2)
    /\ id1 / 32 = id2 / 32
    /\ (forall l, l < 0 \/ 31 < l ->
          exists msg,
            local_style_id_to_style_id l speaker_uuid
            = Raise (ValueError msg))
    /\ (forall l, exists msg,
          local_style_id_to_style_id l "" = Raise (ValueError msg)).
Proof.
  intros Hne H1 H2.
  set (h := int16 (MD5.hexdigest (MD5.bytes_of_string speaker_uuid))).
  exists (h mod 2 ^ 26 * 32 + l1), (h mod 2 ^ 26 * 32 + l2).
  split; [apply style_id_closed_form; assumption |].
  split; [apply style_id_closed_form; assumption |].
  split; [lia |]. split.
  - rewrite !(Z.add_comm (h mod 2 ^ 26 * 32)), !Z.div_add by lia.
    rewrite !Z.div_small by lia. reflexivity.
  - split.
    + intros l Hout. unfold local_style_id_to_style_id.
      destruct (String.eqb speaker_uuid ""); [eauto |].
      replace ((0 <=? l) && (l <=? 31))%bool with false; [cbn; eauto |].
      symmetry. apply andb_false_iff.
      destruct Hout; [left; apply Z.leb_gt | right; apply Z.leb_gt]; lia.
    + intros l. cbn. eauto.
Qed.

Lemma X2_style_ids_of_one_speaker_witness :
  Fixture.uuid_a <> "" /\ 0 <= 0 <= 31 /\ 0 <= 31 <= 31
  /\ exists id1 id2,
       local_style_id_to_style_id 0 Fixture.uuid_a = Ok id1
       /\ local_style_id_to_style_id 31 Fixture.uuid_a = Ok id2
       /\ id1 <> id2 /\ id1 / 32 = id2 / 32.
Proof.
  split; [discriminate | split; [lia | split; [lia |]]].
  destruct (X2_style_ids_of_one_speaker Fixture.uuid_a 0 31)
    as (id1 & id2 & E1 & E2 & Hinj & Hhigh & _); [discriminate | lia | lia |].
  exists id1, id2. repeat split; try assumption.
  intros Heq. specialize (Hinj Heq). discriminate.
Defined.

(** ** Data URLs *)

Lemma after_first_app (sep : ascii) (s rest : string) :
  after_first sep s = None ->
  after_first sep (s ++ String sep rest) = Some rest.
Proof.
  induction s as [| c s IH]; cbn.
  - rewrite Ascii.eqb_refl. reflexivity.
  - destruct (Ascii.eqb c sep); [discriminate | exact IH].
Qed.

Lemma after_first_none_app (sep : ascii) (s t : string) :
  after_first sep s = None ->
  after_first sep (s ++ t) = after_first sep t.
Proof.
  induction s as [| c s IH]; cbn; [reflexivity |].
  destruct (Ascii.eqb c sep); [discriminate | exact IH].
Qed.

Lemma prefix_empty (s : string) : String.prefix "" s = true.
Proof. destruct s; reflexivity. Qed.

(** X3: from a data URL [data:<type>,<payload>] whose type holds no comma,
    [extract_base64_from_data_url] returns the payload whole, commas in it
    included; without any comma, and for the empty string, it raises
    [ValueError]. *)
Theorem X3_data_url_payload (media_type payload : string) :
  after_first "," media_type = None ->
  extract_base64_from_data_url ("data:" ++ media_type ++ "," ++ payload)
  = Ok payload
  /\ extract_base64_from_data_url ("data:" ++ media_type)
     = Raise (ValueError "Invalid data URL format.")
  /\ extract_base64_from_data_url "" = Raise (ValueError "Data URL is empty.").
Proof.
  intros Hnone. unfold extract_base64_from_data_url, startswith.
  split; [| split; [| reflexivity]].
  - cbn. rewrite prefix_empty. cbn.
    rewrite (after_first_app "," media_type payload Hnone). reflexivity.
  - cbn. rewrite prefix_empty. cbn. rewrite Hnone. reflexivity.
Qed.

Lemma X3_data_url_payload_witness :
  after_first "," "image/png;base64" = None
  /\ extract_base64_from_data_url "data:image/png;base64,iVBO,Rw0="
     = Ok "iVBO,Rw0=".
Proof.
  split; [reflexivity |].
  apply (X3_data_url_payload "image/png;base64" "iVBO,Rw0="). reflexivity.
Defined.

(** ** What a scan has established of the entries it publishes *)

Section Indexed.

Variable E : Env.

Lemma fresh_from_cons (entry : string * node) (files : list (string * node))
    (item : string * AivmInfo) :
  fresh_from E files item -> fresh_from E (entry :: files) item.
Proof.
  intros [(data & logs & Hin & H) Hrest]. split; [| exact Hrest].
  exists data, logs. split; [right; exact Hin | exact H].
Qed.

(** The step of the scan, with all it has checked on the way to adding an
    entry. *)
Lemma scan_file_fresh (aivm_infos aivm_infos' : aivm_dict)
    (entry : string * node) (logs : list log_record) :
  scan_file E aivm_infos entry = (Ok aivm_infos', logs) ->
  aivm_infos' = aivm_infos
  \/ exists item,
       aivm_infos' = aivm_infos ++ [item]
       /\ mem (fst item) aivm_infos = false
       /\ file_path (snd item) = fst entry
       /\ fresh_from E [entry] item.
Proof.
  unfold scan_file. rewrite supported_major_is_1.
  destruct (snd entry) as [data | | |] eqn:Hnode;
    [| discriminate | cbn; intros [= <- _]; left; reflexivity ..].
  destruct (read_metadata E (fst entry) data) as [aivm_manifest |] eqn:Hread;
    [| cbn; intros [= <- _]; left; reflexivity].
  destruct (mem (mf_uuid aivm_manifest) aivm_infos) eqn:Hmem;
    [cbn; intros [= <- _]; left; reflexivity |].
  destruct (Nat.eqb_spec
              (List.length (split "." (mf_manifest_version aivm_manifest))) 2)
    as [Hlen | Hlen]; cbn [negb];
    [| cbn; intros [= <- _]; left; reflexivity].
  destruct (map_result int _) as [numbers | e] eqn:Hint; [| cbn; discriminate].
  cbn [W_lift W_bind].
  destruct (Z.eqb_spec (nth 0 numbers 0) 1) as [Hmajor | Hmajor]; cbn [negb];
    [| cbn; intros [= <- _]; left; reflexivity].
  assert (Hversion : accepted_version (mf_manifest_version aivm_manifest))
    by (exists numbers; auto).
  destruct (negb (existsb (String.eqb _) SUPPORTED_MANIFEST_VERSIONS));
    cbn [W_log W_ret W_bind];
    (destruct (existsb (architecture_eqb _) _) eqn:Harch; cbn [negb];
     [| cbn; intros [= <- _]; left; reflexivity]);
    (destruct (make_speakers _ _ _) as [[made | e] l] eqn:Hmade;
     cbn [W_bind W_ret]; [| discriminate]);
    intros [= <- _]; right;
    rewrite setitem_absent by exact Hmem;
    (eexists; split; [reflexivity |]);
    (split; [exact Hmem |]); (split; [reflexivity |]);
    (split; [| cbn; auto]);
    exists data, l; cbn;
    (split; [left; rewrite <- Hnode; destruct entry; reflexivity |]);
    auto 10.
Qed.

Lemma scan_files_fresh (files : list (string * node)) :
  forall (aivm_infos aivm_infos' : aivm_dict) (logs : list log_record),
    scan_files E aivm_infos files = (Ok aivm_infos', logs) ->
    exists added,
      aivm_infos' = aivm_infos ++ added
      /\ Forall (fresh_from E files) added.
Proof.
  induction files as [| entry files IH]; intros aivm_infos aivm_infos' logs.
  - cbn. intros [= <- _]. exists []. rewrite app_nil_r. auto.
  - cbn [scan_files]. unfold W_bind at 1.
    destruct (scan_file E aivm_infos entry) as [[mid | e] l1] eqn:Hstep;
      [| discriminate].
    destruct (scan_files E mid files) as [r l2] eqn:Hrest.
    intros [= -> _].
    destruct (IH _ _ _ Hrest) as (added & -> & Hadded).
    assert (Hlift : Forall (fresh_from E (entry :: files)) added).
    { eapply Forall_impl; [| exact Hadded].
      intros item. apply fresh_from_cons. }
    destruct (scan_file_fresh _ _ _ _ Hstep)
      as [-> | (item & -> & _ & _ & Hitem)].
    + exists added. auto.
    + exists (item :: added). rewrite <- app_assoc. split; [reflexivity |].
      constructor; [| exact Hlift].
      destruct Hitem as [(data & l & Hin & H) Hrest'].
      split; [| exact Hrest'].
      exists data, l. split; [| exact H].
      destruct Hin as [Hin | []]. left. exact Hin.
Qed.

(** Carrying the load state over and the pass over the catalog leave the
    key, the manifest, the path, the size and the speakers of every entry
    as the scan set them. *)
Lemma rescanned_frame (m : manager) (wait : bool) (scan : aivm_dict)
    (k : string) (v : AivmInfo) :
  In (k, v) (rescanned E m wait scan) ->
  exists v0,
    In (k, v0) scan
    /\ manifest v = manifest v0
    /\ file_path v = file_path v0
    /\ file_size v = file_size v0
    /\ speakers v = speakers v0.
Proof.
  unfold rescanned.
  set (carried := match _installed_aivm_infos m with
                  | Some old => map (carry_is_loaded old) (sorted_by_name scan)
                  | None => sorted_by_name scan
                  end).
  assert (Hcarried : forall k1 v1, In (k1, v1) carried ->
            exists v0, In (k1, v0) scan
              /\ manifest v1 = manifest v0
              /\ file_path v1 = file_path v0
              /\ file_size v1 = file_size v0
              /\ speakers v1 = speakers v0).
  { intros k1 v1. unfold carried.
    destruct (_installed_aivm_infos m) as [old |].
    - rewrite in_map_iff. intros ([k0 v0] & Heq & Hin).
      apply (Permutation_in _ (sorted_by_name_perm scan)) in Hin.
      cbn in Heq. exists v0.
      destruct (lookup k0 old) as [o |];
        injection Heq as <- <-; cbn; auto.
    - intros Hin.
      apply (Permutation_in _ (sorted_by_name_perm scan)) in Hin.
      exists v1. auto. }
  destruct wait; [| apply Hcarried].
  rewrite update_tasks_map, in_map_iff. intros ([k1 v1] & Heq & Hin).
  cbn in Heq. inversion Heq; subst.
  destruct (Hcarried _ _ Hin) as (v0 & Hscan & Hm & Hp & Hs & Hsp).
  destruct (fetch_latest_version_frame E v1) as (_ & Fp & Fs & Fm & Fsp).
  exists v0. cbn in *. rewrite Fp, Fs, Fm, Fsp. auto.
Qed.

Lemma rescan_published (force wait : bool) (m m' : manager)
    (infos : aivm_dict) :
  force = true \/ _installed_aivm_infos m = None ->
  get_installed_aivm_infos E force wait m = (Ok infos, m') ->
  Forall (published_from E (aivm_file_paths m)) infos.
Proof.
  intros Hre Hget.
  destruct (rescan_spec E _ _ _ _ _ Hre Hget) as (scan & logs & Hscan & -> & _).
  destruct (scan_files_fresh _ _ _ _ Hscan) as (added & Hadd & Hfresh).
  cbn in Hadd. subst scan. rewrite Forall_forall in Hfresh |- *.
  intros [k v] Hin. apply rescanned_frame in Hin.
  destruct Hin as (v0 & Hin0 & Hm & Hp & Hs & Hsp).
  destruct (Hfresh _ Hin0) as [(data & l & Hfile & Hread & Hk & Hsize & Hv
                                & Ha & Hmade) _].
  cbn in *. exists data, l. cbn.
  rewrite Hm, Hp, Hs, Hsp. auto 10.
Qed.

End Indexed.

(** ** Sorting *)

Section Sorting.

Context {A : Type} (key : A -> string).

Lemma ltb_false_leb (s t : string) :
  String.ltb s t = false -> String.leb t s = true.
Proof.
  unfold String.ltb, String.leb. rewrite (String.compare_antisym s t).
  destruct (String.compare t s); cbn; congruence.
Qed.

Lemma ltb_true_leb (s t : string) :
  String.ltb s t = true -> String.leb s t = true.
Proof.
  unfold String.ltb, String.leb. destruct (String.compare s t); congruence.
Qed.

Lemma insert_by_perm (x : A) (l : list A) :
  Permutation (insert_by key x l) (x :: l).
Proof.
  induction l as [| y l IH]; cbn; [reflexivity |].
  destruct (String.ltb _ _); [reflexivity |].
  rewrite IH. apply perm_swap.
Qed.

Lemma sorted_by_perm (items : list A) : Permutation (sorted_by key items) items.
Proof.
  unfold sorted_by.
  enough (H : forall acc,
            Permutation (fold_left (fun acc x => insert_by key x acc) items acc)
                        (items ++ acc)).
  { rewrite H, app_nil_r. reflexivity. }
  induction items as [| x items IH]; intros acc; cbn; [reflexivity |].
  rewrite IH, insert_by_perm. symmetry. apply Permutation_middle.
Qed.

Lemma insert_by_ordered (x : A) (l : list A) :
  ordered_by key l -> ordered_by key (insert_by key x l).
Proof.
  unfold ordered_by. induction 1 as [| y l Hsorted IH Hhd]; cbn.
  - repeat constructor.
  - destruct (String.ltb (key x) (key y)) eqn:Hlt.
    + constructor; [constructor; assumption |].
      constructor. apply ltb_true_leb. exact Hlt.
    + constructor; [exact IH |].
      destruct l as [| z l]; cbn.
      * constructor. apply ltb_false_leb. exact Hlt.
      * destruct (String.ltb (key x) (key z)).
        -- constructor. apply ltb_false_leb. exact Hlt.
        -- inversion Hhd; subst. constructor. assumption.
Qed.

Lemma sorted_by_ordered (items : list A) : ordered_by key (sorted_by key items).
Proof.
  unfold sorted_by.
  enough (H : forall acc, ordered_by key acc ->
            ordered_by key
              (fold_left (fun acc x => insert_by key x acc) items acc)).
  { apply H. constructor. }
  induction items as [| x items IH]; intros acc Hacc; cbn; [exact Hacc |].
  apply IH, insert_by_ordered, Hacc.
Qed.

Lemma ordered_by_map (f : A -> A) (l : list A) :
  (forall x, key (f x) = key x) ->
  ordered_by key l -> ordered_by key (map f l).
Proof.
  intros Hkey. unfold ordered_by.
  induction 1 as [| y l Hsorted IH Hhd]; cbn; constructor; [exact IH |].
  destruct Hhd as [| z l Hyz]; cbn; constructor.
  rewrite !Hkey. exact Hyz.
Qed.

End Sorting.

Lemma sorted_by_name_is_sorted_by (items : aivm_dict) :
  sorted_by_name items
  = sorted_by (fun item => mf_name (manifest (snd item))) items.
Proof.
  unfold sorted_by_name, sorted_by.
  generalize (@nil (string * AivmInfo)) as acc.
  induction items as [| x items IH]; intros acc; cbn; [reflexivity |].
  rewrite <- IH. f_equal.
  induction acc as [| y acc IHacc]; cbn; [reflexivity |].
  rewrite IHacc. reflexivity.
Qed.

(** ** The cache after a rescan *)

Section AfterRescan.

Variable E : Env.

Lemma mem_setitem (k : string) (v : AivmInfo) (d : aivm_dict) :
  mem k (setitem k v d) = true.
Proof.
  unfold mem. induction d as [| [k' v'] d IH]; cbn.
  - rewrite String.eqb_refl. reflexivity.
  - destruct (String.eqb k k') eqn:Heq; cbn.
    + rewrite String.eqb_refl. reflexivity.
    + rewrite Heq. exact IH.
Qed.

Lemma mem_app_l (k : string) (d1 d2 : aivm_dict) :
  mem k d1 = true -> mem k (d1 ++ d2) = true.
Proof.
  unfold mem. destruct (lookup k d1) as [v |] eqn:Hl; [| discriminate].
  intros _. rewrite (lookup_app_l _ _ _ d2 Hl). reflexivity.
Qed.

Lemma mem_keys (k : string) (d : aivm_dict) :
  mem k d = true <-> In k (keys d).
Proof.
  destruct (mem k d) eqn:Hm.
  - split; [intros _ | reflexivity].
    destruct (in_dec String.string_dec k (keys d)) as [Hin | Hout];
      [exact Hin |].
    apply lookup_None, mem_lookup in Hout. congruence.
  - split; [discriminate |].
    intros Hin. apply mem_lookup, lookup_None in Hm. contradiction.
Qed.

(** A package is in the index once the scan has passed its file. *)
Lemma scan_file_indexes (aivm_infos aivm_infos' : aivm_dict)
    (entry : string * node) (logs : list log_record) (aivm_uuid : string) :
  scan_file E aivm_infos entry = (Ok aivm_infos', logs) ->
  package_of E aivm_uuid entry ->
  mem aivm_uuid aivm_infos' = true.
Proof.
  intros Hstep (data & aivm_manifest & Hnode & Hread & <- & Hversion & Harch).
  destruct Hversion as (numbers & Hlen & Hint & Hmajor).
  revert Hstep. unfold scan_file. rewrite supported_major_is_1, Hnode, Hread.
  destruct (mem (mf_uuid aivm_manifest) aivm_infos) eqn:Hmem;
    [cbn; intros [= <- _]; exact Hmem |].
  rewrite Hlen, Hint. cbn [Nat.eqb negb W_lift W_bind].
  rewrite Hmajor. cbn [Z.eqb Pos.eqb negb].
  unfold supported_architecture in Harch. rewrite Harch. cbn [negb].
  destruct (negb (existsb (String.eqb _) SUPPORTED_MANIFEST_VERSIONS));
    cbn [W_log W_ret W_bind];
    (destruct (make_speakers _ _ _) as [[made | e] l];
     cbn [W_bind W_ret]; [| discriminate]);
    intros [= <- _]; apply mem_setitem.
Qed.

Lemma scan_files_indexes (files : list (string * node)) (aivm_uuid : string)
    (entry : string * node) :
  In entry files ->
  package_of E aivm_uuid entry ->
  forall (aivm_infos aivm_infos' : aivm_dict) (logs : list log_record),
    scan_files E aivm_infos files = (Ok aivm_infos', logs) ->
    mem aivm_uuid aivm_infos' = true.
Proof.
  intros Hin Hpackage.
  induction files as [| first files IH]; [destruct Hin |].
  intros aivm_infos aivm_infos' logs. cbn [scan_files]. unfold W_bind at 1.
  destruct (scan_file E aivm_infos first) as [[mid | e] l1] eqn:Hstep;
    [| discriminate].
  destruct (scan_files E mid files) as [r l2] eqn:Hrest.
  intros [= -> _].
  destruct Hin as [-> | Hin]; [| exact (IH Hin _ _ _ Hrest)].
  destruct (scan_files_spec E _ _ _ _ Hrest) as (added & -> & _).
  apply mem_app_l. exact (scan_file_indexes _ _ _ _ _ Hstep Hpackage).
Qed.

Lemma rescanned_ordered (m : manager) (wait : bool) (scan : aivm_dict) :
  ordered_by (fun item => mf_name (manifest (snd item)))
             (rescanned E m wait scan).
Proof.
  unfold rescanned.
  assert (Hsorted : ordered_by (fun item => mf_name (manifest (snd item)))
                      (sorted_by_name scan))
    by (rewrite sorted_by_name_is_sorted_by; apply sorted_by_ordered).
  assert (Hcarried :
            ordered_by (fun item => mf_name (manifest (snd item)))
              match _installed_aivm_infos m with
              | Some old => map (carry_is_loaded old) (sorted_by_name scan)
              | None => sorted_by_name scan
              end).
  { destruct (_installed_aivm_infos m) as [old |]; [| exact Hsorted].
    apply ordered_by_map; [| exact Hsorted].
    intros [k v]. cbn. destruct (lookup k old); reflexivity. }
  destruct wait; [| exact Hcarried].
  rewrite update_tasks_map.
  apply (ordered_by_map (fun item => mf_name (manifest (snd item)))
           (fun item => (fst item, fst (fetch_latest_version E (snd item)))));
    [| exact Hcarried].
  intros [k v]. cbn.
  destruct (fetch_latest_version_frame E v) as (_ & _ & _ & -> & _).
  reflexivity.
Qed.

End AfterRescan.

Section CacheTheorems.

Variable E : Env.

Lemma aivm_file_paths_spec (m : manager) (entry : string * node) :
  In entry (aivm_file_paths m)
  <-> In entry (installed_aivm_dir m)
      /\ startswith "." (fst entry) = false
      /\ (endswith ".aivmx" (fst entry) = true
          \/ endswith ".aivm" (fst entry) = true).
Proof.
  unfold aivm_file_paths, glob.
  rewrite in_app_iff, !filter_In, !andb_true_iff, !negb_true_iff. tauto.
Qed.

Lemma find_by_uuid (aivm_uuid : string) (infos : aivm_dict) :
  Forall (fun item => fst item = mf_uuid (manifest (snd item))) infos ->
  find (fun aivm_info => String.eqb (mf_uuid (manifest aivm_info)) aivm_uuid)
       (values infos)
  = lookup aivm_uuid infos.
Proof.
  induction 1 as [| [k v] infos Hk _ IH]; cbn; [reflexivity |].
  cbn in Hk. rewrite <- Hk, (String.eqb_sym k aivm_uuid).
  destruct (String.eqb aivm_uuid k); [reflexivity | exact IH].
Qed.

Lemma published_key (files : list (string * node)) (infos : aivm_dict) :
  Forall (published_from E files) infos ->
  Forall (fun item => fst item = mf_uuid (manifest (snd item))) infos.
Proof.
  apply Forall_impl. intros item (data & logs & _ & _ & Hk & _). exact Hk.
Qed.

End CacheTheorems.

(** X4: after a rescan every entry of the cache is keyed by the identity of
    its manifest and stands for a regular file of the directory whose name
    is not hidden and ends in one of the two extensions, which the reader
    for that extension accepts as this manifest; the entry's size is the
    length of the file, its architecture is supported and its manifest
    version has major number 1. *)
Theorem X4_cache_entries_come_from_files (E : Env) (force wait : bool)
    (m m' : manager) (infos : aivm_dict) :
  force = true \/ _installed_aivm_infos m = None ->
  get_installed_aivm_infos E force wait m = (Ok infos, m') ->
  forall aivm_uuid aivm_info,
    lookup aivm_uuid infos = Some aivm_info ->
    aivm_uuid = mf_uuid (manifest aivm_info)
    /\ startswith "." (file_path aivm_info) = false
    /\ (endswith ".aivmx" (file_path aivm_info) = true
        \/ endswith ".aivm" (file_path aivm_info) = true)
    /\ supported_architecture (manifest aivm_info) = true
    /\ accepted_version (mf_manifest_version (manifest aivm_info))
    /\ exists data,
         In (file_path aivm_info, RegularFile data) (installed_aivm_dir m)
         /\ read_metadata E (file_path aivm_info) data
            = Some (manifest aivm_info)
         /\ file_size aivm_info = Z.of_nat (List.length data).
Proof.
  intros Hre Hget aivm_uuid aivm_info Hl.
  pose proof (rescan_published E _ _ _ _ _ Hre Hget) as Hpub.
  rewrite Forall_forall in Hpub.
  destruct (Hpub _ (lookup_In _ _ _ Hl))
    as (data & logs & Hin & Hread & Hk & Hsize & Hv & Ha & _).
  cbn in *. apply aivm_file_paths_spec in Hin.
  destruct Hin as (Hdir & Hhidden & Hext). cbn in *.
  repeat split; try assumption. exists data. auto.
Qed.

Lemma X4_cache_entries_come_from_files_witness :
  let m := Fixture.manager_of Fixture.dir_mixed None in
  let run := get_installed_aivm_infos Fixture.offline true true m in
  (true = true \/ _installed_aivm_infos m = None)
  /\ run = (Ok (cached (snd run)), snd run)
  /\ forall aivm_uuid aivm_info,
       lookup aivm_uuid (cached (snd run)) = Some aivm_info ->
       aivm_uuid = mf_uuid (manifest aivm_info)
       /\ startswith "." (file_path aivm_info) = false.
Proof.
  split; [left; reflexivity |].
  split; [vm_compute; reflexivity |].
  intros aivm_uuid aivm_info Hl.
  destruct (X4_cache_entries_come_from_files Fixture.offline true true
              (Fixture.manager_of Fixture.dir_mixed None)
              (snd (get_installed_aivm_infos Fixture.offline true true
                      (Fixture.manager_of Fixture.dir_mixed None)))
              (cached (snd (get_installed_aivm_infos Fixture.offline true true
                              (Fixture.manager_of Fixture.dir_mixed None))))
              (or_introl eq_refl)) with (aivm_uuid := aivm_uuid)
                                        (aivm_info := aivm_info)
    as (Hk & Hh & _); [vm_compute; reflexivity | exact Hl |].
  split; assumption.
Defined.

(** X5: after a rescan that returns, every package of the directory that
    is listed (its name is not hidden and ends in one of the two
    extensions), that the reader accepts, and whose architecture and
    manifest version are supported has its identity in the cache. *)
Theorem X5_accepted_packages_are_indexed (E : Env) (force wait : bool)
    (m m' : manager) (infos : aivm_dict) (path : string) (data : list Z)
    (aivm_manifest : AivmManifest) :
  force = true \/ _installed_aivm_infos m = None ->
  get_installed_aivm_infos E force wait m = (Ok infos, m') ->
  In (path, RegularFile data) (installed_aivm_dir m) ->
  startswith "." path = false ->
  endswith ".aivmx" path = true \/ endswith ".aivm" path = true ->
  read_metadata E path data = Some aivm_manifest ->
  accepted_version (mf_manifest_version aivm_manifest) ->
  supported_architecture aivm_manifest = true ->
  exists aivm_info,
    lookup (mf_uuid aivm_manifest) infos = Some aivm_info
    /\ mf_uuid (manifest aivm_info) = mf_uuid aivm_manifest.
Proof.
  intros Hre Hget Hdir Hhidden Hext Hread Hversion Harch.
  pose proof (rescan_published E _ _ _ _ _ Hre Hget) as Hpub.
  destruct (rescan_spec E _ _ _ _ _ Hre Hget) as (scan & logs & Hscan & -> & _).
  assert (Hin : In (path, RegularFile data) (aivm_file_paths m))
    by (apply aivm_file_paths_spec; auto).
  assert (Hmem : mem (mf_uuid aivm_manifest) scan = true).
  { apply (scan_files_indexes E _ _ _ Hin) with (aivm_infos := [])
                                                (logs := logs);
      [| exact Hscan].
    exists data, aivm_manifest. auto 10. }
  apply mem_keys in Hmem.
  apply (Permutation_in _ (Permutation_sym (keys_rescanned E m wait scan)))
    in Hmem.
  apply mem_keys in Hmem. unfold mem in Hmem.
  destruct (lookup (mf_uuid aivm_manifest) (rescanned E m wait scan))
    as [aivm_info |] eqn:Hl; [| discriminate].
  exists aivm_info. split; [reflexivity |].
  rewrite Forall_forall in Hpub.
  destruct (Hpub _ (lookup_In _ _ _ Hl)) as (_ & _ & _ & _ & Hk & _).
  cbn in Hk. symmetry. exact Hk.
Qed.

Lemma X5_accepted_packages_are_indexed_witness :
  let m := Fixture.manager_of Fixture.dir_mixed None in
  let run := get_installed_aivm_infos Fixture.offline true true m in
  run = (Ok (cached (snd run)), snd run)
  /\ In ("koharu.aivmx", RegularFile [2; 0]) (installed_aivm_dir m)
  /\ exists aivm_info,
       lookup Fixture.uuid_b (cached (snd run)) = Some aivm_info
       /\ mf_uuid (manifest aivm_info) = Fixture.uuid_b.
Proof.
  split; [vm_compute; reflexivity |].
  split; [left; reflexivity |].
  apply (X5_accepted_packages_are_indexed Fixture.offline true true
           (Fixture.manager_of Fixture.dir_mixed None)
           (snd (get_installed_aivm_infos Fixture.offline true true
                   (Fixture.manager_of Fixture.dir_mixed None)))
           (cached (snd (get_installed_aivm_infos Fixture.offline true true
                           (Fixture.manager_of Fixture.dir_mixed None))))
           "koharu.aivmx" [2; 0] Fixture.manifest_b).
  - left. reflexivity.
  - vm_compute. reflexivity.
  - left. reflexivity.
  - reflexivity.
  - left. reflexivity.
  - reflexivity.
  - exists [1; 0]. repeat split.
  - reflexivity.
Defined.

(** X6: the cache a rescan publishes is in non-decreasing order of the
    models' names, also after the load states have been carried over and
    the catalog has been consulted. *)
Theorem X6_cache_sorted_by_name (E : Env) (force wait : bool)
    (m m' : manager) (infos : aivm_dict) :
  force = true \/ _installed_aivm_infos m = None ->
  get_installed_aivm_infos E force wait m = (Ok infos, m') ->
  ordered_by (fun item => mf_name (manifest (snd item))) infos
  /\ _installed_aivm_infos m' = Some infos.
Proof.
  intros Hre Hget.
  destruct (rescan_spec E _ _ _ _ _ Hre Hget)
    as (scan & logs & _ & -> & Hcache & _).
  split; [apply rescanned_ordered | exact Hcache].
Qed.

Lemma X6_cache_sorted_by_name_witness :
  let m := Fixture.manager_of Fixture.dir_mixed None in
  let run := get_installed_aivm_infos Fixture.offline false false m in
  (false = true \/ _installed_aivm_infos m = None)
  /\ run = (Ok (cached (snd run)), snd run)
  /\ ordered_by (fun item => mf_name (manifest (snd item))) (cached (snd run))
  /\ map (fun item => mf_name (manifest (snd item))) (cached (snd run))
     = ["Anneli"; "Koharu"].
Proof.
  split; [right; reflexivity |].
  split; [vm_compute; reflexivity |].
  split; [| vm_compute; reflexivity].
  apply (X6_cache_sorted_by_name Fixture.offline false false
           (Fixture.manager_of Fixture.dir_mixed None)
           (snd (get_installed_aivm_infos Fixture.offline false false
                   (Fixture.manager_of Fixture.dir_mixed None))));
    [right; reflexivity | vm_compute; reflexivity].
Defined.

(** X7: after a rescan [get_aivm_info], which compares the identity in each
    manifest, agrees with the cache's own keys: it returns the entry stored
    under the identity, and fails with status 404 exactly for the
    identities that are not keys. *)
Theorem X7_get_aivm_info_agrees_with_keys (E : Env) (force wait : bool)
    (m m' : manager) (infos : aivm_dict) :
  force = true \/ _installed_aivm_infos m = None ->
  get_installed_aivm_infos E force wait m = (Ok infos, m') ->
  forall aivm_uuid,
    get_aivm_info E aivm_uuid m'
    = (match lookup aivm_uuid infos with
       | Some aivm_info => Ok aivm_info
       | None => Raise (HTTPException 404 (ModelNotInstalled aivm_uuid))
       end, m').
Proof.
  intros Hre Hget aivm_uuid.
  pose proof (rescan_published E _ _ _ _ _ Hre Hget) as Hpub.
  destruct (rescan_spec E _ _ _ _ _ Hre Hget) as (_ & _ & _ & _ & Hcache & _).
  unfold get_aivm_info.
  rewrite (M_bind_ok _ _ _ _ _ (get_installed_cached E m' infos false Hcache)).
  rewrite (find_by_uuid _ _ (published_key E _ _ Hpub)).
  destruct (lookup aivm_uuid infos); reflexivity.
Qed.

Lemma X7_get_aivm_info_agrees_with_keys_witness :
  let m := Fixture.manager_of Fixture.dir_mixed None in
  let run := get_installed_aivm_infos Fixture.offline true true m in
  run = (Ok (cached (snd run)), snd run)
  /\ fst (get_aivm_info Fixture.offline Fixture.uuid_c (snd run))
     = Raise (HTTPException 404 (ModelNotInstalled Fixture.uuid_c))
  /\ option_map file_path
       (match fst (get_aivm_info Fixture.offline Fixture.uuid_a (snd run)) with
        | Ok aivm_info => Some aivm_info
        | Raise _ => None
        end) = Some "anneli.aivmx".
Proof.
  split; [vm_compute; reflexivity |].
  pose proof (X7_get_aivm_info_agrees_with_keys Fixture.offline true true
                (Fixture.manager_of Fixture.dir_mixed None)
                (snd (get_installed_aivm_infos Fixture.offline true true
                        (Fixture.manager_of Fixture.dir_mixed None)))
                (cached (snd (get_installed_aivm_infos Fixture.offline true true
                                (Fixture.manager_of Fixture.dir_mixed None))))
                (or_introl eq_refl)) as H.
  split.
  - rewrite H by (vm_compute; reflexivity). vm_compute. reflexivity.
  - rewrite H by (vm_compute; reflexivity). vm_compute. reflexivity.
Defined.

(** ** Speakers *)

Section Speakers.

Variable E : Env.

Lemma get_speakers_cached (m : manager) (infos : aivm_dict) :
  _installed_aivm_infos m = Some infos ->
  get_speakers E m = (Ok (sorted_by sp_name (all_speakers infos)), m).
Proof.
  intros Hcache. unfold get_speakers.
  rewrite (M_bind_ok _ _ _ _ _ (get_installed_cached E m infos false Hcache)).
  reflexivity.
Qed.

Lemma all_speakers_In (infos : aivm_dict) (s : Speaker) :
  In s (all_speakers infos)
  <-> exists aivm_info aivm_info_speaker,
        In aivm_info (values infos)
        /\ In aivm_info_speaker (speakers aivm_info)
        /\ speaker aivm_info_speaker = s.
Proof.
  unfold all_speakers. rewrite in_flat_map. split.
  - intros (i & Hi & Hs). apply in_map_iff in Hs.
    destruct Hs as (ls & <- & Hls). eauto.
  - intros (i & ls & Hi & Hls & <-). exists i. split; [exact Hi |].
    apply in_map. exact Hls.
Qed.

Lemma speaker_info_of_found (speaker_uuid : string) (infos : aivm_dict)
    (aivm_info : AivmInfo) (aivm_info_speaker : LibrarySpeaker) :
  In aivm_info (values infos) ->
  In aivm_info_speaker (speakers aivm_info) ->
  sp_speaker_uuid (speaker aivm_info_speaker) = speaker_uuid ->
  exists first,
    speaker_info_of speaker_uuid infos = Some (speaker_info first)
    /\ sp_speaker_uuid (speaker first) = speaker_uuid
    /\ exists owner, In owner (values infos) /\ In first (speakers owner).
Proof.
  intros Hi Hls Huuid. unfold speaker_info_of.
  destruct (find _ (flat_map speakers (values infos))) as [first |] eqn:Hfind.
  - apply find_some in Hfind. destruct Hfind as [Hin Heq].
    apply String.eqb_eq in Heq. apply in_flat_map in Hin.
    exists first. cbn. auto.
  - exfalso.
    assert (Hin : In aivm_info_speaker (flat_map speakers (values infos)))
      by (apply in_flat_map; eauto).
    pose proof (find_none _ _ Hfind _ Hin) as Hno. cbn in Hno.
    rewrite Huuid, String.eqb_refl in Hno. discriminate.
Qed.

Lemma speaker_info_of_missing (speaker_uuid : string) (infos : aivm_dict) :
  (forall aivm_info aivm_info_speaker,
     In aivm_info (values infos) ->
     In aivm_info_speaker (speakers aivm_info) ->
     sp_speaker_uuid (speaker aivm_info_speaker) <> speaker_uuid) ->
  speaker_info_of speaker_uuid infos = None.
Proof.
  intros Hnone. unfold speaker_info_of.
  destruct (find _ (flat_map speakers (values infos))) as [first |] eqn:Hfind;
    [| reflexivity].
  exfalso. apply find_some in Hfind. destruct Hfind as [Hin Heq].
  apply String.eqb_eq in Heq. apply in_flat_map in Hin.
  destruct Hin as (owner & Ho & Hf). exact (Hnone owner first Ho Hf Heq).
Qed.

End Speakers.

(** X8: [get_speakers] returns every speaker of every cached model, each as
    often as it is cached, in non-decreasing order of the speakers'
    names. *)
Theorem X8_get_speakers_sorted (E : Env) (m : manager) (infos : aivm_dict) :
  _installed_aivm_infos m = Some infos ->
  exists listed,
    get_speakers E m = (Ok listed, m)
    /\ ordered_by sp_name listed
    /\ Permutation listed (all_speakers infos)
    /\ forall s,
         In s listed
         <-> exists aivm_info aivm_info_speaker,
               In aivm_info (values infos)
               /\ In aivm_info_speaker (speakers aivm_info)
               /\ speaker aivm_info_speaker = s.
Proof.
  intros Hcache. exists (sorted_by sp_name (all_speakers infos)).
  split; [apply get_speakers_cached; exact Hcache |].
  split; [apply sorted_by_ordered |].
  split; [apply sorted_by_perm |].
  intros s. rewrite <- all_speakers_In. split.
  - apply Permutation_in, sorted_by_perm.
  - apply Permutation_in, Permutation_sym, sorted_by_perm.
Qed.

Lemma X8_get_speakers_sorted_witness :
  let m := Fixture.scanned Fixture.dir_mixed in
  _installed_aivm_infos m = Some (cached m)
  /\ exists listed,
       get_speakers Fixture.offline m = (Ok listed, m)
       /\ ordered_by sp_name listed.
Proof.
  assert (H : _installed_aivm_infos (Fixture.scanned Fixture.dir_mixed)
              = Some (cached (Fixture.scanned Fixture.dir_mixed)))
    by (vm_compute; reflexivity).
  split; [exact H |].
  destruct (X8_get_speakers_sorted Fixture.offline
              (Fixture.scanned Fixture.dir_mixed)
              (cached (Fixture.scanned Fixture.dir_mixed)) H)
    as (listed & Hget & Hordered & _).
  exists listed. split; [exact Hget | exact Hordered].
Defined.

Example get_speakers_names :
  match fst (get_speakers Fixture.offline (Fixture.scanned Fixture.dir_mixed))
  with
  | Ok listed => map sp_name listed
  | Raise _ => []
  end = ["Anneli"; "Koharu"; "Mai"].
Proof. vm_compute. reflexivity. Qed.

(** X9: [get_characters] returns one character per speaker that
    [get_speakers] returns, in the same order, so in non-decreasing order
    of names as its closing comment says; each carries the speaker's
    styles as talk styles and has no sing style. *)
Theorem X9_get_characters_sorted (E : Env) (m : manager) (infos : aivm_dict) :
  _installed_aivm_infos m = Some infos ->
  exists listed characters,
    get_speakers E m = (Ok listed, m)
    /\ get_characters E m = (Ok characters, m)
    /\ ordered_by ch_name characters
    /\ map ch_name characters = map sp_name listed
    /\ map ch_uuid characters = map sp_speaker_uuid listed
    /\ map ch_talk_styles characters = map sp_styles listed
    /\ Forall (fun c => ch_sing_styles c = []) characters.
Proof.
  intros Hcache.
  set (listed := sorted_by sp_name (all_speakers infos)).
  exists listed, (map character_of listed).
  pose proof (get_speakers_cached E m infos Hcache) as Hget.
  split; [exact Hget |].
  split; [unfold get_characters; rewrite (M_bind_ok _ _ _ _ _ Hget);
          reflexivity |].
  assert (Hordered : ordered_by sp_name listed) by apply sorted_by_ordered.
  split.
  - clearbody listed. unfold ordered_by in *.
    induction Hordered as [| s l _ IH Hhd]; cbn; constructor; [exact IH |].
    destruct Hhd; cbn; constructor. assumption.
  - rewrite !map_map. repeat split; try reflexivity.
    apply Forall_forall. intros c Hc. apply in_map_iff in Hc.
    destruct Hc as (s & <- & _). reflexivity.
Qed.

Lemma X9_get_characters_sorted_witness :
  let m := Fixture.scanned Fixture.dir_mixed in
  _installed_aivm_infos m = Some (cached m)
  /\ exists characters,
       get_characters Fixture.offline m = (Ok characters, m)
       /\ ordered_by ch_name characters
       /\ Forall (fun c => ch_sing_styles c = []) characters.
Proof.
  assert (H : _installed_aivm_infos (Fixture.scanned Fixture.dir_mixed)
              = Some (cached (Fixture.scanned Fixture.dir_mixed)))
    by (vm_compute; reflexivity).
  split; [exact H |].
  destruct (X9_get_characters_sorted Fixture.offline
              (Fixture.scanned Fixture.dir_mixed)
              (cached (Fixture.scanned Fixture.dir_mixed)) H)
    as (listed & characters & _ & Hget & Hordered & _ & _ & _ & Hsing).
  exists characters. auto.
Defined.

(** X10: [get_speaker_info] returns for every speaker that [get_speakers]
    lists: the additional information of the first cached speaker of that
    identity; for an identity no cached speaker has, it fails with status
    404 and leaves the manager as it was. *)
Theorem X10_get_speaker_info (E : Env) (m : manager) (infos : aivm_dict) :
  _installed_aivm_infos m = Some infos ->
  (forall listed s,
     get_speakers E m = (Ok listed, m) ->
     In s listed ->
     exists owner first,
       get_speaker_info E (sp_speaker_uuid s) m
       = (Return (speaker_info first), m)
       /\ In owner (values infos)
       /\ In first (speakers owner)
       /\ sp_speaker_uuid (speaker first) = sp_speaker_uuid s)
  /\ (forall speaker_uuid,
        (forall aivm_info aivm_info_speaker,
           In aivm_info (values infos) ->
           In aivm_info_speaker (speakers aivm_info) ->
           sp_speaker_uuid (speaker aivm_info_speaker) <> speaker_uuid) ->
        get_speaker_info E speaker_uuid m
        = (Fail (RaisedHTTP 404 (SpeakerNotInstalled speaker_uuid)), m)).
Proof.
  intros Hcache.
  assert (Hunfold : forall speaker_uuid,
            get_speaker_info E speaker_uuid m
            = match speaker_info_of speaker_uuid infos with
              | Some info => (Return info, m)
              | None =>
                  (Fail (RaisedHTTP 404 (SpeakerNotInstalled speaker_uuid)), m)
              end).
  { intros speaker_uuid. unfold get_speaker_info, Q_call.
    rewrite (get_installed_cached E m infos false Hcache). reflexivity. }
  split.
  - intros listed s Hget Hin.
    rewrite (get_speakers_cached E m infos Hcache) in Hget.
    injection Hget as <-.
    apply (Permutation_in _ (sorted_by_perm sp_name _)) in Hin.
    apply all_speakers_In in Hin. destruct Hin as (i & ls & Hi & Hls & <-).
    destruct (speaker_info_of_found _ infos i ls Hi Hls eq_refl)
      as (first & Hfound & Huuid & owner & Ho & Hf).
    exists owner, first. rewrite Hunfold, Hfound. auto.
  - intros speaker_uuid Hnone.
    rewrite Hunfold, (speaker_info_of_missing _ _ Hnone). reflexivity.
Qed.

Lemma X10_get_speaker_info_witness :
  let m := Fixture.scanned Fixture.dir_mixed in
  _installed_aivm_infos m = Some (cached m)
  /\ get_speaker_info Fixture.offline "no-such-speaker" m
     = (Fail (RaisedHTTP 404 (SpeakerNotInstalled "no-such-speaker")), m)
  /\ exists info,
       get_speaker_info Fixture.offline
         "4cf3e1d8-5583-41a9-a554-b2d2cda2c569" m = (Return info, m)
       /\ spi_portrait info = "iVBORw0KGgo=".
Proof.
  assert (H : _installed_aivm_infos (Fixture.scanned Fixture.dir_mixed)
              = Some (cached (Fixture.scanned Fixture.dir_mixed)))
    by (vm_compute; reflexivity).
  split; [exact H |].
  destruct (X10_get_speaker_info Fixture.offline
              (Fixture.scanned Fixture.dir_mixed)
              (cached (Fixture.scanned Fixture.dir_mixed)) H)
    as [_ Hmissing].
  split.
  - apply Hmissing. intros aivm_info ls Hi Hls.
    vm_compute in Hi.
    destruct Hi as [<- | [<- | []]]; vm_compute in Hls;
      repeat match goal with
             | H : _ \/ _ |- _ => destruct H as [<- | H]
             | H : False |- _ => destruct H
             end; vm_compute; discriminate.
  - eexists. split; [vm_compute; reflexivity | reflexivity].
Defined.

(** ** From a style identifier back to the manifest *)

Section StyleLookup.

Variable E : Env.

Lemma map_result_In {A B : Type} (f : A -> result B) (l : list A)
    (bs : list B) :
  map_result f l = Ok bs ->
  forall b, In b bs -> exists a, In a l /\ f a = Ok b.
Proof.
  revert bs. induction l as [| a l IH]; cbn; intros bs.
  - intros [= <-] b [].
  - destruct (f a) as [b0 |] eqn:Hfa; cbn; [| discriminate].
    destruct (map_result f l) as [bs0 |]; cbn; [| discriminate].
    intros [= <-] b [<- | Hin]; [eauto |].
    destruct (IH bs0 eq_refl b Hin) as (a' & Ha' & Hf). eauto.
Qed.

Lemma style_id_decodes (local_style_id : Z) (speaker_uuid : string)
    (style_id : StyleId) :
  local_style_id_to_style_id local_style_id speaker_uuid = Ok style_id ->
  0 <= local_style_id <= 31
  /\ speaker_uuid <> ""
  /\ style_id_to_local_style_id style_id = local_style_id.
Proof.
  intros Hok.
  assert (Hguards : speaker_uuid <> "" /\ 0 <= local_style_id <= 31).
  { revert Hok. unfold local_style_id_to_style_id.
    destruct (String.eqb_spec speaker_uuid "") as [-> | Hne]; [discriminate |].
    destruct (Z.leb_spec 0 local_style_id); cbn [andb negb];
      [| discriminate].
    destruct (Z.leb_spec local_style_id 31); cbn [negb]; [| discriminate].
    intros _. split; [exact Hne | lia]. }
  destruct Hguards as [Hne Hl].
  rewrite (local_style_id_to_style_id_ok _ _ Hne Hl) in Hok.
  injection Hok as <-.
  split; [exact Hl | split; [exact Hne |]].
  apply combine_low_bits. exact Hl.
Qed.

Lemma make_style_id (speaker_uuid speaker_icon : string)
    (style_manifest : AivmManifestSpeakerStyle)
    (made : SpeakerStyle * StyleInfo) :
  make_style speaker_uuid speaker_icon style_manifest = Ok made ->
  local_style_id_to_style_id (style_local_id style_manifest) speaker_uuid
  = Ok (ss_id (fst made))
  /\ si_id (snd made) = ss_id (fst made)
  /\ ss_name (fst made) = style_name style_manifest.
Proof.
  unfold make_style.
  destruct (local_style_id_to_style_id _ _) as [style_id |]; cbn [bind];
    [| discriminate].
  destruct (match style_icon style_manifest with
            | Some i => _
            | None => _
            end) as [icon |]; cbn [bind]; [| discriminate].
  destruct (map_result _ _) as [samples |]; cbn [bind]; [| discriminate].
  intros [= <-]. cbn. auto.
Qed.

Lemma make_speaker_styles (aivm_manifest : AivmManifest)
    (speaker_manifest : AivmManifestSpeaker) (made : LibrarySpeaker) :
  make_speaker aivm_manifest speaker_manifest = Ok made ->
  sp_speaker_uuid (speaker made) = spk_uuid speaker_manifest
  /\ sp_name (speaker made) = spk_name speaker_manifest
  /\ map si_id (spi_style_infos (speaker_info made))
     = map ss_id (sp_styles (speaker made))
  /\ forall st,
       In st (sp_styles (speaker made)) ->
       exists style_manifest,
         In style_manifest (spk_styles speaker_manifest)
         /\ local_style_id_to_style_id (style_local_id style_manifest)
                                       (spk_uuid speaker_manifest)
            = Ok (ss_id st).
Proof.
  unfold make_speaker.
  destruct (extract_base64_from_data_url _) as [icon |]; cbn [bind];
    [| discriminate].
  destruct (map_result _ _) as [pairs |] eqn:Hpairs; cbn [bind];
    [| discriminate].
  intros [= <-]. cbn. split; [reflexivity |]. split; [reflexivity |].
  pose proof (map_result_In _ _ _ Hpairs) as Hin. split.
  - rewrite !map_map. apply map_ext_in. intros pair Hpair.
    destruct (Hin pair Hpair) as (sm & _ & Hmade).
    apply make_style_id in Hmade. tauto.
  - intros st Hst. apply in_map_iff in Hst.
    destruct Hst as (pair & <- & Hpair).
    destruct (Hin pair Hpair) as (sm & Hsm & Hmade).
    apply make_style_id in Hmade. exists sm. tauto.
Qed.

Lemma make_speakers_In (aivm_file_path : string) (aivm_manifest : AivmManifest)
    (speaker_manifests : list AivmManifestSpeaker) :
  forall (made : list LibrarySpeaker) (logs : list log_record),
    make_speakers aivm_file_path aivm_manifest speaker_manifests
    = (Ok made, logs) ->
    forall s,
      In s made ->
      exists speaker_manifest,
        In speaker_manifest speaker_manifests
        /\ supports_japanese speaker_manifest = true
        /\ make_speaker aivm_manifest speaker_manifest = Ok s.
Proof.
  induction speaker_manifests as [| sm rest IH]; intros made logs;
    cbn [make_speakers].
  - intros [= <- _] s [].
  - destruct (supports_japanese sm) eqn:Hja; cbn [negb].
    + destruct (make_speaker aivm_manifest sm) as [one |] eqn:Hone;
        cbn; [| discriminate].
      destruct (make_speakers _ _ rest) as [[others |] l] eqn:Hrest;
        cbn; [| discriminate].
      intros [= <- _] s [<- | Hin]; [eauto |].
      destruct (IH _ _ eq_refl s Hin) as (sm' & Hsm' & H). eauto.
    + cbn. destruct (make_speakers _ _ rest) as [[others |] l] eqn:Hrest;
        cbn; [| discriminate].
      intros [= <- _] s Hin.
      destruct (IH _ _ eq_refl s Hin) as (sm' & Hsm' & H). eauto.
Qed.

Lemma manifest_style_sound (speaker_uuid : string) (local_style_id : Z)
    (speaker_manifests : list AivmManifestSpeaker)
    (found : AivmManifestSpeaker * AivmManifestSpeakerStyle) :
  manifest_style speaker_uuid local_style_id speaker_manifests = Some found ->
  In (fst found) speaker_manifests
  /\ spk_uuid (fst found) = speaker_uuid
  /\ In (snd found) (spk_styles (fst found))
  /\ style_local_id (snd found) = local_style_id.
Proof.
  induction speaker_manifests as [| sm rest IH]; cbn; [discriminate |].
  destruct (String.eqb_spec (spk_uuid sm) speaker_uuid) as [Hu | Hu].
  - destruct (find _ (spk_styles sm)) as [st |] eqn:Hfind.
    + intros [= <-]. apply find_some in Hfind. destruct Hfind as [Hin Heq].
      apply Z.eqb_eq in Heq. cbn. auto.
    + intros H. destruct (IH H) as (H1 & H2). auto.
  - intros H. destruct (IH H) as (H1 & H2). auto.
Qed.

Lemma manifest_style_complete (speaker_uuid : string) (local_style_id : Z)
    (speaker_manifests : list AivmManifestSpeaker)
    (sm : AivmManifestSpeaker) (st : AivmManifestSpeakerStyle) :
  In sm speaker_manifests ->
  spk_uuid sm = speaker_uuid ->
  In st (spk_styles sm) ->
  style_local_id st = local_style_id ->
  manifest_style speaker_uuid local_style_id speaker_manifests <> None.
Proof.
  intros Hsm Hu Hst Hl.
  induction speaker_manifests as [| sm' rest IH]; [destruct Hsm |].
  cbn. destruct Hsm as [-> | Hsm].
  - rewrite Hu, String.eqb_refl.
    destruct (find _ (spk_styles sm)) as [st' |] eqn:Hfind; [discriminate |].
    exfalso. pose proof (find_none _ _ Hfind st Hst) as Hno. cbn in Hno.
    rewrite Hl, Z.eqb_refl in Hno. discriminate.
  - destruct (String.eqb (spk_uuid sm') speaker_uuid); [| exact (IH Hsm)].
    destruct (find _ (spk_styles sm')); [discriminate | exact (IH Hsm)].
Qed.

(** What the three outer loops return, and when they return nothing. *)
Lemma in_styles_sound (style_id : StyleId) (aivm_info : AivmInfo)
    (s : LibrarySpeaker) (styles : list SpeakerStyle)
    (found : AivmManifest * AivmManifestSpeaker * AivmManifestSpeakerStyle) :
  in_styles style_id aivm_info s styles = Some found ->
  (exists st, In st styles /\ ss_id st = style_id)
  /\ fst (fst found) = manifest aivm_info
  /\ manifest_style (sp_speaker_uuid (speaker s))
                    (style_id_to_local_style_id style_id)
                    (mf_speakers (manifest aivm_info))
     = Some (snd (fst found), snd found).
Proof.
  induction styles as [| st rest IH]; cbn; [discriminate |].
  destruct (Z.eqb_spec (ss_id st) style_id) as [Hid | Hid].
  - destruct (manifest_style _ _ _) as [[sm mst] |] eqn:Hm.
    + intros [= <-]. cbn. split; [eauto | auto].
    + intros H. destruct (IH H) as ((st' & Hin & Hid') & H2).
      split; [eauto | exact H2].
  - intros H. destruct (IH H) as ((st' & Hin & Hid') & H2).
    split; [eauto | exact H2].
Qed.

Lemma in_styles_none (style_id : StyleId) (aivm_info : AivmInfo)
    (s : LibrarySpeaker) (styles : list SpeakerStyle) :
  in_styles style_id aivm_info s styles = None ->
  forall st,
    In st styles -> ss_id st = style_id ->
    manifest_style (sp_speaker_uuid (speaker s))
                   (style_id_to_local_style_id style_id)
                   (mf_speakers (manifest aivm_info)) = None.
Proof.
  induction styles as [| st rest IH]; cbn; [intros _ st [] |].
  destruct (Z.eqb_spec (ss_id st) style_id) as [Hid | Hid].
  - destruct (manifest_style _ _ _) as [[sm mst] |] eqn:Hm; [discriminate |].
    intros _ st' _ _. reflexivity.
  - intros H st' [<- | Hin] Hid'; [contradiction | exact (IH H st' Hin Hid')].
Qed.

Lemma in_speakers_sound (style_id : StyleId) (aivm_info : AivmInfo)
    (l : list LibrarySpeaker)
    (found : AivmManifest * AivmManifestSpeaker * AivmManifestSpeakerStyle) :
  in_speakers style_id aivm_info l = Some found ->
  exists s st,
    In s l /\ In st (sp_styles (speaker s)) /\ ss_id st = style_id
    /\ fst (fst found) = manifest aivm_info
    /\ manifest_style (sp_speaker_uuid (speaker s))
                      (style_id_to_local_style_id style_id)
                      (mf_speakers (manifest aivm_info))
       = Some (snd (fst found), snd found).
Proof.
  induction l as [| s rest IH]; cbn; [discriminate |].
  destruct (in_styles style_id aivm_info s _) as [f |] eqn:Hs.
  - intros [= <-]. apply in_styles_sound in Hs.
    destruct Hs as ((st & Hin & Hid) & H2 & H3). exists s, st. auto.
  - intros H. destruct (IH H) as (s' & st & Hin & H2). exists s', st. auto.
Qed.

Lemma in_speakers_none (style_id : StyleId) (aivm_info : AivmInfo)
    (l : list LibrarySpeaker) :
  in_speakers style_id aivm_info l = None ->
  forall s st,
    In s l -> In st (sp_styles (speaker s)) -> ss_id st = style_id ->
    manifest_style (sp_speaker_uuid (speaker s))
                   (style_id_to_local_style_id style_id)
                   (mf_speakers (manifest aivm_info)) = None.
Proof.
  induction l as [| s rest IH]; cbn; [intros _ s st [] |].
  destruct (in_styles style_id aivm_info s _) as [f |] eqn:Hs; [discriminate |].
  intros H s' st [<- | Hin] Hst Hid.
  - exact (in_styles_none _ _ _ _ Hs st Hst Hid).
  - exact (IH H s' st Hin Hst Hid).
Qed.

Lemma in_models_sound (style_id : StyleId) (l : list AivmInfo)
    (found : AivmManifest * AivmManifestSpeaker * AivmManifestSpeakerStyle) :
  in_models style_id l = Some found ->
  exists aivm_info s st,
    In aivm_info l /\ In s (speakers aivm_info)
    /\ In st (sp_styles (speaker s)) /\ ss_id st = style_id
    /\ fst (fst found) = manifest aivm_info
    /\ manifest_style (sp_speaker_uuid (speaker s))
                      (style_id_to_local_style_id style_id)
                      (mf_speakers (manifest aivm_info))
       = Some (snd (fst found), snd found).
Proof.
  induction l as [| i rest IH]; cbn; [discriminate |].
  destruct (in_speakers style_id i (speakers i)) as [f |] eqn:Hs.
  - intros [= <-]. apply in_speakers_sound in Hs.
    destruct Hs as (s & st & H). exists i, s, st. tauto.
  - intros H. destruct (IH H) as (i' & s & st & Hin & H2).
    exists i', s, st. auto.
Qed.

Lemma in_models_none (style_id : StyleId) (l : list AivmInfo) :
  in_models style_id l = None ->
  forall aivm_info s st,
    In aivm_info l -> In s (speakers aivm_info) ->
    In st (sp_styles (speaker s)) -> ss_id st = style_id ->
    manifest_style (sp_speaker_uuid (speaker s))
                   (style_id_to_local_style_id style_id)
                   (mf_speakers (manifest aivm_info)) = None.
Proof.
  induction l as [| i rest IH]; cbn; [intros _ i s st [] |].
  destruct (in_speakers style_id i (speakers i)) as [f |] eqn:Hs;
    [discriminate |].
  intros H i' s st [<- | Hin] Hs' Hst Hid.
  - exact (in_speakers_none _ _ _ Hs s st Hs' Hst Hid).
  - exact (IH H i' s st Hin Hs' Hst Hid).
Qed.

(** In a published entry every cached style goes back to a style of the
    manifest's speaker of the same identity. *)
Lemma published_style_resolves (files : list (string * node))
    (item : string * AivmInfo) (s : LibrarySpeaker) (st : SpeakerStyle) :
  published_from E files item ->
  In s (speakers (snd item)) ->
  In st (sp_styles (speaker s)) ->
  manifest_style (sp_speaker_uuid (speaker s))
                 (style_id_to_local_style_id (ss_id st))
                 (mf_speakers (manifest (snd item))) <> None.
Proof.
  intros (data & logs & _ & _ & _ & _ & _ & _ & Hmade) Hs Hst.
  destruct (make_speakers_In _ _ _ _ _ Hmade s Hs) as (sm & Hsm & _ & Hone).
  destruct (make_speaker_styles _ _ _ Hone) as (Hu & _ & _ & Hstyles).
  destruct (Hstyles st Hst) as (mst & Hmst & Hid).
  apply style_id_decodes in Hid. destruct Hid as (_ & _ & Hdecode).
  apply (manifest_style_complete _ _ _ sm mst); auto.
Qed.

End StyleLookup.

(** X11: after a rescan, every style identifier the cache lists resolves:
    [get_aivm_manifest_from_style_id] returns a manifest of a cached model,
    a speaker of that manifest and a style of that speaker whose local
    index is the low five bits of the identifier; it does not fail with
    status 404. *)
Theorem X11_listed_style_ids_resolve (E : Env) (force wait : bool)
    (m m' : manager) (infos : aivm_dict) :
  force = true \/ _installed_aivm_infos m = None ->
  get_installed_aivm_infos E force wait m = (Ok infos, m') ->
  forall aivm_info s st,
    In aivm_info (values infos) ->
    In s (speakers aivm_info) ->
    In st (sp_styles (speaker s)) ->
    exists aivm_manifest aivm_manifest_speaker aivm_manifest_style,
      get_aivm_manifest_from_style_id E (ss_id st) m'
      = (Return (aivm_manifest, aivm_manifest_speaker, aivm_manifest_style),
         m')
      /\ (exists owner,
            In owner (values infos) /\ manifest owner = aivm_manifest)
      /\ In aivm_manifest_speaker (mf_speakers aivm_manifest)
      /\ In aivm_manifest_style (spk_styles aivm_manifest_speaker)
      /\ style_local_id aivm_manifest_style
         = style_id_to_local_style_id (ss_id st).
Proof.
  intros Hre Hget aivm_info s st Hi Hs Hst.
  pose proof (rescan_published E _ _ _ _ _ Hre Hget) as Hpub.
  destruct (rescan_spec E _ _ _ _ _ Hre Hget) as (_ & _ & _ & _ & Hcache & _).
  rewrite Forall_forall in Hpub.
  unfold get_aivm_manifest_from_style_id, Q_call.
  rewrite (get_installed_cached E m' infos false Hcache).
  destruct (in_models (ss_id st) (values infos)) as [[[mf sm] mst] |] eqn:Hfind.
  - apply in_models_sound in Hfind.
    destruct Hfind as (owner & s' & st' & Ho & _ & _ & _ & Hmf & Hm).
    cbn in Hmf, Hm. apply manifest_style_sound in Hm. cbn in Hm.
    destruct Hm as (Hsm & _ & Hmst & Hl). subst mf.
    exists (manifest owner), sm, mst. split; [reflexivity |].
    split; [exists owner; auto | auto].
  - exfalso.
    pose proof (in_models_none _ _ Hfind aivm_info s st Hi Hs Hst eq_refl)
      as Hnone.
    apply in_map_iff in Hi. destruct Hi as (item & <- & Hitem).
    exact (published_style_resolves E _ item s st (Hpub _ Hitem) Hs Hst Hnone).
Qed.

Lemma X11_listed_style_ids_resolve_witness :
  let m := Fixture.manager_of Fixture.dir_mixed None in
  let run := get_installed_aivm_infos Fixture.offline true true m in
  (true = true \/ _installed_aivm_infos m = None)
  /\ run = (Ok (cached (snd run)), snd run)
  /\ exists aivm_manifest_speaker aivm_manifest_style,
       get_aivm_manifest_from_style_id Fixture.offline 1473843841 (snd run)
       = (Return (Fixture.manifest_a, aivm_manifest_speaker,
                  aivm_manifest_style), snd run)
       /\ style_local_id aivm_manifest_style = 1.
Proof.
  split; [left; reflexivity |].
  split; [vm_compute; reflexivity |].
  destruct (X11_listed_style_ids_resolve Fixture.offline true true
              (Fixture.manager_of Fixture.dir_mixed None)
              (snd (get_installed_aivm_infos Fixture.offline true true
                      (Fixture.manager_of Fixture.dir_mixed None)))
              (cached (snd (get_installed_aivm_infos Fixture.offline true true
                              (Fixture.manager_of Fixture.dir_mixed None))))
              (or_introl eq_refl))
    with (aivm_info :=
            {| is_loaded := false;
               is_update_available := false;
               latest_version := JString "1.0.0";
               file_path := "anneli.aivmx";
               file_size := 3;
               manifest := Fixture.manifest_a;
               speakers :=
                 match fst (make_speakers "anneli.aivmx" Fixture.manifest_a
                              (mf_speakers Fixture.manifest_a)) with
                 | Ok made => made
                 | Raise _ => []
                 end |})
         (s := {| speaker :=
                    {| sp_speaker_uuid :=
                         "e756b8e4-b606-4e15-99b1-3f9c6a1b2175";
                       sp_name := "Anneli";
                       sp_version := "1.0.0";
                       sp_permitted_synthesis_morphing := "NOTHING";
                       sp_styles :=
                         [ {| ss_id := 1473843840; ss_name := "Normal";
                              ss_type := "talk" |};
                           {| ss_id := 1473843841; ss_name := "Happy";
                              ss_type := "talk" |} ] |};
                  speaker_info :=
                    {| spi_policy := "";
                       spi_portrait := "iVBORw0KGgo=";
                       spi_style_infos :=
                         [ {| si_id := 1473843840; si_icon := "iVBORw0KGgo=";
                              si_portrait := None;
                              si_voice_samples := ["UklGRg=="];
                              si_voice_sample_transcripts := ["sample"] |};
                           {| si_id := 1473843841; si_icon := "iVBORw0KGgo=";
                              si_portrait := None;
                              si_voice_samples := ["UklGRg=="];
                              si_voice_sample_transcripts := ["sample"] |} ]
                    |} |})
         (st := {| ss_id := 1473843841; ss_name := "Happy";
                   ss_type := "talk" |})
    as (mf & sm & mst & Hget & _ & _ & _ & Hl).
  - vm_compute. reflexivity.
  - vm_compute. left. reflexivity.
  - vm_compute. left. reflexivity.
  - right. left. reflexivity.
  - exists sm, mst. cbn [ss_id] in Hget, Hl.
    assert (Hmf : mf = Fixture.manifest_a).
    { assert (Hrun : fst (get_aivm_manifest_from_style_id Fixture.offline
                            1473843841
                            (snd (get_installed_aivm_infos Fixture.offline
                                    true true
                                    (Fixture.manager_of Fixture.dir_mixed
                                                        None))))
                     = Return (mf, sm, mst)) by (rewrite Hget; reflexivity).
      vm_compute in Hrun. injection Hrun as Hmf _ _. symmetry. exact Hmf. }
    subst mf. split; [exact Hget | exact Hl].
Defined.

(** X12: whatever the cache holds, what [get_aivm_manifest_from_style_id]
    returns is the manifest of a cached model that lists the identifier
    for one of its speakers, a speaker of that manifest with that
    speaker's identity, and a style of it whose local index is the low
    five bits of the identifier; an identifier no cached style has fails
    with status 404 and leaves the manager as it was. *)
Theorem X12_style_lookup (E : Env) (m : manager) (infos : aivm_dict)
    (style_id : StyleId) :
  _installed_aivm_infos m = Some infos ->
  (forall found m',
     get_aivm_manifest_from_style_id E style_id m = (Return found, m') ->
     m' = m
     /\ exists aivm_info s st,
          In aivm_info (values infos)
          /\ In s (speakers aivm_info)
          /\ In st (sp_styles (speaker s))
          /\ ss_id st = style_id
          /\ fst (fst found) = manifest aivm_info
          /\ In (snd (fst found)) (mf_speakers (manifest aivm_info))
          /\ spk_uuid (snd (fst found)) = sp_speaker_uuid (speaker s)
          /\ In (snd found) (spk_styles (snd (fst found)))
          /\ style_local_id (snd found) = Z.land style_id 0x1F)
  /\ ((forall aivm_info s st,
         In aivm_info (values infos) -> In s (speakers aivm_info) ->
         In st (sp_styles (speaker s)) -> ss_id st <> style_id) ->
      get_aivm_manifest_from_style_id E style_id m
      = (Fail (RaisedHTTP 404 (StyleDoesNotExist style_id)), m)).
Proof.
  intros Hcache. unfold get_aivm_manifest_from_style_id, Q_call.
  rewrite (get_installed_cached E m infos false Hcache).
  destruct (in_models style_id (values infos)) as [found0 |] eqn:Hfind.
  - apply in_models_sound in Hfind.
    destruct Hfind as (i & s & st & Hi & Hs & Hst & Hid & Hmf & Hm).
    apply manifest_style_sound in Hm. cbn in Hm.
    destruct Hm as (Hsm & Hu & Hmst & Hl).
    split.
    + intros found m' [= <- <-]. split; [reflexivity |].
      exists i, s, st. auto 12.
    + intros Hnone. exfalso. exact (Hnone i s st Hi Hs Hst Hid).
  - split; [discriminate | reflexivity].
Qed.

Lemma X12_style_lookup_witness :
  let m := Fixture.scanned Fixture.dir_mixed in
  _installed_aivm_infos m = Some (cached m)
  /\ get_aivm_manifest_from_style_id Fixture.offline 7 m
     = (Fail (RaisedHTTP 404 (StyleDoesNotExist 7)), m).
Proof.
  assert (H : _installed_aivm_infos (Fixture.scanned Fixture.dir_mixed)
              = Some (cached (Fixture.scanned Fixture.dir_mixed)))
    by (vm_compute; reflexivity).
  split; [exact H |].
  apply (X12_style_lookup Fixture.offline (Fixture.scanned Fixture.dir_mixed)
           (cached (Fixture.scanned Fixture.dir_mixed)) 7 H).
  intros aivm_info s st Hi Hs Hst.
  vm_compute in Hi.
  destruct Hi as [<- | [<- | []]]; vm_compute in Hs;
    repeat match goal with
           | H : _ \/ _ |- _ => destruct H as [<- | H]
           | H : False |- _ => destruct H
           end;
    vm_compute in Hst;
    repeat match goal with
           | H : _ \/ _ |- _ => destruct H as [<- | H]
           | H : False |- _ => destruct H
           end; vm_compute; discriminate.
Defined.

(** ** The load state *)

Section LoadState.

Variable E : Env.

Lemma lookup_setitem_same (k : string) (v : AivmInfo) (d : aivm_dict) :
  lookup k (setitem k v d) = Some v.
Proof.
  induction d as [| [k' v'] d IH]; cbn.
  - rewrite String.eqb_refl. reflexivity.
  - destruct (String.eqb k k') eqn:Heq; cbn.
    + rewrite String.eqb_refl. reflexivity.
    + rewrite Heq. exact IH.
Qed.

Lemma lookup_setitem_other (k k0 : string) (v : AivmInfo) (d : aivm_dict) :
  k0 <> k -> lookup k0 (setitem k v d) = lookup k0 d.
Proof.
  intros Hne. induction d as [| [k' v'] d IH]; cbn.
  - destruct (String.eqb_spec k0 k); [contradiction | reflexivity].
  - destruct (String.eqb_spec k k') as [<- | Hk]; cbn.
    + destruct (String.eqb_spec k0 k); [contradiction | reflexivity].
    + destruct (String.eqb k0 k'); [reflexivity | exact IH].
Qed.

Lemma keys_setitem (k : string) (v : AivmInfo) (d : aivm_dict) :
  mem k d = true -> keys (setitem k v d) = keys d.
Proof.
  unfold mem, keys. induction d as [| [k' v'] d IH]; cbn; [discriminate |].
  destruct (String.eqb_spec k k') as [<- | Hk]; cbn; [reflexivity |].
  intros H. f_equal. apply IH. exact H.
Qed.

End LoadState.

(** X13: [update_model_load_state] returns without raising and touches
    nothing but the load state of the entry named: that entry's flag is
    the one given, every other entry and the order of the keys are as
    before, and so are the directory and the log; for an identity that is
    not cached, and before any cache exists, the manager is left as it
    was. *)
Theorem X13_update_model_load_state (m : manager) (aivm_uuid : string)
    (loaded : bool) :
  exists m',
    update_model_load_state aivm_uuid loaded m = (Ok tt, m')
    /\ installed_aivm_dir m' = installed_aivm_dir m
    /\ logger m' = logger m
    /\ keys (cached m') = keys (cached m)
    /\ (forall other,
          other <> aivm_uuid ->
          lookup other (cached m') = lookup other (cached m))
    /\ match lookup aivm_uuid (cached m) with
       | Some aivm_info =>
           lookup aivm_uuid (cached m')
           = Some (set_is_loaded loaded aivm_info)
       | None => m' = m
       end.
Proof.
  unfold update_model_load_state, cached.
  destruct (_installed_aivm_infos m) as [infos |] eqn:Hcache.
  - destruct (lookup aivm_uuid infos) as [aivm_info |] eqn:Hl.
    + eexists. split; [reflexivity |]. cbn.
      split; [reflexivity |]. split; [reflexivity |].
      split; [apply keys_setitem; unfold mem; rewrite Hl; reflexivity |].
      split; [intros other Hne; apply lookup_setitem_other; exact Hne |].
      apply lookup_setitem_same.
    + exists m. rewrite ?Hcache, ?Hl. auto 10.
  - exists m. rewrite ?Hcache. cbn. auto 10.
Qed.

(** X14: a load state set with [update_model_load_state] outlives a forced
    rescan: when the rescan finds the identity again, its entry in the new
    cache has the state that was set. *)
Theorem X14_load_state_set_then_rescan (E : Env) (wait loaded : bool)
    (m m' : manager) (aivm_uuid : string) (infos : aivm_dict)
    (aivm_info : AivmInfo) :
  mem aivm_uuid (cached m) = true ->
  get_installed_aivm_infos E true wait
    (snd (update_model_load_state aivm_uuid loaded m)) = (Ok infos, m') ->
  lookup aivm_uuid infos = Some aivm_info ->
  is_loaded aivm_info = loaded.
Proof.
  intros Hmem Hget Hl.
  destruct (rescan_spec E true wait _ m' infos (or_introl eq_refl) Hget)
    as (scan & logs & _ & -> & _).
  apply lookup_In, rescanned_In in Hl.
  destruct Hl as (v0 & _ & _ & _ & Hload). rewrite Hload. clear Hload.
  unfold update_model_load_state, mem, cached in *.
  destruct (_installed_aivm_infos m) as [old |]; [| discriminate].
  destruct (lookup aivm_uuid old) as [v |] eqn:Hold; [| discriminate].
  cbn. rewrite lookup_setitem_same. reflexivity.
Qed.

Lemma X14_load_state_set_then_rescan_witness :
  let m := Fixture.scanned Fixture.dir_mixed in
  let run :=
    get_installed_aivm_infos Fixture.offline true false
      (snd (update_model_load_state Fixture.uuid_a true m)) in
  mem Fixture.uuid_a (cached m) = true
  /\ run = (Ok (cached (snd run)), snd run)
  /\ forall aivm_info,
       lookup Fixture.uuid_a (cached (snd run)) = Some aivm_info ->
       is_loaded aivm_info = true.
Proof.
  split; [vm_compute; reflexivity |].
  split; [vm_compute; reflexivity |].
  intros aivm_info.
  apply (X14_load_state_set_then_rescan Fixture.offline false true
           (Fixture.scanned Fixture.dir_mixed)
           (snd (get_installed_aivm_infos Fixture.offline true false
                   (snd (update_model_load_state Fixture.uuid_a true
                           (Fixture.scanned Fixture.dir_mixed)))))
           Fixture.uuid_a);
    vm_compute; reflexivity.
Defined.

(** ** The pass over the catalog *)

(** X15: with a cache present [check_aivm_updates_from_hub] returns
    whatever the catalog answers; it adds, drops and reorders no entry and
    leaves the load state, manifest, path, size and speakers of every
    entry, the directory and the count of background checks as they were;
    the log only grows.  Without a cache its assertion fails. *)
Theorem X15_update_check_frame (E : Env) (m : manager) (infos : aivm_dict) :
  _installed_aivm_infos m = Some infos ->
  exists m',
    check_aivm_updates_from_hub E m = (Ok tt, m')
    /\ installed_aivm_dir m' = installed_aivm_dir m
    /\ background_update_checks m' = background_update_checks m
    /\ (exists more, logger m' = logger m ++ more)
    /\ keys (cached m') = keys infos
    /\ forall aivm_uuid aivm_info,
         lookup aivm_uuid infos = Some aivm_info ->
         exists aivm_info',
           lookup aivm_uuid (cached m') = Some aivm_info'
           /\ is_loaded aivm_info' = is_loaded aivm_info
           /\ manifest aivm_info' = manifest aivm_info
           /\ file_path aivm_info' = file_path aivm_info
           /\ file_size aivm_info' = file_size aivm_info
           /\ speakers aivm_info' = speakers aivm_info.
Proof.
  intros Hcache. unfold check_aivm_updates_from_hub. rewrite Hcache.
  destruct (update_tasks E infos) as [infos' logs] eqn:Hup.
  assert (Hinfos' : infos' = fst (update_tasks E infos))
    by (rewrite Hup; reflexivity).
  eexists. split; [reflexivity |]. cbn.
  split; [reflexivity |]. split; [reflexivity |].
  split; [eexists; reflexivity |].
  split; [rewrite Hinfos'; apply keys_update_tasks |].
  intros aivm_uuid aivm_info Hl.
  rewrite Hinfos', update_tasks_lookup, Hl. cbn.
  eexists. split; [reflexivity |].
  destruct (fetch_latest_version_frame E aivm_info) as (H1 & H2 & H3 & H4 & H5).
  auto.
Qed.

Lemma X15_update_check_frame_witness :
  let m := Fixture.both_loaded_b in
  let m' := snd (check_aivm_updates_from_hub Fixture.online m) in
  _installed_aivm_infos m = Some (cached m)
  /\ fst (check_aivm_updates_from_hub Fixture.online m) = Ok tt
  /\ keys (cached m') = keys (cached m)
  /\ option_map is_loaded (lookup Fixture.uuid_b (cached m')) = Some true.
Proof.
  assert (H : _installed_aivm_infos Fixture.both_loaded_b
              = Some (cached Fixture.both_loaded_b))
    by (vm_compute; reflexivity).
  split; [exact H |].
  destruct (X15_update_check_frame Fixture.online Fixture.both_loaded_b
              (cached Fixture.both_loaded_b) H)
    as (m' & Hrun & _ & _ & _ & Hkeys & _).
  rewrite Hrun. cbn [fst snd].
  split; [reflexivity |]. split; [exact Hkeys |].
  assert (Hm' : m' = snd (check_aivm_updates_from_hub Fixture.online
                            Fixture.both_loaded_b))
    by (rewrite Hrun; reflexivity).
  rewrite Hm'. vm_compute. reflexivity.
Defined.

(** X16: a pass over the catalog changes [is_update_available] of an entry
    only to the outcome of comparing two parsed versions: afterwards the
    flag is as before, or [latest_version] is a string that parses, the
    manifest's version parses, and the flag says whether the first is
    greater than the second.  When the catalog answers 200 with a listing
    whose first AIVMX file carries such a version, that is the
    outcome. *)
Theorem X16_update_flag (E : Env) (m : manager) (infos : aivm_dict)
    (aivm_uuid : string) (aivm_info : AivmInfo) :
  _installed_aivm_infos m = Some infos ->
  lookup aivm_uuid infos = Some aivm_info ->
  exists aivm_info',
    lookup aivm_uuid (cached (snd (check_aivm_updates_from_hub E m)))
    = Some aivm_info'
    /\ (is_update_available aivm_info' = is_update_available aivm_info
        \/ exists text latest current,
             latest_version aivm_info' = JString text
             /\ Version_parse E text = Some latest
             /\ Version_parse E (mf_version (manifest aivm_info))
                = Some current
             /\ is_update_available aivm_info' = Version_gt E latest current)
    /\ forall fields files file text latest current,
         hub_get E (model_info_url (mf_uuid (manifest aivm_info)))
         = FetchResponse 200 (Some (JObject fields)) ->
         field "model_files" fields = Some (JArray files) ->
         first_aivmx files = Found file ->
         subscript file "version" = Some (JString text) ->
         Version_parse E text = Some latest ->
         Version_parse E (mf_version (manifest aivm_info)) = Some current ->
         latest_version aivm_info' = JString text
         /\ is_update_available aivm_info' = Version_gt E latest current.
Proof.
  intros Hcache Hl. unfold check_aivm_updates_from_hub. rewrite Hcache.
  destruct (update_tasks E infos) as [infos' logs] eqn:Hup.
  assert (Hinfos' : infos' = fst (update_tasks E infos))
    by (rewrite Hup; reflexivity).
  remember (model_info_url (mf_uuid (manifest aivm_info))) as url eqn:Hurl.
  cbn. rewrite Hinfos', update_tasks_lookup, Hl. cbn.
  eexists. split; [reflexivity |]. split.
  - apply fetch_latest_version_flag.
  - intros fields files file text latest current Hget Hfiles Hfirst Hv Hp1 Hp2.
    unfold fetch_latest_version. cbv zeta.
    rewrite <- Hurl.
    rewrite Hget. cbn [Z.eqb Pos.eqb negb].
    cbn [subscript]. rewrite Hfiles. cbn [iterate]. rewrite Hfirst, Hv.
    cbn [manifest set_latest_version latest_version]. rewrite Hp2, Hp1.
    cbn. auto.
Qed.

Lemma X16_update_flag_witness :
  let m := Fixture.scanned Fixture.dir_mixed in
  _installed_aivm_infos m = Some (cached m)
  /\ (exists aivm_info, lookup Fixture.uuid_b (cached m) = Some aivm_info)
  /\ exists aivm_info',
       lookup Fixture.uuid_b
         (cached (snd (check_aivm_updates_from_hub Fixture.online m)))
       = Some aivm_info'
       /\ latest_version aivm_info' = JString "1.2.0"
       /\ is_update_available aivm_info' = true.
Proof.
  assert (H : _installed_aivm_infos (Fixture.scanned Fixture.dir_mixed)
              = Some (cached (Fixture.scanned Fixture.dir_mixed)))
    by (vm_compute; reflexivity).
  split; [exact H |].
  split; [eexists; vm_compute; reflexivity |].
  destruct (X16_update_flag Fixture.online (Fixture.scanned Fixture.dir_mixed)
              (cached (Fixture.scanned Fixture.dir_mixed)) Fixture.uuid_b
              (match lookup Fixture.uuid_b
                       (cached (Fixture.scanned Fixture.dir_mixed)) with
               | Some i => i
               | None => set_is_loaded false
                           (scanned_entry "" [] Fixture.manifest_b [])
               end) H)
    as (aivm_info' & Hl' & _ & Hlisting); [vm_compute; reflexivity |].
  exists aivm_info'. split; [exact Hl' |].
  apply (Hlisting
           [("model_files",
             JArray [JObject [("model_type", JString "AIVM");
                              ("version", JString "0.9.0")];
                     JObject [("model_type", JString "AIVMX");
                              ("version", JString "1.2.0")]])]
           [JObject [("model_type", JString "AIVM");
                     ("version", JString "0.9.0")];
            JObject [("model_type", JString "AIVMX");
                     ("version", JString "1.2.0")]]
           (JObject [("model_type", JString "AIVMX");
                     ("version", JString "1.2.0")])
           "1.2.0" (1, 2, 0) (1, 1, 0));
    vm_compute; reflexivity.
Defined.

(** ** Installing *)

Section Installing.

Variable E : Env.

Lemma append_length (u s : string) :
  String.length (u ++ s) = (String.length u + String.length s)%nat.
Proof. induction u as [| c u IH]; cbn; [reflexivity | rewrite IH; reflexivity]. Qed.

Lemma substring_skip (u s : string) (k : nat) :
  String.substring (String.length u) k (u ++ s) = String.substring 0 k s.
Proof. induction u as [| c u IH]; cbn; [reflexivity | exact IH]. Qed.

Lemma substring_all (s : string) :
  String.substring 0 (String.length s) s = s.
Proof. induction s as [| c s IH]; cbn; [reflexivity | rewrite IH; reflexivity]. Qed.

Lemma endswith_append (u suf : string) : endswith suf (u ++ suf) = true.
Proof.
  unfold endswith. rewrite append_length.
  replace (String.length u + String.length suf - String.length suf)%nat
    with (String.length u) by lia.
  rewrite substring_skip, substring_all, String.eqb_refl, andb_true_r.
  apply Nat.leb_le. lia.
Qed.

Lemma substring_last (c : ascii) (u : string) :
  exists d,
    String.substring (String.length u) 6 (String c u ++ ".aivm")
    = String d ".aivm".
Proof.
  revert c. induction u as [| b u IH]; intros c.
  - exists c. reflexivity.
  - destruct (IH b) as (d & Hd). exists d. exact Hd.
Qed.

(** A name made for an AIVM package is not taken for an AIVMX one. *)
Lemma aivm_not_aivmx (u : string) : endswith ".aivmx" (u ++ ".aivm") = false.
Proof.
  unfold endswith. destruct u as [| c u]; [reflexivity |].
  rewrite append_length.
  replace (String.length (String c u) + String.length ".aivm"
           - String.length ".aivmx")%nat
    with (String.length u) by (cbn; lia).
  change (String.length ".aivmx") with 6%nat.
  destruct (substring_last c u) as (d & ->).
  apply andb_false_iff. right. cbn. destruct (Ascii.eqb d "."); reflexivity.
Qed.

Lemma node_at_In (path : string) (n : node) (dir : directory) :
  node_at path dir = Some n -> In (path, n) dir.
Proof.
  induction dir as [| [p n'] dir IH]; cbn; [discriminate |].
  destruct (String.eqb_spec path p) as [-> | Hne].
  - intros [= ->]. left. reflexivity.
  - intros H. right. exact (IH H).
Qed.

(** The manifest versions [install_aivm] lets through are among those the
    scan lets through. *)
Lemma supported_version_accepted (manifest_version : string) :
  existsb (String.eqb manifest_version) SUPPORTED_MANIFEST_VERSIONS = true ->
  accepted_version manifest_version.
Proof.
  cbn. rewrite orb_false_r. intros H. apply String.eqb_eq in H. subst.
  exists [1; 0]. repeat split; reflexivity.
Qed.

(** A listed package that passes the checks of the scan has its identity
    in the cache a rescan publishes. *)
Lemma rescan_indexes (force wait : bool) (m m' : manager) (infos : aivm_dict)
    (entry : string * node) (aivm_uuid : string) :
  force = true \/ _installed_aivm_infos m = None ->
  get_installed_aivm_infos E force wait m = (Ok infos, m') ->
  In entry (aivm_file_paths m) ->
  package_of E aivm_uuid entry ->
  exists aivm_info,
    lookup aivm_uuid infos = Some aivm_info
    /\ mf_uuid (manifest aivm_info) = aivm_uuid.
Proof.
  intros Hre Hget Hin Hpackage.
  pose proof (rescan_published E _ _ _ _ _ Hre Hget) as Hpub.
  destruct (rescan_spec E _ _ _ _ _ Hre Hget) as (scan & logs & Hscan & -> & _).
  assert (Hmem : mem aivm_uuid scan = true)
    by exact (scan_files_indexes E _ _ _ Hin Hpackage [] scan logs Hscan).
  apply mem_keys in Hmem.
  apply (Permutation_in _ (Permutation_sym (keys_rescanned E m wait scan)))
    in Hmem.
  apply mem_keys in Hmem. unfold mem in Hmem.
  destruct (lookup aivm_uuid (rescanned E m wait scan))
    as [aivm_info |] eqn:Hl; [| discriminate].
  exists aivm_info. split; [reflexivity |].
  rewrite Forall_forall in Hpub.
  destruct (Hpub _ (lookup_In _ _ _ Hl)) as (_ & _ & _ & _ & Hk & _).
  cbn in Hk. symmetry. exact Hk.
Qed.

(** A package whose manifest version or architecture is not supported is
    turned away after the cache has been consulted and before anything is
    written. *)
Lemma install_aivm_rejected (file : list Z) (m : manager) (infos : aivm_dict)
    (aivm_manifest : AivmManifest) :
  _installed_aivm_infos m = Some infos ->
  read_aivmx_metadata E file = Some aivm_manifest
  \/ (read_aivmx_metadata E file = None
      /\ read_aivm_metadata E file = Some aivm_manifest) ->
  existsb (String.eqb (mf_manifest_version aivm_manifest))
          SUPPORTED_MANIFEST_VERSIONS = false
  \/ supported_architecture aivm_manifest = false ->
  exists m',
    install_aivm E file m
    = (Raise (HTTPException 422
                (if existsb (String.eqb (mf_manifest_version aivm_manifest))
                            SUPPORTED_MANIFEST_VERSIONS
                 then ModelArchitectureNotSupported
                 else ManifestVersionNotSupported
                        (mf_manifest_version aivm_manifest))), m')
    /\ installed_aivm_dir m' = installed_aivm_dir m
    /\ _installed_aivm_infos m' = _installed_aivm_infos m.
Proof.
  intros Hcache Hread Hbad. unfold supported_architecture in Hbad.
  unfold install_aivm.
  assert (Hm : forall l, _installed_aivm_infos (with_logs l m) = Some infos)
    by (intros l; exact Hcache).
  destruct Hread as [Hx | (Hx & Hv)]; rewrite Hx; [| rewrite Hv];
    unfold M_bind at 1; cbn [M_ret fst snd];
    rewrite (M_bind_ok _ _ _ _ _ (get_installed_cached E m infos false Hcache));
    unfold mem; destruct (lookup (mf_uuid aivm_manifest) infos)
      as [previous |] eqn:Hl.
  all: unfold M_bind, M_log, M_ret, M_raise.
  all: try rewrite (get_installed_cached E _ infos false (Hm _)), Hl.
  all: destruct (existsb (String.eqb (mf_manifest_version aivm_manifest))
                         SUPPORTED_MANIFEST_VERSIONS) eqn:Hversion;
    cbn [negb].
  all: destruct Hbad as [Hbad | Hbad]; try discriminate; rewrite ?Hbad;
    cbn [negb].
  all: eexists; split; [reflexivity |]; split; reflexivity.
Qed.

Lemma node_at_remove_node (path : string) (dir : directory) :
  node_at path (remove_node path dir) = None.
Proof.
  unfold remove_node. induction dir as [| [p n] dir IH]; cbn; [reflexivity |].
  destruct (String.eqb path p) eqn:Heq; cbn; [exact IH |].
  rewrite Heq. exact IH.
Qed.

Lemma node_at_remove_node_other (path other : string) (dir : directory) :
  other <> path ->
  node_at other (remove_node path dir) = node_at other dir.
Proof.
  intros Hne. unfold remove_node.
  induction dir as [| [p n] dir IH]; cbn; [reflexivity |].
  destruct (String.eqb_spec path p) as [<- | Hp]; cbn.
  - destruct (String.eqb_spec other path); [contradiction | exact IH].
  - destruct (String.eqb other p); [reflexivity | exact IH].
Qed.

End Installing.

(** X17: [install_aivm] turns a package away without writing: bytes that
    neither reader accepts fail with status 422 and leave one error in the
    log; with a cache present, a manifest version outside the supported
    ones, or else an architecture outside the supported ones, fails with
    status 422 and the directory and the cache are as they were.  The
    manifest version is looked at first. *)
Theorem X17_install_rejections (E : Env) (file : list Z) (m : manager) :
  (read_aivmx_metadata E file = None ->
   read_aivm_metadata E file = None ->
   install_aivm E file m
   = (Raise (HTTPException 422 InvalidAivmxFile),
      with_logs [(ERROR, AivmxFileInvalid)] m))
  /\ forall infos aivm_manifest,
       _installed_aivm_infos m = Some infos ->
       read_aivmx_metadata E file = Some aivm_manifest
       \/ (read_aivmx_metadata E file = None
           /\ read_aivm_metadata E file = Some aivm_manifest) ->
       existsb (String.eqb (mf_manifest_version aivm_manifest))
               SUPPORTED_MANIFEST_VERSIONS = false
       \/ supported_architecture aivm_manifest = false ->
       exists m',
         install_aivm E file m
         = (Raise (HTTPException 422
                     (if existsb (String.eqb
                                    (mf_manifest_version aivm_manifest))
                                 SUPPORTED_MANIFEST_VERSIONS
                      then ModelArchitectureNotSupported
                      else ManifestVersionNotSupported
                             (mf_manifest_version aivm_manifest))), m')
         /\ installed_aivm_dir m' = installed_aivm_dir m
         /\ _installed_aivm_infos m' = _installed_aivm_infos m.
Proof.
  split.
  - intros Hx Hv. unfold install_aivm. rewrite Hx, Hv. reflexivity.
  - intros infos aivm_manifest. apply install_aivm_rejected.
Qed.

Lemma X17_install_rejections_witness :
  let m := Fixture.scanned Fixture.dir_anneli in
  let draft :=
    {| mf_manifest_version := "0.9";
       mf_name := "Draft";
       mf_license := None;
       mf_model_architecture := StyleBertVITS2JPExtra;
       mf_uuid := Fixture.uuid_c;
       mf_version := "0.1.0";
       mf_speakers := [] |} in
  let drafts :=
    {| read_aivmx_metadata := fun _ => Some draft;
       read_aivm_metadata := fun _ => None;
       hub_get := fun _ => FetchFailure;
       http_get := fun _ => DownloadHTTPError;
       disk_write := fun _ _ => WriteCompletes;
       Version := (Z * Z * Z)%type;
       Version_parse := Fixture.parse;
       Version_gt := Fixture.gt |} in
  install_aivm Fixture.offline [9; 9] m
  = (Raise (HTTPException 422 InvalidAivmxFile),
     with_logs [(ERROR, AivmxFileInvalid)] m)
  /\ exists m',
       install_aivm drafts [1] m
       = (Raise (HTTPException 422 (ManifestVersionNotSupported "0.9")), m')
       /\ installed_aivm_dir m' = installed_aivm_dir m
       /\ _installed_aivm_infos m' = _installed_aivm_infos m.
Proof.
  intros m draft drafts. split.
  - apply (X17_install_rejections Fixture.offline [9; 9] m); reflexivity.
  - apply (proj2 (X17_install_rejections drafts [1] m) (cached m) draft).
    + vm_compute. reflexivity.
    + left. reflexivity.
    + left. reflexivity.
Defined.

(** X18: a package that [install_aivm] has installed is listed afterwards.
    When the call returns, the file at the path it chose holds the bytes
    of the package and the cache has an entry under the identity of the
    manifest, provided the path is not a hidden name and, for an identity
    known before, the old path is one the scan lists and reads the new
    bytes under. *)
Theorem X18_installed_package_is_indexed (E : Env) (file : list Z)
    (m m' : manager) (infos : aivm_dict) (aivm_manifest : AivmManifest)
    (extension : string) :
  _installed_aivm_infos m = Some infos ->
  (read_aivmx_metadata E file = Some aivm_manifest /\ extension = "aivmx")
  \/ (read_aivmx_metadata E file = None
      /\ read_aivm_metadata E file = Some aivm_manifest
      /\ extension = "aivm") ->
  let aivm_file_path := install_path infos aivm_manifest extension in
  startswith "." aivm_file_path = false ->
  lookup (mf_uuid aivm_manifest) infos = None
  \/ ((endswith ".aivmx" aivm_file_path = true
       \/ endswith ".aivm" aivm_file_path = true)
      /\ read_metadata E aivm_file_path file = Some aivm_manifest) ->
  install_aivm E file m = (Ok tt, m') ->
  node_at aivm_file_path (installed_aivm_dir m') = Some (RegularFile file)
  /\ exists aivm_info,
       lookup (mf_uuid aivm_manifest) (cached m') = Some aivm_info
       /\ mf_uuid (manifest aivm_info) = mf_uuid aivm_manifest.
Proof.
  intros Hcache Hread aivm_file_path Hhidden Hpath Hok.
  assert (Hread' : read_aivmx_metadata E file = Some aivm_manifest
                   \/ (read_aivmx_metadata E file = None
                       /\ read_aivm_metadata E file = Some aivm_manifest))
    by tauto.
  destruct (existsb (String.eqb (mf_manifest_version aivm_manifest))
                    SUPPORTED_MANIFEST_VERSIONS) eqn:Hversion.
  2: { destruct (install_aivm_rejected E file m infos aivm_manifest Hcache
                   Hread' (or_introl Hversion)) as (m1 & Heq & _).
       rewrite Heq in Hok. discriminate. }
  destruct (supported_architecture aivm_manifest) eqn:Harch.
  2: { destruct (install_aivm_rejected E file m infos aivm_manifest Hcache
                   Hread' (or_intror Harch)) as (m1 & Heq & _).
       rewrite Heq in Hok. discriminate. }
  assert (Hlisted : (endswith ".aivmx" aivm_file_path = true
                     \/ endswith ".aivm" aivm_file_path = true)
                    /\ read_metadata E aivm_file_path file
                       = Some aivm_manifest).
  { destruct Hpath as [Hnew | Hold]; [| exact Hold].
    subst aivm_file_path. unfold install_path in *. rewrite Hnew in *.
    unfold read_metadata.
    destruct Hread as [[Hx ->] | (Hx & Hv & ->)].
    - change (mf_uuid aivm_manifest ++ "." ++ "aivmx")%string
        with (mf_uuid aivm_manifest ++ ".aivmx")%string.
      rewrite endswith_append. auto.
    - change (mf_uuid aivm_manifest ++ "." ++ "aivm")%string
        with (mf_uuid aivm_manifest ++ ".aivm")%string.
      rewrite aivm_not_aivmx, endswith_append. auto. }
  destruct Hlisted as (Hext & Hreads).
  destruct (install_aivm_unfold E file m infos aivm_manifest extension
              Hcache Hread Hversion Harch) as (m1 & Hdir & Heq).
  cbv zeta in Heq. fold aivm_file_path in Heq. rewrite Heq in Hok. clear Heq.
  assert (Hrun : exists l r,
            get_installed_aivm_infos E true true
              (with_logs l
                 (with_dir (put_node aivm_file_path (RegularFile file)
                                     (installed_aivm_dir m1)) m1))
            = (Ok r, m')).
  { unfold write_file in Hok.
    destruct (node_at aivm_file_path (installed_aivm_dir m1))
      as [[data | | |] |];
      destruct (disk_write E aivm_file_path file) as [| msg | written msg];
      try discriminate.
    all: match type of Hok with
         | context [get_installed_aivm_infos ?env true true ?x] =>
             destruct (get_installed_aivm_infos env true true x)
               as [[r | e] m2] eqn:Hget
         end; [| discriminate].
    all: injection Hok as <-; eexists _, r; exact Hget. }
  destruct Hrun as (l & r & Hget).
  destruct (rescan_spec E true true _ m' r (or_introl eq_refl) Hget)
    as (scan & logs & _ & _ & Hcache' & Hdir').
  cbn [installed_aivm_dir with_logs with_dir] in Hdir'.
  assert (Hat : node_at aivm_file_path (installed_aivm_dir m')
                = Some (RegularFile file))
    by (rewrite Hdir'; apply node_at_put_node).
  split; [exact Hat |].
  unfold cached. rewrite Hcache'.
  apply (rescan_indexes E true true _ m' r (aivm_file_path, RegularFile file)
           (mf_uuid aivm_manifest) (or_introl eq_refl) Hget).
  - apply aivm_file_paths_spec. cbn [fst installed_aivm_dir with_logs with_dir].
    rewrite <- Hdir'. split; [apply node_at_In; exact Hat |]. auto.
  - exists file, aivm_manifest. cbn [fst snd].
    repeat split; auto using supported_version_accepted.
Qed.

Lemma X18_installed_package_is_indexed_witness :
  let m := Fixture.scanned Fixture.dir_anneli in
  let run := install_aivm Fixture.offline [2; 5] m in
  _installed_aivm_infos m = Some (cached m)
  /\ run = (Ok tt, snd run)
  /\ node_at (Fixture.uuid_b ++ ".aivmx") (installed_aivm_dir (snd run))
     = Some (RegularFile [2; 5])
  /\ exists aivm_info,
       lookup Fixture.uuid_b (cached (snd run)) = Some aivm_info
       /\ mf_uuid (manifest aivm_info) = Fixture.uuid_b.
Proof.
  assert (H : _installed_aivm_infos (Fixture.scanned Fixture.dir_anneli)
              = Some (cached (Fixture.scanned Fixture.dir_anneli)))
    by (vm_compute; reflexivity).
  assert (Hrun : install_aivm Fixture.offline [2; 5]
                   (Fixture.scanned Fixture.dir_anneli)
                 = (Ok tt, snd (install_aivm Fixture.offline [2; 5]
                                  (Fixture.scanned Fixture.dir_anneli))))
    by (vm_compute; reflexivity).
  split; [exact H |]. split; [exact Hrun |].
  apply (X18_installed_package_is_indexed Fixture.offline [2; 5]
           (Fixture.scanned Fixture.dir_anneli) _
           (cached (Fixture.scanned Fixture.dir_anneli))
           Fixture.manifest_b "aivmx" H).
  - left. split; reflexivity.
  - vm_compute. reflexivity.
  - left. vm_compute. reflexivity.
  - exact Hrun.
Defined.

(** ** Removing *)

(** X19: [uninstall_aivm] of a cached identity, with more than one model
    cached, removes the file the cache names for it and no other: whether
    or not the rescan that follows returns, that path is gone from the
    directory and every other path is as it was.  When the call returns
    and the identity is still in the cache, the entry comes from another
    file of the directory that carries the same identity. *)
Theorem X19_uninstall_removes_the_file (E : Env) (m : manager)
    (infos : aivm_dict) (aivm_uuid : string) (aivm_info : AivmInfo) :
  _installed_aivm_infos m = Some infos ->
  lookup aivm_uuid infos = Some aivm_info ->
  (1 < List.length infos)%nat ->
  node_at (file_path aivm_info) (installed_aivm_dir m) <> Some Directory ->
  let after := snd (uninstall_aivm E aivm_uuid m) in
  node_at (file_path aivm_info) (installed_aivm_dir after) = None
  /\ (forall other,
        other <> file_path aivm_info ->
        node_at other (installed_aivm_dir after)
        = node_at other (installed_aivm_dir m))
  /\ (fst (uninstall_aivm E aivm_uuid m) = Ok tt ->
      forall aivm_info',
        lookup aivm_uuid (cached after) = Some aivm_info' ->
        file_path aivm_info' <> file_path aivm_info
        /\ mf_uuid (manifest aivm_info') = aivm_uuid
        /\ exists data,
             In (file_path aivm_info', RegularFile data)
                (installed_aivm_dir m)
             /\ read_metadata E (file_path aivm_info') data
                = Some (manifest aivm_info')).
Proof.
  intros Hcache Hl Hlen Hnode after. subst after.
  unfold uninstall_aivm.
  rewrite (M_bind_ok _ _ _ _ _ (get_installed_cached E m infos false Hcache)).
  rewrite Hl.
  assert (Hle : (List.length infos <=? 1)%nat = false)
    by (apply Nat.leb_gt; exact Hlen).
  rewrite Hle. unfold M_bind, M_log, M_ret, unlink.
  cbn [installed_aivm_dir with_logs].
  set (path := file_path aivm_info) in *.
  set (m3 := with_logs [(INFO, Uninstalled path)]
               (with_dir (remove_node path (installed_aivm_dir m))
                         (with_logs [(INFO, Uninstalling path)] m))).
  assert (Hgone : forall n,
            (match n with
             | Some Directory =>
                 (Some "[Errno 21] Is a directory", installed_aivm_dir m)
             | _ => (None, remove_node path (installed_aivm_dir m))
             end) = (None, remove_node path (installed_aivm_dir m))
            \/ n = Some Directory)
    by (intros [[| | |] |]; auto).
  destruct (Hgone (node_at path (installed_aivm_dir m))) as [-> | Hd];
    [| contradiction].
  fold m3.
  pose proof (get_installed_dir E true true m3) as Hdir.
  destruct (get_installed_aivm_infos E true true m3) as [[r | e] m4] eqn:Hget;
    cbn [fst snd] in *.
  - split; [rewrite Hdir; apply node_at_remove_node |].
    split; [intros other Hne; rewrite Hdir;
            apply node_at_remove_node_other; exact Hne |].
    intros _ aivm_info' Hl'.
    pose proof (rescan_published E _ _ _ _ _ (or_introl eq_refl) Hget) as Hpub.
    destruct (rescan_spec E _ _ _ _ _ (or_introl eq_refl) Hget)
      as (_ & _ & _ & _ & Hcache' & _).
    unfold cached in Hl'. rewrite Hcache' in Hl'.
    rewrite Forall_forall in Hpub.
    destruct (Hpub _ (lookup_In _ _ _ Hl'))
      as (data & logs & Hin & Hread & Hk & _).
    cbn [fst snd] in *.
    apply aivm_file_paths_In in Hin. cbn in Hin.
    unfold remove_node in Hin. apply filter_In in Hin.
    destruct Hin as (Hin & Hne). cbn in Hne.
    split.
    { intros Heq. rewrite Heq, String.eqb_refl in Hne. discriminate. }
    split; [symmetry; exact Hk |].
    exists data. split; assumption.
  - split; [rewrite Hdir; apply node_at_remove_node |].
    split; [intros other Hne; rewrite Hdir;
            apply node_at_remove_node_other; exact Hne |].
    discriminate.
Qed.

Lemma X19_uninstall_removes_the_file_witness :
  let m := Fixture.scanned Fixture.dir_mixed in
  let run := uninstall_aivm Fixture.offline Fixture.uuid_b m in
  fst run = Ok tt
  /\ node_at "koharu.aivmx" (installed_aivm_dir m)
     = Some (RegularFile [2; 0])
  /\ node_at "koharu.aivmx" (installed_aivm_dir (snd run)) = None
  /\ node_at "anneli.aivmx" (installed_aivm_dir (snd run))
     = Some (RegularFile [1; 0; 0])
  /\ lookup Fixture.uuid_b (cached (snd run)) = None.
Proof.
  split; [vm_compute; reflexivity |].
  split; [reflexivity |].
  destruct (X19_uninstall_removes_the_file Fixture.offline
              (Fixture.scanned Fixture.dir_mixed)
              (cached (Fixture.scanned Fixture.dir_mixed)) Fixture.uuid_b
              (match lookup Fixture.uuid_b
                       (cached (Fixture.scanned Fixture.dir_mixed)) with
               | Some i => i
               | None => set_is_loaded false
                           (scanned_entry "" [] Fixture.manifest_b [])
               end))
    as (Hgone & Hother & _).
  - vm_compute. reflexivity.
  - vm_compute. reflexivity.
  - vm_compute. lia.
  - vm_compute. discriminate.
  - split; [exact Hgone |].
    split; [rewrite (Hother "anneli.aivmx"); [reflexivity |
                                              vm_compute; discriminate] |].
    vm_compute. reflexivity.
Defined.

(** ** Downloading *)

Section Downloading.

Variable E : Env.

(** What a call of [install_aivm_from_url] comes to: the two refusals, or
    [install_aivm] on what a download has delivered.  Up to that point the
    directory and the cache are untouched. *)
Lemma install_aivm_from_url_outcomes (url : string) (m : manager) :
  exists m1,
    installed_aivm_dir m1 = installed_aivm_dir m
    /\ _installed_aivm_infos m1 = _installed_aivm_infos m
    /\ ((install_aivm_from_url E url m
         = (Raise (HTTPException 422 InvalidAivisHubUrl), m1)
         /\ m1 = m
         /\ startswith "https://hub.aivis-project.com/aivm-models/" url = true
         /\ uuid_search (lower url) = None)
        \/ install_aivm_from_url E url m
           = (Raise (HTTPException 500 DownloadFailed), m1)
        \/ exists target status_code content,
             ((startswith "https://hub.aivis-project.com/aivm-models/" url
               = false /\ target = url)
              \/ (startswith "https://hub.aivis-project.com/aivm-models/" url
                  = true
                  /\ exists aivm_uuid,
                       uuid_search (lower url) = Some aivm_uuid
                       /\ target = download_url aivm_uuid))
             /\ http_get E target = DownloadResponse status_code content
             /\ 200 <= status_code <= 299
             /\ install_aivm_from_url E url m = install_aivm E content m1).
Proof.
  unfold install_aivm_from_url.
  destruct (startswith "https://hub.aivis-project.com/aivm-models/" url)
    eqn:Hhub.
  - destruct (uuid_search (lower url)) as [aivm_uuid |] eqn:Hsearch.
    + unfold M_bind, M_log, M_ret, M_raise.
      destruct (http_get E (download_url aivm_uuid))
        as [| status_code content] eqn:Hget.
      * eexists. split; [| split; [| right; left; reflexivity]]; reflexivity.
      * destruct ((200 <=? status_code) && (status_code <=? 299)) eqn:Hrange.
        -- eexists; split; [| split];
             [| | right; right;
                  exists (download_url aivm_uuid), status_code, content;
                  split; [right; split; [reflexivity |]; eauto |];
                  split; [exact Hget |]; split; [lia | reflexivity]];
             reflexivity.
        -- eexists. split; [| split; [| right; left; reflexivity]];
             reflexivity.
    + exists m. split; [reflexivity |]. split; [reflexivity |].
      left. auto.
  - unfold M_bind, M_log, M_ret, M_raise.
    destruct (http_get E url) as [| status_code content] eqn:Hget.
    + eexists. split; [| split; [| right; left; reflexivity]]; reflexivity.
    + destruct ((200 <=? status_code) && (status_code <=? 299)) eqn:Hrange.
      * eexists; split; [| split];
          [| | right; right; exists url, status_code, content;
               split; [left; auto |];
               split; [exact Hget |]; split; [lia | reflexivity]];
          reflexivity.
      * eexists. split; [| split; [| right; left; reflexivity]]; reflexivity.
Qed.

Lemma lower_append (a b : string) :
  lower (a ++ b) = (lower a ++ lower b)%string.
Proof. induction a as [| c a IH]; cbn; [reflexivity | rewrite IH; reflexivity]. Qed.

Lemma hex_run_append (n : nat) (s t run rest : string) :
  hex_run n s = Some (run, rest) ->
  hex_run n (s ++ t) = Some (run, (rest ++ t)%string).
Proof.
  revert s run rest. induction n as [| n IH]; intros s run rest; cbn.
  - intros [= <- <-]. reflexivity.
  - destruct s as [| c s]; [discriminate |]. cbn.
    destruct (is_hex c); [| discriminate].
    destruct (hex_run n s) as [[run' rest'] |] eqn:Hrun; [| discriminate].
    intros [= <- <-]. rewrite (IH _ _ _ Hrun). reflexivity.
Qed.

Lemma dash_append (s t rest : string) :
  dash s = Some rest -> dash (s ++ t) = Some (rest ++ t)%string.
Proof.
  unfold dash. destruct s as [| c s]; [discriminate |].
  cbn [append]. destruct c as [[] [] [] [] [] [] [] []]; try discriminate.
  intros [= <-]. reflexivity.
Qed.

(** What follows an identity does not change the match. *)
Lemma uuid_at_append (s t aivm_uuid : string) :
  uuid_at s = Some aivm_uuid -> uuid_at (s ++ t) = Some aivm_uuid.
Proof.
  unfold uuid_at.
  destruct (hex_run 8 s) as [[g1 s1] |] eqn:H1; [| discriminate].
  rewrite (hex_run_append _ _ t _ _ H1).
  destruct (dash s1) as [s1' |] eqn:D1; [| discriminate].
  rewrite (dash_append _ t _ D1).
  destruct (hex_run 4 s1') as [[g2 s2] |] eqn:H2; [| discriminate].
  rewrite (hex_run_append _ _ t _ _ H2).
  destruct (dash s2) as [s2' |] eqn:D2; [| discriminate].
  rewrite (dash_append _ t _ D2).
  destruct (hex_run 4 s2') as [[g3 s3] |] eqn:H3; [| discriminate].
  rewrite (hex_run_append _ _ t _ _ H3).
  destruct (dash s3) as [s3' |] eqn:D3; [| discriminate].
  rewrite (dash_append _ t _ D3).
  destruct (hex_run 4 s3') as [[g4 s4] |] eqn:H4; [| discriminate].
  rewrite (hex_run_append _ _ t _ _ H4).
  destruct (dash s4) as [s4' |] eqn:D4; [| discriminate].
  rewrite (dash_append _ t _ D4).
  destruct (hex_run 12 s4') as [[g5 s5] |] eqn:H5; [| discriminate].
  rewrite (hex_run_append _ _ t _ _ H5).
  intros H. exact H.
Qed.

Lemma startswith_append (p t : string) : startswith p (p ++ t) = true.
Proof.
  unfold startswith. induction p as [| c p IH]; cbn.
  - destruct t; reflexivity.
  - destruct (ascii_dec c c) as [_ | Hne]; [exact IH | contradiction].
Qed.

Lemma uuid_search_skip (c : ascii) (s : string) :
  startswith "/aivm-models/" (String c s) = false ->
  uuid_search (String c s) = uuid_search s.
Proof. intros H. cbn [uuid_search]. rewrite H. reflexivity. Qed.

Lemma uuid_search_here (s aivm_uuid : string) :
  startswith "/aivm-models/" s = true ->
  uuid_at (drop 13 s) = Some aivm_uuid ->
  uuid_search s = Some aivm_uuid.
Proof.
  intros Hs Hu. destruct s as [| c s]; cbn [uuid_search];
    rewrite Hs, Hu; reflexivity.
Qed.

(** The search finds the identity that follows the address of a model
    page. *)
Lemma uuid_search_model_page (tail aivm_uuid : string) :
  uuid_at tail = Some aivm_uuid ->
  uuid_search ("https://hub.aivis-project.com/aivm-models/" ++ tail)
  = Some aivm_uuid.
Proof.
  intros Hu.
  change ("https://hub.aivis-project.com/aivm-models/" ++ tail)%string
    with ("https://hub.aivis-project.com"
            ++ ("/aivm-models/" ++ tail))%string.
  cbn [append].
  repeat (rewrite uuid_search_skip by reflexivity).
  apply uuid_search_here;
    [exact (startswith_append "/aivm-models/" tail) | exact Hu].
Qed.

End Downloading.

(** X20: [update_aivm] refuses an identity that is not cached with status
    404 and one without a pending update with status 422, and then leaves
    the manager as it was and logs nothing.  It changes the directory, or
    returns, only after the catalog's download address of that identity
    has answered with a 2xx status, and what it then does is
    [install_aivm] on the bytes received. *)
Theorem X20_update_aivm (E : Env) (m : manager) (infos : aivm_dict)
    (aivm_uuid : string) :
  _installed_aivm_infos m = Some infos ->
  (lookup aivm_uuid infos = None ->
   update_aivm E aivm_uuid m
   = (Fail (Raised (HTTPException 404 (ModelNotInstalled aivm_uuid))),
      m, []))
  /\ (forall aivm_info,
        lookup aivm_uuid infos = Some aivm_info ->
        is_update_available aivm_info = false ->
        update_aivm E aivm_uuid m
        = (Fail (RaisedHTTP 422 (NoUpdateAvailable aivm_uuid)), m, []))
  /\ (let '(result, after, records) := update_aivm E aivm_uuid m in
      result = Return tt
      \/ installed_aivm_dir after <> installed_aivm_dir m ->
      exists aivm_info status_code content m1,
        lookup aivm_uuid infos = Some aivm_info
        /\ is_update_available aivm_info = true
        /\ http_get E (download_url aivm_uuid)
           = DownloadResponse status_code content
        /\ 200 <= status_code <= 299
        /\ installed_aivm_dir m1 = installed_aivm_dir m
        /\ _installed_aivm_infos m1 = Some infos
        /\ after = snd (install_aivm E content m1)
        /\ (result = Return tt -> fst (install_aivm E content m1) = Ok tt)
        /\ hd_error records
           = Some (UpdatingModel aivm_uuid (latest_version aivm_info))).
Proof.
  intros Hcache. unfold update_aivm.
  rewrite (get_installed_cached E m infos false Hcache).
  split; [intros ->; reflexivity |].
  split; [intros aivm_info -> ->; reflexivity |].
  destruct (lookup aivm_uuid infos) as [aivm_info |];
    [| intros [H | H]; [discriminate | contradiction]].
  destruct (is_update_available aivm_info) eqn:Hflag; cbn [negb];
    [| intros [H | H]; [discriminate | contradiction]].
  destruct (install_aivm_from_url_outcomes E (download_url aivm_uuid) m)
    as (m1 & Hdir & Hcache1 & [(_ & _ & Hhub & _) | [Hfail | Hrun]]).
  - rewrite download_url_is_direct in Hhub. discriminate.
  - rewrite Hfail. intros [H | H]; [discriminate |].
    cbn in H. rewrite Hdir in H. contradiction.
  - destruct Hrun as (target & status_code & content & Htarget & Hget
                      & Hrange & Heq).
    assert (target = download_url aivm_uuid) as ->.
    { destruct Htarget as [(_ & ->) | (Hhub & _)]; [reflexivity |].
      rewrite download_url_is_direct in Hhub. discriminate. }
    rewrite Heq.
    destruct (install_aivm E content m1) as [[[] | e] m2] eqn:Hinstall;
      intros _; exists aivm_info, status_code, content, m1;
      rewrite Hinstall, Hcache1; cbn [fst snd hd_error];
      repeat split; auto; try lia.
    discriminate.
Qed.

Lemma X20_update_aivm_witness :
  let m := Fixture.scanned Fixture.dir_mixed in
  let served :=
    Fixture.env Fixture.catalog (fun _ => DownloadResponse 200 [2; 7])
                (fun _ _ => WriteCompletes) in
  let checked := snd (check_aivm_updates_from_hub served m) in
  _installed_aivm_infos m = Some (cached m)
  /\ update_aivm Fixture.online Fixture.uuid_c m
     = (Fail (Raised (HTTPException 404
                        (ModelNotInstalled Fixture.uuid_c))), m, [])
  /\ update_aivm Fixture.online Fixture.uuid_b m
     = (Fail (RaisedHTTP 422 (NoUpdateAvailable Fixture.uuid_b)), m, [])
  /\ fst (fst (update_aivm served Fixture.uuid_b checked)) = Return tt
  /\ node_at "koharu.aivmx"
       (installed_aivm_dir (snd (fst (update_aivm served Fixture.uuid_b
                                        checked))))
     = Some (RegularFile [2; 7])
  /\ exists aivm_info status_code content m1,
       lookup Fixture.uuid_b (cached checked) = Some aivm_info
       /\ is_update_available aivm_info = true
       /\ http_get served (download_url Fixture.uuid_b)
          = DownloadResponse status_code content
       /\ 200 <= status_code <= 299
       /\ snd (fst (update_aivm served Fixture.uuid_b checked))
          = snd (install_aivm served content m1).
Proof.
  intros m served checked.
  assert (H : _installed_aivm_infos m = Some (cached m))
    by (vm_compute; reflexivity).
  assert (H' : _installed_aivm_infos checked = Some (cached checked))
    by (vm_compute; reflexivity).
  split; [exact H |].
  destruct (X20_update_aivm Fixture.online m (cached m) Fixture.uuid_c H)
    as (Hmissing & _).
  destruct (X20_update_aivm Fixture.online m (cached m) Fixture.uuid_b H)
    as (_ & Hcurrent & _).
  destruct (X20_update_aivm served checked (cached checked) Fixture.uuid_b H')
    as (_ & _ & Hserved).
  split; [apply Hmissing; vm_compute; reflexivity |].
  split.
  { apply (Hcurrent
             (match lookup Fixture.uuid_b (cached m) with
              | Some i => i
              | None => set_is_loaded false
                          (scanned_entry "" [] Fixture.manifest_b [])
              end)); vm_compute; reflexivity. }
  assert (Hreturns : fst (fst (update_aivm served Fixture.uuid_b checked))
                     = Return tt)
    by (vm_compute; reflexivity).
  split; [exact Hreturns |].
  split; [vm_compute; reflexivity |].
  destruct (update_aivm served Fixture.uuid_b checked)
    as [[result after] records].
  destruct (Hserved (or_introl Hreturns))
    as (aivm_info & status_code & content & m1 & Hl & Hflag & Hget & Hrange
        & _ & _ & Hafter & _).
  exists aivm_info, status_code, content, m1. auto.
Defined.

(** X21: [install_aivm_from_url] takes the address of a model page of the
    hub, in either letter case and whatever follows the identity, for the
    catalog's download address of the lower-cased identity: the call is
    the call on that address, after one line of log. *)
Theorem X21_hub_page_url (E : Env) (aivm_uuid rest : string) (m : manager) :
  uuid_at (lower aivm_uuid) = Some (lower aivm_uuid) ->
  install_aivm_from_url E
    ("https://hub.aivis-project.com/aivm-models/" ++ aivm_uuid ++ rest) m
  = install_aivm_from_url E (download_url (lower aivm_uuid))
      (with_logs
         [(INFO, DetectedAivisHubUrl (download_url (lower aivm_uuid)))] m).
Proof.
  intros Hu.
  assert (Hsearch :
            uuid_search
              (lower ("https://hub.aivis-project.com/aivm-models/"
                        ++ aivm_uuid ++ rest))
            = Some (lower aivm_uuid)).
  { rewrite !lower_append.
    change (lower "https://hub.aivis-project.com/aivm-models/")
      with "https://hub.aivis-project.com/aivm-models/".
    apply uuid_search_model_page, uuid_at_append. exact Hu. }
  unfold install_aivm_from_url.
  rewrite download_url_is_direct.
  rewrite startswith_append, Hsearch.
  reflexivity.
Qed.

Lemma X21_hub_page_url_witness :
  let page :=
    "https://hub.aivis-project.com/aivm-models/A59CB814-0083-4369-8542-F51A29E72AF7/files?tab=1" in
  let m := Fixture.scanned Fixture.dir_anneli in
  uuid_at (lower "A59CB814-0083-4369-8542-F51A29E72AF7")
  = Some "a59cb814-0083-4369-8542-f51a29e72af7"
  /\ install_aivm_from_url Fixture.offline page m
     = install_aivm_from_url Fixture.offline
         (download_url "a59cb814-0083-4369-8542-f51a29e72af7")
         (with_logs
            [(INFO, DetectedAivisHubUrl
                      (download_url "a59cb814-0083-4369-8542-f51a29e72af7"))]
            m).
Proof.
  split; [reflexivity |].
  apply (X21_hub_page_url Fixture.offline
           "A59CB814-0083-4369-8542-F51A29E72AF7" "/files?tab=1"
           (Fixture.scanned Fixture.dir_anneli)).
  reflexivity.
Defined.

(** X22: [install_aivm_from_url] touches neither the directory nor the
    cache unless a download has succeeded.  A model page of the hub with
    no identity in its address is refused with status 422 and the manager
    is as it was.  When the request for the address asked (the one given,
    or the download address of the identity found in a model page) raises
    [httpx.HTTPError] or is answered outside 200..299, the call fails with
    status 500 and the directory and the cache are as they were.  The call
    returns, or leaves the directory or the cache changed, only when that
    address has answered with a 2xx status, and then it is [install_aivm]
    on the bytes received. *)
Theorem X22_install_from_url_frame (E : Env) (url : string) (m : manager) :
  let page := startswith "https://hub.aivis-project.com/aivm-models/" url in
  let asked target :=
    (page = false /\ target = url)
    \/ (page = true
        /\ exists aivm_uuid,
             uuid_search (lower url) = Some aivm_uuid
             /\ target = download_url aivm_uuid) in
  let run := install_aivm_from_url E url m in
  (page = true ->
   uuid_search (lower url) = None ->
   run = (Raise (HTTPException 422 InvalidAivisHubUrl), m))
  /\ (forall target,
        asked target ->
        match http_get E target with
        | DownloadHTTPError => True
        | DownloadResponse status_code _ => ~ 200 <= status_code <= 299
        end ->
        fst run = Raise (HTTPException 500 DownloadFailed)
        /\ installed_aivm_dir (snd run) = installed_aivm_dir m
        /\ _installed_aivm_infos (snd run) = _installed_aivm_infos m)
  /\ (fst run = Ok tt
      \/ installed_aivm_dir (snd run) <> installed_aivm_dir m
      \/ _installed_aivm_infos (snd run) <> _installed_aivm_infos m ->
      exists target status_code content m1,
        asked target
        /\ http_get E target = DownloadResponse status_code content
        /\ 200 <= status_code <= 299
        /\ installed_aivm_dir m1 = installed_aivm_dir m
        /\ _installed_aivm_infos m1 = _installed_aivm_infos m
        /\ run = install_aivm E content m1).
Proof.
  cbv zeta.
  assert (Hframe : forall (target : string) (r : result unit) (m1 : manager),
            installed_aivm_dir m1 = installed_aivm_dir m ->
            _installed_aivm_infos m1 = _installed_aivm_infos m ->
            r <> Ok tt ->
            fst (r, m1) = Ok tt
            \/ installed_aivm_dir (snd (r, m1)) <> installed_aivm_dir m
            \/ _installed_aivm_infos (snd (r, m1)) <> _installed_aivm_infos m ->
            False).
  { intros _ r m1 Hdir Hcache Hr. cbn [fst snd]. rewrite Hdir, Hcache.
    intros [H | [H | H]]; [exact (Hr H) | exact (H eq_refl) | exact (H eq_refl)]. }
  unfold install_aivm_from_url.
  destruct (startswith "https://hub.aivis-project.com/aivm-models/" url)
    eqn:Hpage.
  - destruct (uuid_search (lower url)) as [aivm_uuid |] eqn:Hsearch.
    + unfold M_bind, M_log, M_ret, M_raise.
      split; [intros _ H; discriminate |].
      destruct (http_get E (download_url aivm_uuid))
        as [| status_code content] eqn:Hget.
      * split.
        -- intros target [[H _] | [_ (u & Hu & ->)]]; [discriminate |].
           injection Hu as <-. intros _. cbn [fst snd]. auto.
        -- intros H. exfalso.
           refine (Hframe url _ _ _ _ _ H); [reflexivity | reflexivity |].
           discriminate.
      * destruct ((200 <=? status_code) && (status_code <=? 299)) eqn:Hrange.
        -- split.
           ++ intros target [[H _] | [_ (u & Hu & ->)]]; [discriminate |].
              injection Hu as <-. rewrite Hget. intros Hout.
              exfalso. apply Hout. lia.
           ++ intros _.
              eexists (download_url aivm_uuid), status_code, content, _.
              split; [right; split; [reflexivity |]; eauto |].
              split; [exact Hget |]. split; [lia |].
              split; [| split]; [| | reflexivity]; reflexivity.
        -- split.
           ++ intros target [[H _] | [_ (u & Hu & ->)]]; [discriminate |].
              injection Hu as <-. intros _. cbn [fst snd]. auto.
           ++ intros H. exfalso.
              refine (Hframe url _ _ _ _ _ H); [reflexivity | reflexivity |].
              discriminate.
    + unfold M_bind at 1, M_raise.
      split; [reflexivity |].
      split.
      * intros target [[H _] | [_ (u & Hu & _)]]; discriminate.
      * intros H. exfalso.
        refine (Hframe url _ _ _ _ _ H); [reflexivity | reflexivity |].
        discriminate.
  - unfold M_bind, M_log, M_ret, M_raise.
    split; [intros H; discriminate |].
    destruct (http_get E url) as [| status_code content] eqn:Hget.
    + split.
      * intros target [[_ ->] | [H _]]; [| discriminate].
        intros _. cbn [fst snd]. auto.
      * intros H. exfalso.
        refine (Hframe url _ _ _ _ _ H); [reflexivity | reflexivity |].
        discriminate.
    + destruct ((200 <=? status_code) && (status_code <=? 299)) eqn:Hrange.
      * split.
        -- intros target [[_ ->] | [H _]]; [| discriminate].
           rewrite Hget. intros Hout. exfalso. apply Hout. lia.
        -- intros _. eexists url, status_code, content, _.
           split; [left; auto |].
           split; [exact Hget |]. split; [lia |].
           split; [| split]; [| | reflexivity]; reflexivity.
      * split.
        -- intros target [[_ ->] | [H _]]; [| discriminate].
           intros _. cbn [fst snd]. auto.
        -- intros H. exfalso.
           refine (Hframe url _ _ _ _ _ H); [reflexivity | reflexivity |].
           discriminate.
Qed.

Lemma X22_install_from_url_frame_witness :
  let m := Fixture.scanned Fixture.dir_anneli in
  let served :=
    Fixture.env Fixture.catalog (fun _ => DownloadResponse 200 [2; 7])
                (fun _ _ => WriteCompletes) in
  let url := "https://example.com/koharu.aivmx" in
  (fst (install_aivm_from_url Fixture.offline url m)
   = Raise (HTTPException 500 DownloadFailed)
   /\ installed_aivm_dir (snd (install_aivm_from_url Fixture.offline url m))
      = installed_aivm_dir m)
  /\ install_aivm_from_url Fixture.offline
       "https://hub.aivis-project.com/aivm-models/latest" m
     = (Raise (HTTPException 422 InvalidAivisHubUrl), m)
  /\ fst (install_aivm_from_url served url m) = Ok tt
  /\ exists content m1,
       http_get served url = DownloadResponse 200 content
       /\ installed_aivm_dir m1 = installed_aivm_dir m
       /\ install_aivm_from_url served url m = install_aivm served content m1.
Proof.
  intros m served url.
  destruct (X22_install_from_url_frame Fixture.offline url m)
    as (_ & Hfails & _).
  destruct (X22_install_from_url_frame Fixture.offline
              "https://hub.aivis-project.com/aivm-models/latest" m)
    as (Hrefused & _ & _).
  destruct (X22_install_from_url_frame served url m) as (_ & _ & Honly).
  assert (Hreturns : fst (install_aivm_from_url served url m) = Ok tt)
    by (vm_compute; reflexivity).
  split.
  { destruct (Hfails url) as (H1 & H2 & _);
      [left; split; reflexivity | exact I |]. split; assumption. }
  split; [apply Hrefused; reflexivity |].
  split; [exact Hreturns |].
  destruct (Honly (or_introl Hreturns))
    as (target & status_code & content & m1 & Hasked & Hget & _ & Hdir & _
        & Hrun).
  destruct Hasked as [(_ & ->) | (Hpage & _)]; [| discriminate Hpage].
  exists content, m1. split; [| split; assumption].
  rewrite Hget. f_equal.
  assert (H : http_get served url = DownloadResponse 200 [2; 7])
    by reflexivity.
  rewrite Hget in H. injection H as H _. exact H.
Defined.

(** ** When the rescan returns *)

Section PlainVersions.

Lemma digit_not_space (c : ascii) : is_digit c = true -> is_space c = false.
Proof.
  unfold is_digit, is_space. cbv zeta.
  rewrite andb_true_iff, !Z.leb_le. intros [Hlo Hhi].
  apply orb_false_iff. split.
  - apply andb_false_iff. right. apply Z.leb_gt. lia.
  - apply Z.eqb_neq. lia.
Qed.

Lemma rstrip_digits (s : string) : all_digits s = true -> rstrip s = s.
Proof.
  induction s as [| c s IH]; [reflexivity |].
  cbn [all_digits rstrip]. rewrite andb_true_iff. intros [Hc Hs].
  rewrite (IH Hs). destruct s; [| reflexivity].
  rewrite (digit_not_space c Hc). reflexivity.
Qed.

Lemma digits_acc_digits (s : string) :
  all_digits s = true ->
  forall acc after_digit,
    s <> "" \/ after_digit = true ->
    exists n, digits_acc s acc after_digit = Some n.
Proof.
  induction s as [| c s IH]; intros _H acc after_digit Hne.
  - destruct Hne as [Hne | ->]; [contradiction |]. exists acc. reflexivity.
  - cbn [all_digits] in _H. apply andb_true_iff in _H.
    destruct _H as [Hc Hs]. cbn [digits_acc]. rewrite Hc.
    apply (IH Hs). right. reflexivity.
Qed.

(** [int] returns on a plain number. *)
Lemma int_plain_number (s : string) :
  plain_number s = true -> exists n, int s = Ok n.
Proof.
  unfold plain_number. intros H.
  apply andb_true_iff in H. destruct H as [H _].
  apply andb_true_iff in H. destruct H as [Hne Hdigits].
  destruct s as [| c s]; [discriminate |].
  assert (Hsome : String c s <> "" \/ false = true) by (left; discriminate).
  destruct (digits_acc_digits _ Hdigits 0 false Hsome) as (n & Hn).
  assert (Hc : is_digit c = true)
    by (cbn [all_digits] in Hdigits; apply andb_true_iff in Hdigits; tauto).
  unfold int, strip. cbn [lstrip]. rewrite (digit_not_space c Hc).
  rewrite (rstrip_digits _ Hdigits).
  exists n. revert Hn Hc.
  destruct c as [[] [] [] [] [] [] [] []]; intros Hn Hc;
    try (vm_compute in Hc; discriminate Hc);
    cbv beta iota zeta; rewrite Hn; reflexivity.
Qed.

Lemma map_result_int_plain (parts : list string) :
  Forall (fun part => plain_number part = true) parts ->
  exists numbers, map_result int parts = Ok numbers.
Proof.
  induction 1 as [| part parts Hpart _ (numbers & IH)];
    [exists []; reflexivity |].
  destruct (int_plain_number part Hpart) as (n & Hn).
  exists (n :: numbers). cbn [map_result]. rewrite Hn. cbn. rewrite IH.
  reflexivity.
Qed.

Lemma plainly_versioned_well_formed (aivm_manifest : AivmManifest) :
  plainly_versioned aivm_manifest -> well_formed aivm_manifest.
Proof.
  intros [Hversion Hspeakers]. split; [| exact Hspeakers].
  intros Hlen. apply map_result_int_plain, Hversion, Hlen.
Qed.

End PlainVersions.

(** X23: [get_installed_aivm_infos] returns, and does not raise, whenever
    no file of the directory is unreadable and, of every regular file in
    it, the reader either raises [AivmValidationError] or returns a
    manifest that is well formed: data URLs where they are decoded, a
    speaker identity, local style indices in 0..31 and, in a two-part
    manifest version, two plain runs of ASCII digits.  Sub-directories,
    dangling links, files the reader rejects and unsupported packages do
    not stop it.  The result is the cache the manager holds afterwards,
    and the directory is as it was. *)
Theorem X23_rescan_returns (E : Env) (force wait : bool) (m : manager) :
  (forall path, ~ In (path, Unreadable) (installed_aivm_dir m)) ->
  (forall path data,
     In (path, RegularFile data) (installed_aivm_dir m) ->
     read_metadata E path data = None
     \/ exists aivm_manifest,
          read_metadata E path data = Some aivm_manifest
          /\ plainly_versioned aivm_manifest) ->
  exists infos m',
    get_installed_aivm_infos E force wait m = (Ok infos, m')
    /\ _installed_aivm_infos m' = Some infos
    /\ installed_aivm_dir m' = installed_aivm_dir m.
Proof.
  intros Hreadable Hreader.
  assert (Hwf : forall path data aivm_manifest,
            In (path, RegularFile data) (installed_aivm_dir m) ->
            read_metadata E path data = Some aivm_manifest ->
            well_formed aivm_manifest).
  { intros path data aivm_manifest Hin Hread.
    destruct (Hreader path data Hin) as [Hnone | (found & Hsome & Hplain)];
      [congruence |].
    rewrite Hsome in Hread. injection Hread as <-.
    apply plainly_versioned_well_formed, Hplain. }
  destruct (get_installed_aivm_infos_completes E force wait m Hreadable Hwf)
    as (infos & m' & Hget).
  exists infos, m'. split; [exact Hget |].
  pose proof (get_installed_dir E force wait m) as Hdir.
  rewrite Hget in Hdir. cbn [snd] in Hdir.
  split; [| exact Hdir].
  destruct (_installed_aivm_infos m) as [old |] eqn:Hc.
  - destruct force.
    + destruct (rescan_spec E _ _ _ _ _ (or_introl eq_refl) Hget)
        as (_ & _ & _ & _ & Hcache' & _).
      exact Hcache'.
    + rewrite (get_installed_cached E m old wait Hc) in Hget.
      injection Hget as <- <-. exact Hc.
  - destruct (rescan_spec E _ _ _ _ _ (or_intror Hc) Hget)
      as (_ & _ & _ & _ & Hcache' & _).
    exact Hcache'.
Qed.

Lemma X23_rescan_returns_witness :
  let m := Fixture.manager_of Fixture.dir_mixed None in
  exists infos m',
    get_installed_aivm_infos Fixture.offline true true m = (Ok infos, m')
    /\ _installed_aivm_infos m' = Some infos
    /\ installed_aivm_dir m' = installed_aivm_dir m.
Proof.
  assert (Hstyle : forall local_id name,
            0 <= local_id <= 31 ->
            well_formed_style (Fixture.style local_id name)).
  { intros local_id name Hrange. split; [exact Hrange |].
    split; [exact I |]. repeat constructor. }
  assert (Ha : plainly_versioned Fixture.manifest_a).
  { split; [intros _; repeat constructor |].
    repeat constructor; try discriminate; apply Hstyle; lia. }
  assert (Hb : plainly_versioned Fixture.manifest_b).
  { split; [intros _; repeat constructor |].
    repeat constructor; try discriminate; apply Hstyle; lia. }
  apply (X23_rescan_returns Fixture.offline true true
           (Fixture.manager_of Fixture.dir_mixed None)).
  - intros path Hin. cbn in Hin.
    repeat (destruct Hin as [Hin | Hin]; [discriminate |]). exact Hin.
  - intros path data Hin. cbn in Hin.
    repeat (destruct Hin as [Hin | Hin];
            [try discriminate; injection Hin as <- <-;
             first [left; reflexivity
                   | right; exists Fixture.manifest_a;
                     split; [reflexivity | exact Ha]
                   | right; exists Fixture.manifest_b;
                     split; [reflexivity | exact Hb]] |]).
    destruct Hin.
Defined.

(** ** The constructor on a directory that holds models *)

Section Constructor.

Variable E : Env.

(** A loop that only logs. *)
Lemma for_each_log {A : Type} (record : A -> message) (l : list A)
    (m : manager) :
  exists m',
    for_each l (fun a => M_log INFO (record a)) m = (Ok tt, m')
    /\ installed_aivm_dir m' = installed_aivm_dir m
    /\ _installed_aivm_infos m' = _installed_aivm_infos m
    /\ background_update_checks m' = background_update_checks m
    /\ logger m' = logger m ++ map (fun a => (INFO, record a)) l.
Proof.
  revert m. induction l as [| a l IH]; intros m; cbn [for_each map].
  - exists m. rewrite app_nil_r. auto.
  - unfold M_bind at 1, M_log at 1.
    destruct (IH (with_logs [(INFO, record a)] m))
      as (m' & Hrun & Hdir & Hcache & Hbg & Hlog).
    exists m'. rewrite Hrun, Hdir, Hcache, Hbg, Hlog. cbn.
    rewrite <- app_assoc. auto.
Qed.

End Constructor.

(** X24: when the first scan of the directory returns at least one model,
    the constructor returns and installs nothing: the directory is as it
    was given, the cache is what the scan returned, and the log goes on
    with the heading and one line per model, in the order of the cache,
    and with no line of a download. *)
Theorem X24_constructor_with_models (E : Env) (dir : directory)
    (infos : aivm_dict) (m1 : manager) :
  get_installed_aivm_infos E false false
    {| installed_aivm_dir := dir;
       _installed_aivm_infos := None;
       logger := [(INFO, ModelsDirectory)];
       background_update_checks := O |} = (Ok infos, m1) ->
  infos <> [] ->
  exists m',
    __init__ E dir = (Ok tt, m')
    /\ installed_aivm_dir m' = dir
    /\ _installed_aivm_infos m' = Some infos
    /\ logger m'
       = logger m1
         ++ (INFO, InstalledModels)
         :: map (fun aivm_info =>
                   (INFO, InstalledModel (mf_name (manifest aivm_info))
                                         (mf_uuid (manifest aivm_info))))
                (values infos).
Proof.
  intros Hget Hsome.
  destruct (rescan_spec E false false _ m1 infos
              (or_intror (eq_refl : _installed_aivm_infos
                                      {| installed_aivm_dir := dir;
                                         _installed_aivm_infos := None;
                                         logger := [(INFO, ModelsDirectory)];
                                         background_update_checks := O |}
                                    = None)) Hget)
    as (_ & _ & _ & _ & Hcache & Hdir).
  cbn [installed_aivm_dir] in Hdir.
  unfold __init__. unfold M_bind at 1, M_log at 1.
  change (with_logs [(INFO, ModelsDirectory)] _)
    with {| installed_aivm_dir := dir;
            _installed_aivm_infos := None;
            logger := [(INFO, ModelsDirectory)];
            background_update_checks := O |}.
  unfold M_bind at 1. rewrite Hget.
  destruct infos as [| item infos]; [contradiction |].
  cbn [List.length Nat.eqb].
  unfold M_bind at 1, M_log at 1.
  destruct (for_each_log
              (fun aivm_info =>
                 InstalledModel (mf_name (manifest aivm_info))
                                (mf_uuid (manifest aivm_info)))
              (values (item :: infos))
              (with_logs [(INFO, InstalledModels)] m1))
    as (m' & Hrun & Hdir' & Hcache' & _ & Hlog).
  exists m'. split; [exact Hrun |].
  rewrite Hdir', Hcache', Hlog. cbn [installed_aivm_dir _installed_aivm_infos
                                     logger with_logs].
  rewrite <- app_assoc. auto.
Qed.

Lemma X24_constructor_with_models_witness :
  exists m',
    __init__ Fixture.offline Fixture.dir_anneli = (Ok tt, m')
    /\ installed_aivm_dir m' = Fixture.dir_anneli
    /\ (exists aivm_info,
          _installed_aivm_infos m' = Some [(Fixture.uuid_a, aivm_info)])
    /\ last (logger m') (INFO, ModelsDirectory)
       = (INFO, InstalledModel "Anneli" Fixture.uuid_a).
Proof.
  pose (start := {| installed_aivm_dir := Fixture.dir_anneli;
                    _installed_aivm_infos := None;
                    logger := [(INFO, ModelsDirectory)];
                    background_update_checks := O |}).
  pose (run := get_installed_aivm_infos Fixture.offline false false start).
  assert (Hrun : run = (Ok (cached (snd run)), snd run))
    by (vm_compute; reflexivity).
  assert (Hcached : exists aivm_info,
            cached (snd run) = [(Fixture.uuid_a, aivm_info)])
    by (eexists; vm_compute; reflexivity).
  destruct Hcached as (aivm_info & Hcached).
  destruct (X24_constructor_with_models Fixture.offline Fixture.dir_anneli
              (cached (snd run)) (snd run) Hrun)
    as (m' & Hinit & Hdir & Hcache & Hlog).
  - rewrite Hcached. discriminate.
  - exists m'. split; [exact Hinit |]. split; [exact Hdir |].
    split; [exists aivm_info; rewrite Hcache, Hcached; reflexivity |].
    rewrite Hlog, Hcached. cbn [values map snd].
    assert (Hm : manifest aivm_info = Fixture.manifest_a).
    { assert (H : option_map manifest (lookup Fixture.uuid_a (cached (snd run)))
                  = Some Fixture.manifest_a)
        by (vm_compute; reflexivity).
      rewrite Hcached in H. cbn [lookup] in H.
      rewrite String.eqb_refl in H. injection H as H. exact H. }
    rewrite Hm.
    change ((INFO, InstalledModels)
            :: [(INFO, InstalledModel (mf_name Fixture.manifest_a)
                                      (mf_uuid Fixture.manifest_a))])
      with ([(INFO, InstalledModels)]
              ++ [(INFO, InstalledModel "Anneli" Fixture.uuid_a)]).
    rewrite app_assoc. apply last_last.
Defined.
